(** * ExpenseOwl: the HTTP handler layer (internal/api/handlers.go)

  A shallow embedding of the handlers of [package api] and of the parts of
  the Go standard library they call (net/http response writing,
  encoding/json output, fmt's [%.2f], time formatting), followed by the
  properties of the handler layer.

  Go strings are byte sequences and are modelled by [string]; a [float64]
  is a [spec_float] (IEEE 754 binary64: zeros, infinities, NaN and
  [m * 2^e]); response headers are a [gmap]; the collaborators that live
  in other packages ([storage.Storage], [config.Config], [web]) are
  interfaces of the development. *)

From Stdlib Require Import ZArith Lia List Bool Ascii String.
From Stdlib Require Import Floats.SpecFloat.
From Stdlib Require Import DecimalString.
From stdpp Require Import base option list gmap strings.

Open Scope string_scope.
Open Scope Z_scope.

(** ** Text helpers *)

Module Text.

Definition LF : ascii := Ascii.ascii_of_nat 10.
Definition CR : ascii := Ascii.ascii_of_nat 13.
Definition TAB : ascii := Ascii.ascii_of_nat 9.

(** The one-character string [c]. *)
Definition chr (c : ascii) : string := String c EmptyString.

Definition newline : string := chr LF.

(** [strings.Join(l, "")]. *)
Fixpoint concat_all (l : list string) : string :=
  match l with
  | [] => ""
  | s :: l' => s ++ concat_all l'
  end.

Fixpoint forallb_str (p : ascii -> bool) (s : string) : bool :=
  match s with
  | EmptyString => true
  | String c s' => p c && forallb_str p s'
  end.

Fixpoint map_str (f : ascii -> ascii) (s : string) : string :=
  match s with
  | EmptyString => EmptyString
  | String c s' => String (f c) (map_str f s')
  end.

Definition is_digit (c : ascii) : bool :=
  let n := Z.of_nat (nat_of_ascii c) in (48 <=? n) && (n <=? 57).

(** Decimal digits of a natural number given as [Z] (["0"] for zero and
    for negative arguments, which no caller passes). *)
Definition dec (n : Z) : string := NilZero.string_of_uint (N.to_uint (Z.to_N n)).

(** [strings.Repeat("0", n)]. *)
Fixpoint zeros (n : nat) : string :=
  match n with
  | O => ""
  | S n' => String "0" (zeros n')
  end.

(** Zero padding on the left up to [width] characters. *)
Definition pad_left (width : nat) (s : string) : string :=
  zeros (width - String.length s) ++ s.

(** Splitting at line feeds, as [strings.Split(s, "\n")] does. *)
Fixpoint lines_from (cur : string -> string) (s : string) : list string :=
  match s with
  | EmptyString => [cur ""]
  | String c s' =>
      if Ascii.eqb c LF then cur "" :: lines_from (fun x => x) s'
      else lines_from (fun x => cur (String c x)) s'
  end.

Definition lines (s : string) : list string := lines_from (fun x => x) s.

(** Splitting at every [sep], as [strings.Split(s, sep)] does for a
    one-byte separator. *)
Fixpoint split_from (sep : ascii) (cur : string -> string) (s : string) : list string :=
  match s with
  | EmptyString => [cur ""]
  | String c s' =>
      if Ascii.eqb c sep then cur "" :: split_from sep (fun x => x) s'
      else split_from sep (fun x => cur (String c x)) s'
  end.

Definition split (sep : ascii) (s : string) : list string := split_from sep (fun x => x) s.

(** [strings.Count(s, c)] for a one-byte [c]. *)
Fixpoint count_char (c : ascii) (s : string) : nat :=
  match s with
  | EmptyString => O
  | String x s' => ((if Ascii.eqb x c then 1 else 0) + count_char c s')%nat
  end.

Definition has_char (c : ascii) (s : string) : bool :=
  negb (forallb_str (fun x => negb (Ascii.eqb x c)) s).

End Text.

Import Text.

(** ** package strings *)

Module strings.

(** [strings.ReplaceAll(s, old, new)] where [old] and [new] are single
    bytes, which is how the handlers call it. *)
Definition ReplaceAll1 (s : string) (old new : ascii) : string :=
  map_str (fun c => if Ascii.eqb c old then new else c) s.

End strings.

(** ** float64 and package fmt *)

Definition float64 := spec_float.

Module fmt.

Definition is_finite (f : float64) : bool :=
  match f with
  | S754_zero _ | S754_finite _ _ _ => true
  | _ => false
  end.

Definition sign_text (s : bool) : string := if s then "-" else "".

(** [num / den] rounded to the nearest integer, ties to even
    ([den > 0], [num >= 0]): the rounding of strconv's exact decimal
    conversion. *)
Definition round_half_even (num den : Z) : Z :=
  let q := num / den in
  let r := num mod den in
  if 2 * r <? den then q
  else if den <? 2 * r then q + 1
  else if Z.even q then q else q + 1.

(** [|f| * 100] rounded to an integer, for finite [f]. *)
Definition hundredths (m : positive) (e : Z) : Z :=
  if 0 <=? e then Z.pos m * 2 ^ e * 100
  else round_half_even (Z.pos m * 100) (2 ^ (- e)).

(** The digits of [q] hundredths: integer part, point, two decimals. *)
Definition fixed2 (q : Z) : string :=
  dec (q / 100) ++ "." ++ pad_left 2 (dec (q mod 100)).

(** [fmt.Sprintf("%.2f", f)]. *)
Definition Sprintf_2f (f : float64) : string :=
  match f with
  | S754_nan => "NaN"
  | S754_infinity false => "+Inf"
  | S754_infinity true => "-Inf"
  | S754_zero s => sign_text s ++ fixed2 0
  | S754_finite s m e => sign_text s ++ fixed2 (hundredths m e)
  end.

(** What "exactly two decimal places" means for a rendered number: an
    optional minus sign, at least one digit, a point, two digits. *)
Definition two_decimals (s : string) : Prop :=
  exists (neg : bool) (ip : string) (d1 d2 : ascii),
    s = sign_text neg ++ ip ++ "." ++ String d1 (String d2 "")
    /\ ip <> "" /\ forallb_str is_digit ip = true
    /\ is_digit d1 = true /\ is_digit d2 = true.

End fmt.

(** ** package time *)

Module time.

(** A fixed-offset zone, as [time.FixedZone(name, offset)] builds and as
    parsing an RFC 3339 offset yields. *)
Record Location := { zoneName : string; zoneOffset : Z }.

(** [time.Time]: the instant as seconds and nanoseconds since
    January 1, year 1, 00:00:00 UTC, and the location used to display it
    ([None] is UTC, Go's nil [loc]).  Times decoded from JSON carry no
    monotonic clock reading, so none is modelled. *)
Record Time := { sec : Z; nsec : Z; loc : option Location }.

(** The zero value [time.Time{}]. *)
Definition zero : Time := {| sec := 0; nsec := 0; loc := None |}.

(** [t.IsZero()]: the instant is January 1, year 1, 00:00:00 UTC. *)
Definition IsZero (t : Time) : bool := (sec t =? 0) && (nsec t =? 0).

(** [t.UTC()]: the same instant with the location set to UTC. *)
Definition UTC (t : Time) : Time := {| sec := sec t; nsec := nsec t; loc := None |}.

(** [t.Equal(u)]: the same instant, whatever the locations. *)
Definition Equal (t u : Time) : Prop := sec t = sec u /\ nsec t = nsec u.

Definition offset (t : Time) : Z :=
  match loc t with
  | None => 0
  | Some l => zoneOffset l
  end.

Record Civil := {
  year : Z; month : Z; day : Z; hour : Z; minute : Z; second : Z
}.

(** Proleptic Gregorian date of the day number [days] counted from
    January 1, year 1 (day 0). *)
Definition date_of_days (days : Z) : Z * Z * Z :=
  let z := days + 306 in
  let era := z / 146097 in
  let doe := z mod 146097 in
  let yoe := (doe - doe / 1460 + doe / 36524 - doe / 146096) / 365 in
  let doy := doe - (365 * yoe + yoe / 4 - yoe / 100) in
  let mp := (5 * doy + 2) / 153 in
  let d := doy - (153 * mp + 2) / 5 + 1 in
  let m := if mp <? 10 then mp + 3 else mp - 9 in
  let y := yoe + era * 400 + (if m <=? 2 then 1 else 0) in
  (y, m, d).

(** The wall clock reading of [t] in its own location. *)
Definition civil (t : Time) : Civil :=
  let abs := sec t + offset t in
  let '(y, m, d) := date_of_days (abs / 86400) in
  let s := abs mod 86400 in
  {| year := y; month := m; day := d;
     hour := s / 3600; minute := (s mod 3600) / 60; second := s mod 60 |}.

Definition Year (t : Time) : Z := year (civil t).

(** [appendInt(b, x, width)]: a sign for negative numbers, then the digits
    padded with zeros to [width]. *)
Definition appendInt (x : Z) (width : nat) : string :=
  if x <? 0 then "-" ++ pad_left width (dec (- x)) else pad_left width (dec x).

(** [2006-01-02] and [15:04:05] of a layout. *)
Definition date_text (c : Civil) : string :=
  appendInt (year c) 4 ++ "-" ++ appendInt (month c) 2 ++ "-" ++ appendInt (day c) 2.

Definition clock_text (c : Civil) : string :=
  appendInt (hour c) 2 ++ ":" ++ appendInt (minute c) 2 ++ ":" ++ appendInt (second c) 2.

(** [t.Format("2006-01-02 15:04:05")], the layout of the CSV export. *)
Definition Format_DateTime (t : Time) : string :=
  date_text (civil t) ++ " " ++ clock_text (civil t).

(** Nine digits of nanoseconds with the trailing zeros removed. *)
Fixpoint trim_zeros (fuel : nat) (n : Z) (width : nat) : string :=
  match fuel with
  | O => pad_left width (dec n)
  | S fuel' =>
      if (n mod 10 =? 0) && (0 <? Z.of_nat width)
      then trim_zeros fuel' (n / 10) (width - 1)
      else pad_left width (dec n)
  end.

Definition fraction_text (ns : Z) : string :=
  if ns =? 0 then "" else "." ++ trim_zeros 9 ns 9.

(** The zone suffix of RFC 3339: [Z] for a zero offset, else [+hh:mm] or
    [-hh:mm] (the seconds of the offset are dropped). *)
Definition zone_text (off : Z) : string :=
  if off =? 0 then "Z"
  else
    let zone := Z.quot off 60 in
    let a := Z.abs zone in
    (if zone <? 0 then "-" else "+") ++ appendInt (a / 60) 2 ++ ":" ++ appendInt (a mod 60) 2.

(** [t.Format(time.RFC3339Nano)]. *)
Definition Format_RFC3339Nano (t : Time) : string :=
  date_text (civil t) ++ "T" ++ clock_text (civil t)
  ++ fraction_text (nsec t) ++ zone_text (offset t).

(** [t.MarshalJSON()] refuses what RFC 3339 cannot write: a year outside
    [0,9999] and a zone hour outside [0,23]. *)
Definition rfc3339_ok (t : Time) : bool :=
  (0 <=? Year t) && (Year t <=? 9999)
  && (Z.abs (Z.quot (offset t) 60) / 60 <? 24).

End time.

(** ** package strconv: the shortest decimal that reads back as the float *)

Module strconv.

(** A positive binary64 in canonical form is [m * 2^e] with
    [m < 2^53] and [e >= -1074]; [canon] brings any [m * 2^e] that is a
    binary64 to that form. *)
Fixpoint canon_go (fuel : nat) (m e : Z) : Z * Z :=
  match fuel with
  | O => (m, e)
  | S fuel' =>
      if (m <? 2 ^ 52) && (-1074 <? e) then canon_go fuel' (2 * m) (e - 1)
      else if (2 ^ 53 <=? m) && Z.even m then canon_go fuel' (m / 2) (e + 1)
      else (m, e)
  end.

Definition canon (m e : Z) : Z * Z := canon_go 2200 m e.

(** Comparison of [a * 10^q] with the fraction [num / den]. *)
Definition cmp10 (a q num den : Z) : comparison :=
  if 0 <=? q then (a * 10 ^ q * den ?= num) else (a * den ?= num * 10 ^ (- q)).

(** The least [k >= start] with [num / den < 10^k]. *)
Fixpoint find_dp (fuel : nat) (k num den : Z) : Z :=
  match fuel with
  | O => k
  | S fuel' =>
      match cmp10 1 k num den with
      | Gt => k
      | _ => find_dp fuel' (k + 1) num den
      end
  end.

(** [floor ((num / den) / 10^q)]. *)
Definition floor10 (q num den : Z) : Z :=
  if 0 <=? q then num / (den * 10 ^ q) else (num * 10 ^ (- q)) / den.

Section Shortest.

(** The float is [fn / d4], the rounding interval is [lo / d4, hi / d4],
    closed when the mantissa is even. *)
Variables (fn lo hi d4 : Z) (inclusive : bool) (dp : Z).

Definition inside (a q : Z) : bool :=
  match cmp10 a q lo d4, cmp10 a q hi d4 with
  | Lt, _ => false
  | _, Gt => false
  | Eq, _ => inclusive
  | _, Eq => inclusive
  | Gt, Lt => true
  end.

(** With [n] digits: the decimal just below and just above the float;
    the one inside the interval wins, the nearer one when both are, the
    even one on a tie. *)
Definition try_digits (n : Z) : option (Z * Z) :=
  let q := dp - n in
  let down := floor10 q fn d4 in
  let up := down + 1 in
  match inside down q, inside up q with
  | false, false => None
  | true, false => Some (down, q)
  | false, true => Some (up, q)
  | true, true =>
      (* 2 * f ? (down + up) * 10^q *)
      match cmp10 (down + up) q (2 * fn) d4 with
      | Gt => Some (down, q)
      | Lt => Some (up, q)
      | Eq => Some (if Z.even down then down else up, q)
      end
  end.

Fixpoint search (fuel : nat) (n : Z) : Z * Z :=
  match fuel with
  | O => (floor10 (dp - n) fn d4, dp - n)
  | S fuel' =>
      match try_digits n with
      | Some r => r
      | None => search fuel' (n + 1)
      end
  end.

End Shortest.

(** Trailing zeros of the digits move into the exponent. *)
Fixpoint strip (fuel : nat) (a q : Z) : Z * Z :=
  match fuel with
  | O => (a, q)
  | S fuel' =>
      if (a mod 10 =? 0) && negb (a =? 0) then strip fuel' (a / 10) (q + 1) else (a, q)
  end.

(** Shortest digits of the positive float [m * 2^e]: the digit string and
    the position [dp] of the decimal point ([0.d1d2... * 10^dp]). *)
Definition shortest (m0 e0 : Z) : string * Z :=
  let '(m, e) := canon m0 e0 in
  let u := if 0 <=? e then 2 ^ e else 1 in
  let s := if 0 <=? e then 1 else 2 ^ (- e) in
  let narrow := (m =? 2 ^ 52) && (-1074 <? e) in
  let fn := 4 * m * u in
  let lo := (4 * m - (if narrow then 1 else 2)) * u in
  let hi := (4 * m + 2) * u in
  let d4 := 4 * s in
  let dp := find_dp 700 (-330) fn d4 in
  let '(a, q) := search fn lo hi d4 (Z.even m) dp 17 1 in
  let '(a', q') := strip 20 a q in
  let ds := dec a' in
  (ds, q' + Z.of_nat (String.length ds)).

Definition tail_str (s : string) : string :=
  match s with
  | EmptyString => ""
  | String _ r => r
  end.

Definition head_str (s : string) : string :=
  match s with
  | EmptyString => ""
  | String c _ => chr c
  end.

Fixpoint take_str (n : nat) (s : string) : string :=
  match n, s with
  | S n', String c r => String c (take_str n' r)
  | _, _ => ""
  end.

Fixpoint drop_str (n : nat) (s : string) : string :=
  match n, s with
  | S n', String _ r => drop_str n' r
  | _, _ => s
  end.

(** [%f] with the shortest digits. *)
Definition fmt_f (ds : string) (dp : Z) : string :=
  let nd := Z.of_nat (String.length ds) in
  (if 0 <? dp
   then take_str (Z.to_nat dp) ds ++ zeros (Z.to_nat (dp - nd))
   else "0")
  ++ (if dp <? nd
      then "." ++ zeros (Z.to_nat (- dp)) ++ drop_str (Z.to_nat dp) ds
      else "").

End strconv.

(** ** package encoding/json: output *)

Module json.

Definition byte_of (c : ascii) : Z := Z.of_nat (nat_of_ascii c).

Definition hex_digit (n : Z) : ascii :=
  if n <? 10 then ascii_of_nat (Z.to_nat (48 + n)) else ascii_of_nat (Z.to_nat (87 + n)).

Definition BACKSLASH : ascii := ascii_of_nat 92.
Definition QUOTE : ascii := ascii_of_nat 34.

(** [\u00XX] for a byte below 0x80. *)
Definition u00 (b : Z) : string :=
  String BACKSLASH (String "u" (String "0" (String "0"
    (String (hex_digit (b / 16)) (String (hex_digit (b mod 16)) ""))))).

(** [\uXXXX] with the given last digit after [\u202] or [�]. *)
Definition u_fffd : string := String BACKSLASH "ufffd".
Definition u_202 (last : ascii) : string := String BACKSLASH ("u202" ++ chr last).

(** What the encoder writes for one ASCII byte (HTML escaping is on, as it
    is for [Marshal], [MarshalIndent] and a fresh [Encoder]). *)
Definition escape_ascii (c : ascii) : string :=
  let b := byte_of c in
  if (b =? 34) || (b =? 92) then String BACKSLASH (chr c)
  else if b =? 8 then String BACKSLASH "b"
  else if b =? 12 then String BACKSLASH "f"
  else if b =? 10 then String BACKSLASH "n"
  else if b =? 13 then String BACKSLASH "r"
  else if b =? 9 then String BACKSLASH "t"
  else if (b <? 32) || (b =? 60) || (b =? 62) || (b =? 38) then u00 b
  else chr c.

Definition is_cont (b : Z) : bool := (128 <=? b) && (b <=? 191).

Definition byte_at (n : nat) (s : string) : Z :=
  match String.get n s with
  | Some c => byte_of c
  | None => -1
  end.

(** [utf8.DecodeRuneInString]: the length of the well-formed UTF-8
    sequence at the head of [s], or [0] when the head byte does not start
    one (Go's [RuneError] of size 1).  The head byte is at least 0x80. *)
Definition rune_len (s : string) : nat :=
  let b0 := byte_at 0 s in
  let b1 := byte_at 1 s in
  let b2 := byte_at 2 s in
  let b3 := byte_at 3 s in
  if (194 <=? b0) && (b0 <=? 223) then
    if is_cont b1 then 2%nat else 0%nat
  else if (224 <=? b0) && (b0 <=? 239) then
    let lo1 := if b0 =? 224 then 160 else 128 in
    let hi1 := if b0 =? 237 then 159 else 191 in
    if (lo1 <=? b1) && (b1 <=? hi1) && is_cont b2 then 3%nat else 0%nat
  else if (240 <=? b0) && (b0 <=? 244) then
    let lo1 := if b0 =? 240 then 144 else 128 in
    let hi1 := if b0 =? 244 then 143 else 191 in
    if (lo1 <=? b1) && (b1 <=? hi1) && is_cont b2 && is_cont b3 then 4%nat else 0%nat
  else 0%nat.

(** U+2028 and U+2029 are the bytes E2 80 A8 and E2 80 A9. *)
Definition is_line_sep (s : string) : option ascii :=
  if (byte_at 0 s =? 226) && (byte_at 1 s =? 128) then
    if byte_at 2 s =? 168 then Some "8"%char
    else if byte_at 2 s =? 169 then Some "9"%char
    else None
  else None.

(** The body of the string literal the encoder writes for [s]
    ([appendString]).  [skip] bytes of an already decoded rune are still to
    be passed: copied when [keep], dropped when the rune was escaped. *)
Fixpoint escape_go (skip : nat) (keep : bool) (s : string) : string :=
  match s with
  | EmptyString => EmptyString
  | String c rest =>
      match skip with
      | S k => if keep then String c (escape_go k keep rest) else escape_go k keep rest
      | O =>
          if byte_of c <? 128 then escape_ascii c ++ escape_go 0 true rest
          else
            match rune_len s with
            | O => u_fffd ++ escape_go 0 true rest
            | S k =>
                match is_line_sep s with
                | Some d => u_202 d ++ escape_go k false rest
                | None => String c (escape_go k true rest)
                end
            end
      end
  end.

Definition escape (s : string) : string := escape_go 0 true s.

(** *** JSON texts as trees

    Scalars are kept as they are written: [Lit] is a number, [true],
    [false] or [null]; [Str] holds the characters between the quotes. *)
#[warnings="-register-all"]
Inductive value : Type :=
| Lit (text : string)
| Str (body : string)
| Arr (items : list value)
| Obj (fields : list (string * value)).

Definition quoted (body : string) : string := String QUOTE body ++ chr QUOTE.

(** Items separated by [sep]. *)
Fixpoint join (sep : string) (l : list string) : string :=
  match l with
  | [] => ""
  | [x] => x
  | x :: l' => x ++ sep ++ join sep l'
  end.

(** The text of a tree for a given layout: [ws d] is the white space
    written before an element at depth [d] (and before the bracket that
    closes its parent), [colon] what separates a key from its value.
    Empty arrays and objects are always [[]] and [{}]. *)
Fixpoint render_with (ws : nat -> string) (colon : string) (depth : nat) (v : value)
  : string :=
  match v with
  | Lit t => t
  | Str b => quoted b
  | Arr [] => "[]"
  | Arr l =>
      "[" ++ ws (S depth)
      ++ join ("," ++ ws (S depth)) (map (render_with ws colon (S depth)) l)
      ++ ws depth ++ "]"
  | Obj [] => "{}"
  | Obj l =>
      "{" ++ ws (S depth)
      ++ join ("," ++ ws (S depth))
           (map (fun kv => quoted (fst kv) ++ colon
                           ++ render_with ws colon (S depth) (snd kv)) l)
      ++ ws depth ++ "}"
  end.

(** The compact text, as [Marshal] and [Encoder.Encode] write it: no
    white space at all. *)
Definition render (v : value) : string := render_with (fun _ => "") ":" 0 v.

Fixpoint spaces (indent : string) (depth : nat) : string :=
  match depth with
  | O => ""
  | S d => indent ++ spaces indent d
  end.

(** The indented text, as [Indent] rewrites the compact one: every
    element of a non-empty array or object on a line of its own that
    starts with [prefix] and one [indent] per level; a space after each
    colon. *)
Definition render_indent (prefix indent : string) (depth : nat) (v : value) : string :=
  render_with (fun d => newline ++ prefix ++ spaces indent d) ": " depth v.

(** [floatEncoder]: the shortest digits, in [%f] form unless the
    magnitude is below 1e-6 or at least 1e21, then in [%e] form with a
    one-digit exponent not padded; NaN and the infinities are refused. *)
Definition float_text (f : float64) : option string :=
  match f with
  | S754_nan | S754_infinity _ => None
  | S754_zero s => Some (fmt.sign_text s ++ "0")
  | S754_finite s m e =>
      let '(ds, dp) := strconv.shortest (Z.pos m) e in
      let body :=
        if (dp <? -5) || (21 <? dp) then
          let ex := dp - 1 in
          strconv.head_str ds
          ++ (if strconv.tail_str ds =? "" then "" else "." ++ strconv.tail_str ds)%string
          ++ "e" ++ (if ex <? 0 then "-" else "+") ++ dec (Z.abs ex)
        else strconv.fmt_f ds dp in
      Some (fmt.sign_text s ++ body)
  end.

End json.

(** ** package encoding/json: reading a text back *)

Module jsonread.

Import json.

Inductive token : Type :=
| TLBrace | TRBrace | TLBracket | TRBracket | TColon | TComma
| TStr (body : string)
| TLit (text : string).

Definition is_space (c : ascii) : bool :=
  let b := byte_of c in (b =? 32) || (b =? 9) || (b =? 10) || (b =? 13).

Definition structural (c : ascii) : option token :=
  let b := byte_of c in
  if b =? 123 then Some TLBrace
  else if b =? 125 then Some TRBrace
  else if b =? 91 then Some TLBracket
  else if b =? 93 then Some TRBracket
  else if b =? 58 then Some TColon
  else if b =? 44 then Some TComma
  else None.

(** The characters of numbers and of [true], [false], [null]. *)
Definition lit_char (c : ascii) : bool :=
  let b := byte_of c in
  ((48 <=? b) && (b <=? 57)) || ((97 <=? b) && (b <=? 122))
  || (b =? 69) || (b =? 43) || (b =? 45) || (b =? 46).

Inductive mode : Type :=
| Idle
| InStr (acc : string) (escaped : bool)
| InLit (acc : string).

Definition snoc (s : string) (c : ascii) : string := s ++ chr c.

(** The scanner: white space between tokens is skipped, a string runs to
    its closing quote (a backslash protects the next character), a
    literal runs to the next space or structural character. *)
Fixpoint lex (m : mode) (s : string) : option (list token) :=
  match s with
  | EmptyString =>
      match m with
      | Idle => Some []
      | InStr _ _ => None
      | InLit acc => Some [TLit acc]
      end
  | String c rest =>
      match m with
      | Idle =>
          if is_space c then lex Idle rest
          else
            match structural c with
            | Some t => cons t <$> lex Idle rest
            | None =>
                if Ascii.eqb c QUOTE then lex (InStr "" false) rest
                else if lit_char c then lex (InLit (chr c)) rest
                else None
            end
      | InStr acc true => lex (InStr (snoc acc c) false) rest
      | InStr acc false =>
          if Ascii.eqb c QUOTE then cons (TStr acc) <$> lex Idle rest
          else lex (InStr (snoc acc c) (Ascii.eqb c BACKSLASH)) rest
      | InLit acc =>
          if is_space c then cons (TLit acc) <$> lex Idle rest
          else
            match structural c with
            | Some t => (fun ts => TLit acc :: t :: ts) <$> lex Idle rest
            | None => if lit_char c then lex (InLit (snoc acc c)) rest else None
            end
      end
  end.

(** The parser, by recursive descent; [fuel] bounds the nesting and the
    number of elements, the length of the token list is always enough. *)
Fixpoint parse_value (fuel : nat) (ts : list token) : option (value * list token) :=
  match fuel with
  | O => None
  | S fuel' =>
      match ts with
      | TLit t :: ts' => Some (Lit t, ts')
      | TStr b :: ts' => Some (Str b, ts')
      | TLBracket :: TRBracket :: ts' => Some (Arr [], ts')
      | TLBracket :: ts' =>
          '(l, ts'') ← parse_items fuel' ts'; Some (Arr l, ts'')
      | TLBrace :: TRBrace :: ts' => Some (Obj [], ts')
      | TLBrace :: ts' =>
          '(l, ts'') ← parse_fields fuel' ts'; Some (Obj l, ts'')
      | _ => None
      end
  end
with parse_items (fuel : nat) (ts : list token) : option (list value * list token) :=
  match fuel with
  | O => None
  | S fuel' =>
      '(v, ts') ← parse_value fuel' ts;
      match ts' with
      | TComma :: ts'' => '(l, ts3) ← parse_items fuel' ts''; Some (v :: l, ts3)
      | TRBracket :: ts'' => Some ([v], ts'')
      | _ => None
      end
  end
with parse_fields (fuel : nat) (ts : list token)
  : option (list (string * value) * list token) :=
  match fuel with
  | O => None
  | S fuel' =>
      match ts with
      | TStr k :: TColon :: ts0 =>
          '(v, ts') ← parse_value fuel' ts0;
          match ts' with
          | TComma :: ts'' => '(l, ts3) ← parse_fields fuel' ts''; Some ((k, v) :: l, ts3)
          | TRBrace :: ts'' => Some ([(k, v)], ts'')
          | _ => None
          end
      | _ => None
      end
  end.

(** Decoding a whole text into its tree: one value and nothing after it
    but white space. *)
Definition decode (text : string) : option value :=
  ts ← lex Idle text;
  match parse_value (2 * length ts + 1) ts with
  | Some (v, []) => Some v
  | _ => None
  end.

(** The tokens of a tree. *)
Fixpoint sep_tokens (l : list (list token)) : list token :=
  match l with
  | [] => []
  | [x] => x
  | x :: l' => (x ++ TComma :: sep_tokens l')%list
  end.

Fixpoint tokens_of (v : value) : list token :=
  match v with
  | Lit t => [TLit t]
  | Str b => [TStr b]
  | Arr l => (TLBracket :: sep_tokens (map tokens_of l) ++ [TRBracket])%list
  | Obj l =>
      (TLBrace
       :: sep_tokens (map (fun kv => TStr (fst kv) :: TColon :: tokens_of (snd kv)) l)
       ++ [TRBrace])%list
  end.

(** What may follow a literal: the end of the text, white space or a
    structural character. *)
Definition delimited (rest : string) : bool :=
  match rest with
  | EmptyString => true
  | String c _ => is_space c || bool_decide (is_Some (structural c))
  end.

Definition all_space (s : string) : bool := forallb_str is_space s.

(** The first [k] bytes are UTF-8 continuation bytes. *)
Fixpoint conts (k : nat) (s : string) : bool :=
  match k, s with
  | O, _ => true
  | S k', String c r => is_cont (byte_of c) && conts k' r
  | S _, EmptyString => false
  end.

(** The fuel that parses the tokens of a tree. *)
Fixpoint need (v : value) : nat :=
  match v with
  | Lit _ | Str _ => 1
  | Arr l => S (list_sum (map (fun x => S (need x)) l))
  | Obj l => S (list_sum (map (fun kv => S (need (snd kv))) l))
  end.

(** The parser rebuilds [v] from its tokens, given the fuel [need v]. *)
Definition parses (v : value) : Prop :=
  forall (fuel : nat) (rest : list token),
    (need v <= fuel)%nat -> parse_value fuel (tokens_of v ++ rest)%list = Some (v, rest).

(** A string body the scanner reads back whole: no bare quote, every
    backslash followed by a character. *)
Fixpoint body_ok (escaped : bool) (s : string) : bool :=
  match s with
  | EmptyString => negb escaped
  | String c rest =>
      if escaped then body_ok false rest
      else if Ascii.eqb c QUOTE then false
      else body_ok (Ascii.eqb c BACKSLASH) rest
  end.

Definition lit_ok (t : string) : bool :=
  negb (t =? "")%string && forallb_str lit_char t.

(** Neither a quote nor a backslash. *)
Definition plain (c : ascii) : bool :=
  negb (Ascii.eqb c QUOTE) && negb (Ascii.eqb c BACKSLASH).

(** Trees whose scalars are written the way the scanner reads them. *)
Fixpoint wf (v : value) : bool :=
  match v with
  | Lit t => lit_ok t
  | Str b => body_ok false b
  | Arr l => forallb wf l
  | Obj l => forallb (fun kv => body_ok false (fst kv) && wf (snd kv)) l
  end.

End jsonread.

(** ** Go values shared by the packages *)

(** A Go slice is [nil] or holds elements; the difference shows in JSON
    ([null] against [[]]). *)
Definition slice (A : Type) : Type := option (list A).

Definition elems {A : Type} (s : slice A) : list A :=
  match s with
  | None => []
  | Some l => l
  end.

(** An [error] value: its message and its identity (two errors made by
    separate [errors.New] calls differ even with equal messages). *)
Module errors.

Record error := { Error : string; ident : positive }.

#[global] Instance error_eq_dec : EqDecision error.
Proof. solve_decision. Defined.

End errors.

Definition error := errors.error.

(** ** package config (the types the handlers use) *)

Module config.

(** [config.Expense], with the fields the handlers read and write. *)
Record Expense := {
  ID : string;
  Name : string;
  Category : string;
  Amount : float64;
  Date : time.Time
}.

(** [config.Config]: the fields the handlers read. *)
Record Config := { Categories : slice string; Currency : string }.

(** Modelled from the spec: [Config.UpdateCategories] is not in the
    sources; the spec has it replace the category list as a whole
    ("replaces the full category set", "mutable as a whole via replace"). *)
Definition UpdateCategories (categories : slice string) (c : Config) : Config :=
  {| Categories := categories; Currency := Currency c |}.

(** Modelled from the spec: [Config.UpdateCurrency] is not in the
    sources; the spec has it replace the currency ("replaces currency"). *)
Definition UpdateCurrency (currency : string) (c : Config) : Config :=
  {| Categories := Categories c; Currency := currency |}.

End config.

(** ** package net/http: requests and the response writer *)

Module http.

Definition MethodGet : string := "GET".
Definition MethodPut : string := "PUT".
Definition MethodDelete : string := "DELETE".

Definition StatusOK : Z := 200.
Definition StatusBadRequest : Z := 400.
Definition StatusNotFound : Z := 404.
Definition StatusMethodNotAllowed : Z := 405.
Definition StatusInternalServerError : Z := 500.

(** The parts of [*http.Request] the handlers read: the method, the body
    bytes, [URL.Path] and the parsed query [URL.Query()]. *)
Record Request := {
  Method : string;
  Body : string;
  URL_Path : string;
  URL_Query : gmap string (list string)
}.

(** [url.Values.Get]: the first value of the key, or the empty string. *)
Definition Query_Get (q : gmap string (list string)) (key : string) : string :=
  match q !! key with
  | Some (v :: _) => v
  | _ => ""
  end.

(** An [http.ResponseWriter].  [header] is the live header map; the first
    [WriteHeader] (or the first [Write], with status 200) commits the
    status and the headers that are set at that moment ([sent]); later
    header changes and later [WriteHeader] calls do not reach the client.
    The handlers set Content-Type before their own first write, so the
    server's content sniffing is not modelled. *)
Record ResponseWriter := {
  header : gmap string string;
  wroteHeader : bool;
  status : Z;
  sent : gmap string string;
  body : string
}.

Definition newResponseWriter : ResponseWriter :=
  {| header := ∅; wroteHeader := false; status := 0; sent := ∅; body := "" |}.

Definition Header_Set (k v : string) (w : ResponseWriter) : ResponseWriter :=
  {| header := <[k := v]> (header w); wroteHeader := wroteHeader w;
     status := status w; sent := sent w; body := body w |}.

Definition Header_Del (k : string) (w : ResponseWriter) : ResponseWriter :=
  {| header := delete k (header w); wroteHeader := wroteHeader w;
     status := status w; sent := sent w; body := body w |}.

Definition WriteHeader (code : Z) (w : ResponseWriter) : ResponseWriter :=
  if wroteHeader w then w
  else {| header := header w; wroteHeader := true;
          status := code; sent := header w; body := body w |}.

Definition Write (b : string) (w : ResponseWriter) : ResponseWriter :=
  let w' := WriteHeader StatusOK w in
  {| header := header w'; wroteHeader := wroteHeader w';
     status := status w'; sent := sent w'; body := body w' ++ b |}.

(** [http.Error(w, msg, code)]. *)
Definition Error (msg : string) (code : Z) (w : ResponseWriter) : ResponseWriter :=
  let w1 := Header_Del "Content-Length" w in
  let w2 := Header_Set "Content-Type" "text/plain; charset=utf-8" w1 in
  let w3 := Header_Set "X-Content-Type-Options" "nosniff" w2 in
  Write (msg ++ newline) (WriteHeader code w3).

(** What the client sees of a response: the status, the content type that
    was committed with it, and the body. *)
Definition reply (w : ResponseWriter) : Z * option string * string :=
  (status w, sent w !! "Content-Type", body w).

Definition plain_text : option string := Some "text/plain; charset=utf-8".

Definition json_type : option string := Some "application/json".

End http.

(** ** The collaborators of the handler layer

    [storage.Storage], the JSON decoder, [Expense.Validate] and package
    [web] are not part of the handler file; the handlers are written
    against these interfaces. *)

Module storage.

(** [storage.Storage] over a store of type [S].  [SaveExpense] receives a
    pointer: it returns the expense as the call leaves it (with the
    identifier the store assigns) next to the error. *)
Class Storage (S : Type) := {
  ErrExpenseNotFound : error;
  SaveExpense : config.Expense -> S -> (config.Expense * option error) * S;
  GetAllExpenses : S -> (slice config.Expense * option error) * S;
  DeleteExpense : string -> S -> option error * S
}.

End storage.

Module web.

(** [web.ServeTemplate(w, name)] and [web.ServeStatic(w, path)]: what they
    leave in the response writer, and their error. *)
Class Renderer := {
  ServeTemplate : string -> http.ResponseWriter -> http.ResponseWriter * option error;
  ServeStatic : string -> http.ResponseWriter -> http.ResponseWriter * option error
}.

End web.

(** ** package api *)

Module api.

Record ErrorResponse := { Error : string }.

Record ExpenseRequest := {
  Name : string;
  Category : string;
  Amount : float64;
  Date : time.Time
}.

Record ConfigResponse := { Categories : slice string; Currency : string }.

(** [json.NewDecoder(r.Body).Decode(&v)] for the three targets the
    handlers decode into: the value, or the decoder's error. *)
Class Decoder := {
  Decode_strings : string -> slice string + error;
  Decode_string : string -> string + error;
  Decode_ExpenseRequest : string -> ExpenseRequest + error
}.

(** The method [Validate] of [config.Expense]. *)
Class Validator := { Validate : config.Expense -> option error }.

(** *** What [writeJSON] is given, and its JSON *)

Inductive payload : Type :=
| PError (e : ErrorResponse)
| PMap (m : list (string * string))
| PConfig (c : ConfigResponse)
| PExpense (e : config.Expense)
| PExpenses (l : slice config.Expense).

Definition marshal_string (s : string) : json.value := json.Str (json.escape s).

Definition marshal_strings (l : slice string) : json.value :=
  match l with
  | None => json.Lit "null"
  | Some l => json.Arr (map marshal_string l)
  end.

(** [time.Time.MarshalJSON]. *)
Definition marshal_time (t : time.Time) : option json.value :=
  if time.rfc3339_ok t then Some (json.Str (time.Format_RFC3339Nano t)) else None.

(** Modelled from the spec: the JSON keys of [config.Expense] are declared
    with the struct, which is not in the sources; they are those of
    [ExpenseRequest] and [id] for the identifier. *)
Definition marshal_expense (e : config.Expense) : option json.value :=
  match json.float_text (config.Amount e), marshal_time (config.Date e) with
  | Some a, Some d =>
      Some (json.Obj [("id", marshal_string (config.ID e));
                      ("name", marshal_string (config.Name e));
                      ("category", marshal_string (config.Category e));
                      ("amount", json.Lit a);
                      ("date", d)])
  | _, _ => None
  end.

Fixpoint marshal_all (l : list config.Expense) : option (list json.value) :=
  match l with
  | [] => Some []
  | e :: l' =>
      match marshal_expense e, marshal_all l' with
      | Some v, Some vs => Some (v :: vs)
      | _, _ => None
      end
  end.

Definition marshal_expenses (l : slice config.Expense) : option json.value :=
  match l with
  | None => Some (json.Lit "null")
  | Some l => option_map json.Arr (marshal_all l)
  end.

(** [json.Marshal(v)] as a tree; [None] is an error. *)
Definition marshal (v : payload) : option json.value :=
  match v with
  | PError e => Some (json.Obj [("error", marshal_string (Error e))])
  | PMap m => Some (json.Obj (map (fun kv => (json.escape (fst kv), marshal_string (snd kv))) m))
  | PConfig c =>
      Some (json.Obj [("categories", marshal_strings (Categories c));
                      ("currency", marshal_string (Currency c))])
  | PExpense e => marshal_expense e
  | PExpenses l => marshal_expenses l
  end.

(** [json.NewEncoder(w).Encode(v)]: the compact text and a line feed, or
    nothing at all when [v] cannot be marshalled. *)
Definition Encode (v : payload) (w : http.ResponseWriter) : http.ResponseWriter :=
  match marshal v with
  | Some t => http.Write (json.render t ++ newline) w
  | None => w
  end.

(** What [Encode] adds to the body. *)
Definition encoded (v : payload) : string :=
  match marshal v with
  | Some t => json.render t ++ newline
  | None => ""
  end.

(** The body of an [ErrorResponse] and of the [status: success] map. *)
Definition error_body (msg : string) : string :=
  json.render (json.Obj [("error", json.Str (json.escape msg))]) ++ newline.

Definition success_body : string :=
  json.render (json.Obj [("status", json.Str "success")]) ++ newline.

(** [json.MarshalIndent(expenses, "", "    ")]. *)
Definition MarshalIndent (l : slice config.Expense) : option string :=
  option_map (json.render_indent "" "    " 0) (marshal_expenses l).

Definition writeJSON (status : Z) (v : payload) (w : http.ResponseWriter) : http.ResponseWriter :=
  Encode v (http.WriteHeader status (http.Header_Set "Content-Type" "application/json" w)).

(** *** The world a handler runs in *)

(** The calls a handler makes to its collaborators, oldest first. *)
Inductive Call : Type :=
| CallSaveExpense (e : config.Expense)
| CallGetAllExpenses
| CallDeleteExpense (id : string)
| CallUpdateCategories (categories : slice string)
| CallUpdateCurrency (currency : string)
| CallServeTemplate (name : string)
| CallServeStatic (path : string).

(** The state around one request: the response writer [w], what the
    [Handler] struct points to ([storage], [config]), the server log, and
    the record of collaborator calls. *)
Record State (S : Type) := {
  w : http.ResponseWriter;
  store : S;
  conf : config.Config;
  logs : list string;
  calls : list Call
}.

Arguments w {S} _.
Arguments store {S} _.
Arguments conf {S} _.
Arguments logs {S} _.
Arguments calls {S} _.

Section Handlers.

Context {S : Type} `{!storage.Storage S} `{!web.Renderer} `{!Decoder} `{!Validator}.

Definition set_w (f : http.ResponseWriter -> http.ResponseWriter) (s : State S) : State S :=
  {| w := f (w s); store := store s; conf := conf s; logs := logs s; calls := calls s |}.

(** [log.Println] and [log.Printf]: one more line in the server log. *)
Definition log (line : string) (s : State S) : State S :=
  {| w := w s; store := store s; conf := conf s;
     logs := (logs s ++ [line])%list; calls := calls s |}.

Definition called (c : Call) (s : State S) : State S :=
  {| w := w s; store := store s; conf := conf s; logs := logs s;
     calls := (calls s ++ [c])%list |}.

Definition set_store (st : S) (s : State S) : State S :=
  {| w := w s; store := st; conf := conf s; logs := logs s; calls := calls s |}.

Definition set_conf (c : config.Config) (s : State S) : State S :=
  {| w := w s; store := store s; conf := c; logs := logs s; calls := calls s |}.

(** The guard every handler starts with. *)
Definition methodNotAllowed (s : State S) : State S :=
  log "HTTP ERROR: Method not allowed"
    (set_w (http.Error "Method not allowed" http.StatusMethodNotAllowed) s).

Definition GetCategories (r : http.Request) (s : State S) : State S :=
  if negb (http.Method r =? http.MethodGet)%string then methodNotAllowed s
  else
    let response := {| Categories := config.Categories (conf s);
                       Currency := config.Currency (conf s) |} in
    set_w (writeJSON http.StatusOK (PConfig response)) s.

Definition EditCategories (r : http.Request) (s : State S) : State S :=
  if negb (http.Method r =? http.MethodPut)%string then methodNotAllowed s
  else
    match Decode_strings (http.Body r) with
    | inr err =>
        log ("HTTP ERROR: Failed to decode request body: " ++ errors.Error err)
          (set_w (writeJSON http.StatusBadRequest
                    (PError {| Error := "Invalid request body" |})) s)
    | inl categories =>
        let s1 := called (CallUpdateCategories categories)
                    (set_conf (config.UpdateCategories categories (conf s)) s) in
        log "HTTP: Updated categories"
          (set_w (writeJSON http.StatusOK (PMap [("status", "success")])) s1)
    end.

Definition EditCurrency (r : http.Request) (s : State S) : State S :=
  if negb (http.Method r =? http.MethodPut)%string then methodNotAllowed s
  else
    match Decode_string (http.Body r) with
    | inr err =>
        log ("HTTP ERROR: Failed to decode request body: " ++ errors.Error err)
          (set_w (writeJSON http.StatusBadRequest
                    (PError {| Error := "Invalid request body" |})) s)
    | inl currency =>
        let s1 := called (CallUpdateCurrency currency)
                    (set_conf (config.UpdateCurrency currency (conf s)) s) in
        log "HTTP: Updated currency"
          (set_w (writeJSON http.StatusOK (PMap [("status", "success")])) s1)
    end.

(** The date of a request as the expense gets it. *)
Definition normalize_date (d : time.Time) : time.Time :=
  if negb (time.IsZero d) then time.UTC d else d.

(** The expense [AddExpense] builds from a decoded request; the
    identifier is left empty. *)
Definition expense_of (req : ExpenseRequest) : config.Expense :=
  {| config.ID := "";
     config.Name := Name req;
     config.Category := Category req;
     config.Amount := Amount req;
     config.Date := normalize_date (Date req) |}.

Definition AddExpense (r : http.Request) (s : State S) : State S :=
  if negb (http.Method r =? http.MethodPut)%string then methodNotAllowed s
  else
    match Decode_ExpenseRequest (http.Body r) with
    | inr err =>
        log ("HTTP ERROR: Failed to decode request body: " ++ errors.Error err)
          (set_w (writeJSON http.StatusBadRequest
                    (PError {| Error := "Invalid request body" |})) s)
    | inl req =>
        let expense := expense_of req in
        match Validate expense with
        | Some err =>
            log ("HTTP ERROR: Failed to validate expense: " ++ errors.Error err)
              (set_w (writeJSON http.StatusBadRequest
                        (PError {| Error := errors.Error err |})) s)
        | None =>
            let '(saved, res, st) := storage.SaveExpense expense (store s) in
            let s1 := called (CallSaveExpense expense) (set_store st s) in
            match res with
            | Some err =>
                log ("HTTP ERROR: Failed to save expense: " ++ errors.Error err)
                  (set_w (writeJSON http.StatusInternalServerError
                            (PError {| Error := "Failed to save expense" |})) s1)
            | None => set_w (writeJSON http.StatusOK (PExpense saved)) s1
            end
        end
    end.

Definition GetExpenses (r : http.Request) (s : State S) : State S :=
  if negb (http.Method r =? http.MethodGet)%string then methodNotAllowed s
  else
    let '(expenses, res, st) := storage.GetAllExpenses (store s) in
    let s1 := called CallGetAllExpenses (set_store st s) in
    match res with
    | Some err =>
        log ("HTTP ERROR: Failed to retrieve expenses: " ++ errors.Error err)
          (set_w (writeJSON http.StatusInternalServerError
                    (PError {| Error := "Failed to retrieve expenses" |})) s1)
    | None => set_w (writeJSON http.StatusOK (PExpenses expenses)) s1
    end.

(** The body shared by the three view handlers, which differ in the
    template they name and in whether they log. *)
Definition serveView (name : string) (logging : bool) (r : http.Request) (s : State S)
  : State S :=
  if negb (http.Method r =? http.MethodGet)%string then
    (if logging then methodNotAllowed s
     else set_w (http.Error "Method not allowed" http.StatusMethodNotAllowed) s)
  else
    let w1 := http.Header_Set "Content-Type" "text/html" (w s) in
    let '(w2, res) := web.ServeTemplate name w1 in
    let s1 := called (CallServeTemplate name) (set_w (fun _ => w2) s) in
    match res with
    | Some err =>
        let s2 := set_w (http.Error "Failed to serve template"
                           http.StatusInternalServerError) s1 in
        if logging
        then log ("HTTP ERROR: Failed to serve template: " ++ errors.Error err) s2
        else s2
    | None => s1
    end.

Definition ServeTableView : http.Request -> State S -> State S :=
  serveView "table.html" true.

Definition ServeSettingsPage : http.Request -> State S -> State S :=
  serveView "settings.html" true.

Definition ServeAPISetupView : http.Request -> State S -> State S :=
  serveView "api-setup.html" false.

Definition DeleteExpense (r : http.Request) (s : State S) : State S :=
  if negb (http.Method r =? http.MethodDelete)%string then methodNotAllowed s
  else
    let id := http.Query_Get (http.URL_Query r) "id" in
    if (id =? "")%string then
      log "HTTP ERROR: ID parameter is required"
        (set_w (writeJSON http.StatusBadRequest
                  (PError {| Error := "ID parameter is required" |})) s)
    else
      let '(res, st) := storage.DeleteExpense id (store s) in
      let s1 := called (CallDeleteExpense id) (set_store st s) in
      match res with
      | Some err =>
          if decide (err = storage.ErrExpenseNotFound) then
            log ("HTTP ERROR: Expense not found: " ++ errors.Error err)
              (set_w (writeJSON http.StatusNotFound
                        (PError {| Error := "Expense not found" |})) s1)
          else
            log ("HTTP ERROR: Failed to delete expense: " ++ errors.Error err)
              (set_w (writeJSON http.StatusInternalServerError
                        (PError {| Error := "Failed to delete expense" |})) s1)
      | None =>
          log ("HTTP: Deleted expense with ID " ++ id)
            (set_w (writeJSON http.StatusOK (PMap [("status", "success")])) s1)
      end.

Definition ServeStaticFile (r : http.Request) (s : State S) : State S :=
  if negb (http.Method r =? http.MethodGet)%string then methodNotAllowed s
  else
    let '(w1, res) := web.ServeStatic (http.URL_Path r) (w s) in
    let s1 := called (CallServeStatic (http.URL_Path r)) (set_w (fun _ => w1) s) in
    match res with
    | Some err =>
        log ("HTTP ERROR: Failed to serve static file " ++ http.URL_Path r
             ++ ": " ++ errors.Error err)
          (set_w (http.Error "Failed to serve static file"
                    http.StatusInternalServerError) s1)
    | None => s1
    end.

(** One record of the CSV export:
    [fmt.Sprintf("%s,%s,%s,%.2f,%s\n", ...)]. *)
Definition csvLine (expense : config.Expense) : string :=
  config.ID expense ++ ","
  ++ strings.ReplaceAll1 (config.Name expense) "," ";" ++ ","
  ++ config.Category expense ++ ","
  ++ fmt.Sprintf_2f (config.Amount expense) ++ ","
  ++ time.Format_DateTime (config.Date expense) ++ newline.

Definition csvHeader : string := "ID,Name,Category,Amount,Date" ++ newline.

(** The [for ... range expenses] loop: one [w.Write] per expense. *)
Fixpoint writeLines (expenses : list config.Expense) (w : http.ResponseWriter)
  : http.ResponseWriter :=
  match expenses with
  | [] => w
  | expense :: rest => writeLines rest (http.Write (csvLine expense) w)
  end.

Definition ExportCSV (r : http.Request) (s : State S) : State S :=
  if negb (http.Method r =? http.MethodGet)%string then methodNotAllowed s
  else
    let '(expenses, res, st) := storage.GetAllExpenses (store s) in
    let s1 := called CallGetAllExpenses (set_store st s) in
    match res with
    | Some err =>
        log ("HTTP ERROR: Failed to retrieve expenses: " ++ errors.Error err)
          (set_w (writeJSON http.StatusInternalServerError
                    (PError {| Error := "Failed to retrieve expenses" |})) s1)
    | None =>
        log "HTTP: Exported expenses to CSV"
          (set_w (fun w0 =>
                    writeLines (elems expenses)
                      (http.Write csvHeader
                         (http.Header_Set "Content-Disposition"
                            "attachment; filename=expenses.csv"
                            (http.Header_Set "Content-Type" "text/csv" w0)))) s1)
    end.

Definition ExportJSON (r : http.Request) (s : State S) : State S :=
  if negb (http.Method r =? http.MethodGet)%string then methodNotAllowed s
  else
    let '(expenses, res, st) := storage.GetAllExpenses (store s) in
    let s1 := called CallGetAllExpenses (set_store st s) in
    match res with
    | Some err =>
        log ("HTTP ERROR: Failed to retrieve expenses: " ++ errors.Error err)
          (set_w (writeJSON http.StatusInternalServerError
                    (PError {| Error := "Failed to retrieve expenses" |})) s1)
    | None =>
        let s2 := set_w (fun w0 =>
                    http.Header_Set "Content-Disposition"
                      "attachment; filename=expenses.json"
                      (http.Header_Set "Content-Type" "application/json" w0)) s1 in
        match MarshalIndent expenses with
        | None =>
            log "HTTP ERROR: Failed to marshal JSON data"
              (set_w (http.Error "Failed to marshal JSON data"
                        http.StatusInternalServerError) s2)
        | Some jsonData =>
            log "HTTP: Exported expenses to JSON" (set_w (http.Write jsonData) s2)
        end
    end.

(** *** The routes *)

Inductive Route : Type :=
| RGetCategories | REditCategories | REditCurrency
| RAddExpense | RGetExpenses | RDeleteExpense
| RServeTableView | RServeSettingsPage | RServeAPISetupView
| RServeStaticFile | RExportCSV | RExportJSON.

Definition handler (rt : Route) : http.Request -> State S -> State S :=
  match rt with
  | RGetCategories => GetCategories
  | REditCategories => EditCategories
  | REditCurrency => EditCurrency
  | RAddExpense => AddExpense
  | RGetExpenses => GetExpenses
  | RDeleteExpense => DeleteExpense
  | RServeTableView => ServeTableView
  | RServeSettingsPage => ServeSettingsPage
  | RServeAPISetupView => ServeAPISetupView
  | RServeStaticFile => ServeStaticFile
  | RExportCSV => ExportCSV
  | RExportJSON => ExportJSON
  end.

(** The one method each handler lets through. *)
Definition allowed (rt : Route) : string :=
  match rt with
  | REditCategories | REditCurrency | RAddExpense => http.MethodPut
  | RDeleteExpense => http.MethodDelete
  | _ => http.MethodGet
  end.

(** *** The CSV export as the specification words it *)

(** One record without its line feed, for a given rendering of the
    amount. *)
Definition csvRow (amount : string) (e : config.Expense) : string :=
  config.ID e ++ ","
  ++ strings.ReplaceAll1 (config.Name e) "," ";" ++ ","
  ++ config.Category e ++ ","
  ++ amount ++ ","
  ++ time.Format_DateTime (config.Date e).

Definition row_as_specified (row : string) (e : config.Expense) : Prop :=
  exists amount, row = csvRow amount e /\ fmt.two_decimals amount.

(** The header line, then exactly one line per expense in order (the
    text ends with a line feed, so an empty piece follows the last
    line). *)
Definition csv_as_specified (text : string) (l : list config.Expense) : Prop :=
  exists rows,
    lines text = "ID,Name,Category,Amount,Date" :: (rows ++ [""])%list
    /\ Forall2 row_as_specified rows l.

(** No line feed in the three text fields of an expense. *)
Definition single_line (e : config.Expense) : bool :=
  negb (has_char LF (config.ID e)) && negb (has_char LF (config.Name e))
  && negb (has_char LF (config.Category e)).

(** *** The JSON export as the specification words it *)

(** The JSON object of an expense: its five fields in the order of the
    struct. *)
Definition expense_object (e : config.Expense) (amount : string) : json.value :=
  json.Obj [("id", json.Str (json.escape (config.ID e)));
            ("name", json.Str (json.escape (config.Name e)));
            ("category", json.Str (json.escape (config.Category e)));
            ("amount", json.Lit amount);
            ("date", json.Str (time.Format_RFC3339Nano (config.Date e)))].

(** Decoding the text gives an array with one object per expense, in
    order, holding the fields of that expense. *)
Definition decodes_to (text : string) (l : list config.Expense) : Prop :=
  exists items,
    jsonread.decode text = Some (json.Arr items)
    /\ length items = length l
    /\ Forall2 (fun item e =>
                  exists amount, json.float_text (config.Amount e) = Some amount
                                 /\ item = expense_object e amount) items l.

(** The template a view handler names. *)
Definition view_template (rt : Route) : option string :=
  match rt with
  | RServeTableView => Some "table.html"
  | RServeSettingsPage => Some "settings.html"
  | RServeAPISetupView => Some "api-setup.html"
  | _ => None
  end.

(** The handlers that start by fetching all expenses. *)
Definition fetches (rt : Route) : bool :=
  match rt with
  | RGetExpenses | RExportCSV | RExportJSON => true
  | _ => false
  end.

(** The decoder's error for the body of a request, on the routes that
    decode one. *)
Definition decode_error (rt : Route) (r : http.Request) : option error :=
  match rt with
  | REditCategories =>
      match Decode_strings (http.Body r) with inr err => Some err | inl _ => None end
  | REditCurrency =>
      match Decode_string (http.Body r) with inr err => Some err | inl _ => None end
  | RAddExpense =>
      match Decode_ExpenseRequest (http.Body r) with inr err => Some err | inl _ => None end
  | _ => None
  end.

(** The one collaborator call a route makes for a request, when it makes
    one. *)
Definition route_call (rt : Route) (r : http.Request) (c : Call) : bool :=
  match rt, c with
  | RAddExpense, CallSaveExpense _ => true
  | RGetExpenses, CallGetAllExpenses => true
  | RExportCSV, CallGetAllExpenses => true
  | RExportJSON, CallGetAllExpenses => true
  | RDeleteExpense, CallDeleteExpense id =>
      (id =? http.Query_Get (http.URL_Query r) "id")%string
  | REditCategories, CallUpdateCategories _ => true
  | REditCurrency, CallUpdateCurrency _ => true
  | RServeTableView, CallServeTemplate name => (name =? "table.html")%string
  | RServeSettingsPage, CallServeTemplate name => (name =? "settings.html")%string
  | RServeAPISetupView, CallServeTemplate name => (name =? "api-setup.html")%string
  | RServeStaticFile, CallServeStatic path => (path =? http.URL_Path r)%string
  | _, _ => false
  end.

(** The statuses a config, expense or export handler can answer with. *)
Definition statuses (rt : Route) : list Z :=
  match rt with
  | RGetCategories => [200; 405]
  | REditCategories | REditCurrency => [200; 400; 405]
  | RAddExpense => [200; 400; 405; 500]
  | RDeleteExpense => [200; 400; 404; 405; 500]
  | _ => [200; 405; 500]
  end.

End Handlers.

End api.

(** ** A storage engine after the spec *)

Module memstore.

(** Modelled from the spec: the storage engine (package storage) is not in
    the sources.  The spec has it persist expense records in the order
    they are saved, assign each saved record a unique non-empty
    identifier, delete by identifier, and signal "not found" on a delete
    of an unknown identifier; any operation may fail ("storage failure").
    [records] are the persisted expenses, [next] numbers the identifiers,
    [broken] is the failure every operation reports while it is set. *)
Record Store := {
  records : list config.Expense;
  next : positive;
  broken : option error
}.

(** Modelled from the spec: the sentinel of package storage for a delete
    of an unknown identifier ("a distinct not found condition"). *)
Definition ErrExpenseNotFound : error :=
  {| errors.Error := "expense not found"; errors.ident := 1 |}.

(** Modelled from the spec: "identifier (string, server-assigned,
    unique)"; the [n]th identifier is [exp-n]. *)
Definition new_id (n : positive) : string := "exp-" ++ dec (Z.pos n).

Definition with_id (id : string) (e : config.Expense) : config.Expense :=
  {| config.ID := id; config.Name := config.Name e;
     config.Category := config.Category e;
     config.Amount := config.Amount e; config.Date := config.Date e |}.

(** Modelled from the spec: [SaveExpense] gives the expense its
    identifier and appends it to the persisted records. *)
Definition SaveExpense (e : config.Expense) (st : Store)
  : (config.Expense * option error) * Store :=
  match broken st with
  | Some err => ((e, Some err), st)
  | None =>
      let e' := with_id (new_id (next st)) e in
      ((e', None),
       {| records := (records st ++ [e'])%list; next := Pos.succ (next st);
          broken := None |})
  end.

(** Modelled from the spec: [GetAllExpenses] returns the persisted
    records in storage order. *)
Definition GetAllExpenses (st : Store) : (slice config.Expense * option error) * Store :=
  match broken st with
  | Some err => ((None, Some err), st)
  | None => ((Some (records st), None), st)
  end.

Definition has_id (id : string) (e : config.Expense) : bool :=
  (config.ID e =? id)%string.

(** Modelled from the spec: [DeleteExpense] removes the record with the
    identifier, and reports the "not found" sentinel when there is none. *)
Definition DeleteExpense (id : string) (st : Store) : option error * Store :=
  match broken st with
  | Some err => (Some err, st)
  | None =>
      if existsb (has_id id) (records st)
      then (None, {| records := List.filter (fun e => negb (has_id id e)) (records st);
                     next := next st; broken := None |})
      else (Some ErrExpenseNotFound, st)
  end.

#[global] Instance store : storage.Storage Store := {|
  storage.ErrExpenseNotFound := ErrExpenseNotFound;
  storage.SaveExpense := SaveExpense;
  storage.GetAllExpenses := GetAllExpenses;
  storage.DeleteExpense := DeleteExpense
|}.

Definition empty : Store := {| records := []; next := 1; broken := None |}.

End memstore.

(** ** Stand-ins for the other collaborators, to run the handlers on
    concrete requests *)

Module sample.

Definition noon : time.Time :=
  {| time.sec := 63871329600; time.nsec := 0;
     time.loc := Some {| time.zoneName := ""; time.zoneOffset := 7200 |} |}.

(** 3.5 *)
Definition amount_3_5 : float64 := S754_finite false 7 (-1).

Definition coffee : api.ExpenseRequest :=
  {| api.Name := "Coffee"; api.Category := "Food";
     api.Amount := amount_3_5; api.Date := noon |}.

Definition syntax_error : error :=
  {| errors.Error := "invalid character"; errors.ident := 2 |}.

(** Request bodies. *)
Definition coffee_body : string :=
  json.render (json.Obj [("name", json.Str "Coffee"); ("category", json.Str "Food");
                         ("amount", json.Lit "3.5");
                         ("date", json.Str "2025-01-01T14:00:00+02:00")]).

Definition unnamed_body : string :=
  json.render (json.Obj [("category", json.Str "Food"); ("amount", json.Lit "3.5")]).

Definition categories_body : string :=
  json.render (json.Arr [json.Str "Food"; json.Str "Rent"]).

(** A decoder defined on these bodies, an error on any other. *)
#[global] Instance decoder : api.Decoder := {|
  api.Decode_strings body :=
    if (body =? categories_body)%string then inl (Some ["Food"; "Rent"])
    else if (body =? "null")%string then inl None
    else inr syntax_error;
  api.Decode_string body :=
    if (body =? json.quoted "EUR")%string then inl "EUR" else inr syntax_error;
  api.Decode_ExpenseRequest body :=
    if (body =? coffee_body)%string then inl coffee
    else if (body =? unnamed_body)%string
    then inl {| api.Name := ""; api.Category := "Food";
                api.Amount := amount_3_5; api.Date := time.zero |}
    else inr syntax_error
|}.

Definition name_required : error :=
  {| errors.Error := "expense name is required"; errors.ident := 3 |}.

(** A validator that wants a name. *)
#[global] Instance validator : api.Validator := {|
  api.Validate e := if (config.Name e =? "")%string then Some name_required else None
|}.

Definition not_found : error :=
  {| errors.Error := "template not found"; errors.ident := 4 |}.

(** A renderer that knows one template and one asset. *)
#[global] Instance renderer : web.Renderer := {|
  web.ServeTemplate name w :=
    if (name =? "table.html")%string then (http.Write "<html></html>" w, None)
    else (w, Some not_found);
  web.ServeStatic path w :=
    if (path =? "/style.css")%string
    then (http.Write "body{}" (http.Header_Set "Content-Type" "text/css" w), None)
    else (w, Some not_found)
|}.

(** A renderer that starts the page and then fails. *)
Definition half_page : web.Renderer := {|
  web.ServeTemplate name w := (http.Write "<html><body>" w, Some not_found);
  web.ServeStatic path w := (http.Write "body{" w, Some not_found)
|}.

Definition request (method body : string) : http.Request :=
  {| http.Method := method; http.Body := body; http.URL_Path := "/";
     http.URL_Query := ∅ |}.

Definition delete_request (id : string) : http.Request :=
  {| http.Method := "DELETE"; http.Body := ""; http.URL_Path := "/expense/delete";
     http.URL_Query := {[ "id" := [id] ]} |}.

Definition start (st : memstore.Store) : api.State memstore.Store :=
  {| api.w := http.newResponseWriter; api.store := st;
     api.conf := {| config.Categories := Some ["Misc"]; config.Currency := "usd" |};
     api.logs := []; api.calls := [] |}.

Definition disk_full : error :=
  {| errors.Error := "write expenses.json: no space left on device"; errors.ident := 5 |}.

(** A store whose every operation fails. *)
Definition broken_store : memstore.Store :=
  {| memstore.records := []; memstore.next := 1; memstore.broken := Some disk_full |}.

(** A name with a line break, and an amount that is not a number. *)
Definition two_line_name : string := "rent" ++ newline ++ "due".

Definition broken_line_store : memstore.Store :=
  {| memstore.records :=
       [{| config.ID := "exp-1"; config.Name := two_line_name; config.Category := "Home";
           config.Amount := amount_3_5; config.Date := time.UTC noon |}];
     memstore.next := 2; memstore.broken := None |}.

Definition nan_store : memstore.Store :=
  {| memstore.records :=
       [{| config.ID := "exp-1"; config.Name := "Cable"; config.Category := "Home";
           config.Amount := S754_nan; config.Date := time.UTC noon |}];
     memstore.next := 2; memstore.broken := None |}.

End sample.

(** * Properties *)

(** ** The response writer *)

Lemma Error_uncommitted (msg : string) (code : Z) (w : http.ResponseWriter) :
  http.wroteHeader w = false ->
  http.status (http.Error msg code w) = code
  /\ http.sent (http.Error msg code w) !! "Content-Type" = Some "text/plain; charset=utf-8"
  /\ http.body (http.Error msg code w) = http.body w ++ msg ++ newline.
Proof.
  intros Hw. unfold http.Error, http.Write, http.WriteHeader; cbn. rewrite Hw; cbn.
  split; [reflexivity|]. split; [|reflexivity].
  rewrite lookup_insert_ne by discriminate. apply lookup_insert_eq.
Qed.

Section MethodGuard.

Context {S : Type} `{!storage.Storage S} `{!web.Renderer} `{!api.Decoder} `{!api.Validator}.

Lemma guard_taken (r : http.Request) (m : string) :
  http.Method r <> m -> negb (http.Method r =? m)%string = true.
Proof. intros Hne. apply negb_true_iff, String.eqb_neq, Hne. Qed.

Lemma guard_passed (r : http.Request) (m : string) :
  http.Method r = m -> negb (http.Method r =? m)%string = false.
Proof. intros Heq. apply negb_false_iff, String.eqb_eq, Heq. Qed.

(** What the guard does when the method is not the allowed one. *)
Lemma guard_effect (rt : api.Route) (r : http.Request) (s : api.State S) :
  http.Method r <> api.allowed rt ->
  api.w (api.handler rt r s)
    = http.Error "Method not allowed" http.StatusMethodNotAllowed (api.w s)
  /\ api.store (api.handler rt r s) = api.store s
  /\ api.conf (api.handler rt r s) = api.conf s
  /\ api.calls (api.handler rt r s) = api.calls s
  /\ (api.logs (api.handler rt r s) = api.logs s
      \/ api.logs (api.handler rt r s)
         = (api.logs s ++ ["HTTP ERROR: Method not allowed"])%list).
Proof.
  intros Hm.
  destruct rt; cbn [api.handler api.allowed] in *;
    unfold api.GetCategories, api.EditCategories, api.EditCurrency, api.AddExpense,
      api.GetExpenses, api.DeleteExpense, api.ServeTableView, api.ServeSettingsPage,
      api.ServeAPISetupView, api.serveView, api.ServeStaticFile, api.ExportCSV,
      api.ExportJSON;
    rewrite (guard_taken r _ Hm); cbn; auto 10.
Qed.

(** C5. Whatever the route, a request whose method is not the one the
    handler allows gets exactly [http.Error(w, "Method not allowed", 405)]
    and nothing else happens: the storage and the configuration are the
    ones before the call, no collaborator call is recorded (no storage
    method, no config update, no template or static file), and the only
    other effect is at most one line in the server log.  On a fresh
    response writer that is status 405 with the plain-text message. *)
Theorem method_not_allowed_first (rt : api.Route) (r : http.Request) (s : api.State S) :
  http.Method r <> api.allowed rt ->
  api.w (api.handler rt r s)
    = http.Error "Method not allowed" http.StatusMethodNotAllowed (api.w s)
  /\ api.store (api.handler rt r s) = api.store s
  /\ api.conf (api.handler rt r s) = api.conf s
  /\ api.calls (api.handler rt r s) = api.calls s
  /\ (api.logs (api.handler rt r s) = api.logs s
      \/ api.logs (api.handler rt r s)
         = (api.logs s ++ ["HTTP ERROR: Method not allowed"])%list)
  /\ (http.wroteHeader (api.w s) = false ->
      http.status (api.w (api.handler rt r s)) = 405
      /\ http.sent (api.w (api.handler rt r s)) !! "Content-Type"
         = Some "text/plain; charset=utf-8"
      /\ http.body (api.w (api.handler rt r s))
         = http.body (api.w s) ++ "Method not allowed" ++ newline).
Proof.
  intros Hm.
  destruct (guard_effect rt r s Hm) as (Hw & Hs & Hc & Hk & Hl).
  do 5 (split; [assumption|]).
  intros Hf. rewrite Hw. apply Error_uncommitted, Hf.
Qed.

End MethodGuard.

(** A GET sent to [AddExpense], on the storage engine of the spec. *)
Lemma method_not_allowed_first_witness :
  http.Method (sample.request "GET" sample.coffee_body) <> api.allowed api.RAddExpense
  /\ api.store (api.handler api.RAddExpense (sample.request "GET" sample.coffee_body)
                  (sample.start memstore.empty)) = memstore.empty.
Proof.
  split; [discriminate|].
  apply (method_not_allowed_first api.RAddExpense
           (sample.request "GET" sample.coffee_body) (sample.start memstore.empty)).
  discriminate.
Defined.

(** ** [writeJSON] *)

Lemma append_cons (c : ascii) (s t : string) : String c s ++ t = String c (s ++ t).
Proof. reflexivity. Qed.

Lemma append_empty_l (s : string) : "" ++ s = s.
Proof. reflexivity. Qed.

Lemma append_empty_r (s : string) : s ++ "" = s.
Proof. induction s as [|c s IH]; [reflexivity | now rewrite append_cons, IH]. Qed.

Lemma append_assoc (a b c : string) : (a ++ b) ++ c = a ++ (b ++ c).
Proof. induction a as [|x a IH]; [reflexivity | now rewrite !append_cons, IH]. Qed.

Lemma writeJSON_uncommitted (code : Z) (v : api.payload) (w : http.ResponseWriter) :
  http.wroteHeader w = false ->
  http.status (api.writeJSON code v w) = code
  /\ http.sent (api.writeJSON code v w) !! "Content-Type" = Some "application/json"
  /\ http.body (api.writeJSON code v w) = http.body w ++ api.encoded v.
Proof.
  intros Hw. unfold api.writeJSON, api.Encode, api.encoded, http.WriteHeader; cbn.
  rewrite Hw. destruct (api.marshal v) as [t|]; cbn.
  - split; [reflexivity|]. split; [apply lookup_insert_eq | reflexivity].
  - split; [reflexivity|]. split; [apply lookup_insert_eq |].
    symmetry; apply append_empty_r.
Qed.

(** An error response is always marshalled: an object with the one key
    [error]. *)
Lemma encoded_error (msg : string) :
  api.encoded (api.PError {| api.Error := msg |})
  = json.render (json.Obj [("error", json.Str (json.escape msg))]) ++ newline.
Proof. reflexivity. Qed.

Lemma encoded_success :
  api.encoded (api.PMap [("status", "success")])
  = json.render (json.Obj [("status", json.Str "success")]) ++ newline.
Proof. reflexivity. Qed.

Section AddExpense.

Context {S : Type} `{!storage.Storage S} `{!web.Renderer} `{!api.Decoder} `{!api.Validator}.

(** C2. When the request decodes to an expense the validator refuses,
    [AddExpense] never calls [SaveExpense]: no collaborator call is
    recorded and the storage is the one before the request (whatever the
    method); and under PUT, the method that lets the request reach the
    validator, the response is 400 with the validator's message as the
    JSON error body. *)
Theorem AddExpense_invalid_not_saved
    (r : http.Request) (s : api.State S) (req : api.ExpenseRequest) (err : error) :
  api.Decode_ExpenseRequest (http.Body r) = inl req ->
  api.Validate (api.expense_of req) = Some err ->
  api.calls (api.AddExpense r s) = api.calls s
  /\ api.store (api.AddExpense r s) = api.store s
  /\ api.conf (api.AddExpense r s) = api.conf s
  /\ (http.Method r = http.MethodPut ->
      api.w (api.AddExpense r s)
        = api.writeJSON http.StatusBadRequest
            (api.PError {| api.Error := errors.Error err |}) (api.w s)
      /\ (http.wroteHeader (api.w s) = false ->
          http.status (api.w (api.AddExpense r s)) = 400
          /\ http.sent (api.w (api.AddExpense r s)) !! "Content-Type"
             = Some "application/json"
          /\ http.body (api.w (api.AddExpense r s))
             = http.body (api.w s)
               ++ json.render (json.Obj [("error", json.Str (json.escape (errors.Error err)))])
               ++ newline)).
Proof.
  intros Hd Hv. unfold api.AddExpense.
  destruct (negb (http.Method r =? http.MethodPut)%string) eqn:Hg.
  - cbn. do 3 (split; [reflexivity|]).
    intros Hm. rewrite (guard_passed r _ Hm) in Hg. discriminate.
  - rewrite Hd, Hv. do 3 (split; [reflexivity|]).
    intros _. split; [reflexivity|].
    intros Hf.
    exact (writeJSON_uncommitted http.StatusBadRequest
             (api.PError {| api.Error := errors.Error err |}) (api.w s) Hf).
Qed.

(** C4. The expense [AddExpense] builds from a decoded request carries the
    request's date converted to UTC, the same instant, when that date is
    not the zero time, and the request's date as it is when it is the zero
    time.  That expense is what is validated and, once valid, the one
    argument of the one [SaveExpense] call; the response then carries the
    expense as the store leaves it, so the same date whenever the store
    does not rewrite it. *)
Theorem AddExpense_date_normalized
    (r : http.Request) (s : api.State S) (req : api.ExpenseRequest) :
  http.Method r = http.MethodPut ->
  api.Decode_ExpenseRequest (http.Body r) = inl req ->
  let expense := api.expense_of req in
  (time.IsZero (api.Date req) = false ->
     config.Date expense = time.UTC (api.Date req)
     /\ time.loc (config.Date expense) = None
     /\ time.Equal (config.Date expense) (api.Date req))
  /\ (time.IsZero (api.Date req) = true -> config.Date expense = api.Date req)
  /\ (api.Validate expense = None ->
      api.calls (api.AddExpense r s) = (api.calls s ++ [api.CallSaveExpense expense])%list
      /\ forall saved st,
          storage.SaveExpense expense (api.store s) = ((saved, None), st) ->
          api.w (api.AddExpense r s)
            = api.writeJSON http.StatusOK (api.PExpense saved) (api.w s)
          /\ (config.Date saved = config.Date expense ->
              config.Date saved = api.normalize_date (api.Date req))).
Proof.
  intros Hm Hd expense. split; [|split].
  - intros Hz. unfold expense, api.expense_of, api.normalize_date; cbn. rewrite Hz; cbn.
    repeat split.
  - intros Hz. unfold expense, api.expense_of, api.normalize_date; cbn. now rewrite Hz.
  - intros Hv. unfold api.AddExpense. rewrite (guard_passed r _ Hm), Hd. fold expense.
    rewrite Hv.
    destruct (storage.SaveExpense expense (api.store s)) as [[saved0 res] st0] eqn:Hs.
    split.
    + destruct res; reflexivity.
    + intros saved st Heq. inversion Heq; subst. split; [reflexivity|].
      intros Hk. rewrite Hk. reflexivity.
Qed.

End AddExpense.

(** The request of the spec's round trip: Coffee, Food, 3.5. *)
Lemma AddExpense_invalid_not_saved_witness :
  api.Decode_ExpenseRequest (http.Body (sample.request "PUT" sample.unnamed_body))
    = inl {| api.Name := ""; api.Category := "Food";
             api.Amount := sample.amount_3_5; api.Date := time.zero |}
  /\ http.status (api.w (api.AddExpense (sample.request "PUT" sample.unnamed_body)
                           (sample.start memstore.empty))) = 400.
Proof.
  split; [vm_compute; reflexivity|].
  pose proof (AddExpense_invalid_not_saved
                (sample.request "PUT" sample.unnamed_body) (sample.start memstore.empty)
                {| api.Name := ""; api.Category := "Food";
                   api.Amount := sample.amount_3_5; api.Date := time.zero |}
                sample.name_required) as Hthm.
  destruct Hthm as (_ & _ & _ & Hput); [vm_compute; reflexivity | vm_compute; reflexivity |].
  destruct (Hput eq_refl) as (_ & Hfresh).
  destruct (Hfresh eq_refl) as (Hstatus & _).
  exact Hstatus.
Defined.

Lemma AddExpense_date_normalized_witness :
  time.IsZero (api.Date sample.coffee) = false
  /\ config.Date (api.expense_of sample.coffee)
     = {| time.sec := 63871329600; time.nsec := 0; time.loc := None |}.
Proof.
  split; [reflexivity|].
  pose proof (AddExpense_date_normalized
                (sample.request "PUT" sample.coffee_body) (sample.start memstore.empty)
                sample.coffee) as Hthm.
  destruct Hthm as (Hnz & _); [reflexivity | vm_compute; reflexivity |].
  destruct (Hnz eq_refl) as (Hdate & _).
  exact Hdate.
Defined.

(** ** The storage engine of the spec *)


Section Stored.

Context `{!web.Renderer} `{!api.Decoder} `{!api.Validator}.


End Stored.


(** ** What the client sees *)

Lemma reply_writeJSON (code : Z) (v : api.payload) (w : http.ResponseWriter) :
  http.wroteHeader w = false ->
  http.reply (api.writeJSON code v w) = (code, http.json_type, http.body w ++ api.encoded v).
Proof.
  intros Hw. destruct (writeJSON_uncommitted code v w Hw) as (A & B & C).
  unfold http.reply. now rewrite A, B, C.
Qed.

Lemma reply_Error (msg : string) (code : Z) (w : http.ResponseWriter) :
  http.wroteHeader w = false ->
  http.reply (http.Error msg code w) = (code, http.plain_text, http.body w ++ msg ++ newline).
Proof.
  intros Hw. destruct (Error_uncommitted msg code w Hw) as (A & B & C).
  unfold http.reply. now rewrite A, B, C.
Qed.

(** Projections of a state through the state updates. *)
Ltac state_simpl :=
  cbn [api.w api.store api.conf api.logs api.calls
       api.log api.set_w api.called api.set_store api.set_conf api.methodNotAllowed].

Section Delete.

Context {S : Type} `{!storage.Storage S}.

(** The four outcomes of [DeleteExpense] under DELETE. *)
Lemma DeleteExpense_cases (r : http.Request) (s : api.State S) :
  http.Method r = http.MethodDelete ->
  http.wroteHeader (api.w s) = false ->
  let id := http.Query_Get (http.URL_Query r) "id" in
  (id = "" ->
     http.reply (api.w (api.DeleteExpense r s))
       = (400, http.json_type, http.body (api.w s) ++ api.error_body "ID parameter is required")
     /\ api.calls (api.DeleteExpense r s) = api.calls s
     /\ api.store (api.DeleteExpense r s) = api.store s)
  /\ (id <> "" ->
      forall res st, storage.DeleteExpense id (api.store s) = (res, st) ->
        api.calls (api.DeleteExpense r s) = (api.calls s ++ [api.CallDeleteExpense id])%list
        /\ api.store (api.DeleteExpense r s) = st
        /\ (res = Some storage.ErrExpenseNotFound ->
            http.reply (api.w (api.DeleteExpense r s))
              = (404, http.json_type, http.body (api.w s) ++ api.error_body "Expense not found"))
        /\ (forall err, res = Some err -> err <> storage.ErrExpenseNotFound ->
            http.reply (api.w (api.DeleteExpense r s))
              = (500, http.json_type,
                 http.body (api.w s) ++ api.error_body "Failed to delete expense"))
        /\ (res = None ->
            http.reply (api.w (api.DeleteExpense r s))
              = (200, http.json_type, http.body (api.w s) ++ api.success_body))).
Proof.
  intros Hm Hf id. unfold api.DeleteExpense. rewrite (guard_passed r _ Hm). fold id.
  split.
  - intros Hid. rewrite Hid, String.eqb_refl. state_simpl.
    split; [|split; reflexivity]. apply reply_writeJSON, Hf.
  - intros Hid res st Hdel.
    apply String.eqb_neq in Hid. rewrite Hid, Hdel.
    split; [destruct res as [e|]; [destruct (decide _)|]; reflexivity|].
    split; [destruct res as [e|]; [destruct (decide _)|]; reflexivity|].
    split; [|split].
    + intros ->. destruct (decide _) as [_|Hne]; [|congruence].
      state_simpl. apply reply_writeJSON, Hf.
    + intros err -> Hne. destruct (decide _) as [Heq|_]; [congruence|].
      state_simpl. apply reply_writeJSON, Hf.
    + intros ->. state_simpl. apply reply_writeJSON, Hf.
Qed.

End Delete.

Lemma existsb_filter_out {A : Type} (p : A -> bool) (l : list A) :
  existsb p (List.filter (fun x => negb (p x)) l) = false.
Proof.
  induction l as [|x l IH]; [reflexivity|].
  cbn [List.filter]. destruct (p x) eqn:Hp; cbn [negb]; [exact IH|].
  cbn [existsb]. now rewrite Hp, IH.
Qed.

(** Deleting on the storage engine of the spec. *)
Lemma memstore_delete_present (id : string) (st : memstore.Store) :
  memstore.broken st = None ->
  existsb (memstore.has_id id) (memstore.records st) = true ->
  exists st', memstore.DeleteExpense id st = (None, st')
    /\ memstore.broken st' = None
    /\ existsb (memstore.has_id id) (memstore.records st') = false.
Proof.
  intros Hb Hex. unfold memstore.DeleteExpense. rewrite Hb, Hex.
  eexists; split; [reflexivity|]. split; [reflexivity|].
  apply existsb_filter_out.
Qed.

Lemma memstore_delete_absent (id : string) (st : memstore.Store) :
  memstore.broken st = None ->
  existsb (memstore.has_id id) (memstore.records st) = false ->
  memstore.DeleteExpense id st = (Some memstore.ErrExpenseNotFound, st).
Proof. intros Hb Hex. unfold memstore.DeleteExpense. now rewrite Hb, Hex. Qed.

(** C3. Under DELETE, on any storage: an empty [id] parameter is answered
    400 without a storage call; otherwise [DeleteExpense] of the storage is
    called once with the id, and its result decides the response: the
    not-found sentinel gives 404, any other error 500, no error 200 with
    the body [{"status":"success"}].  On the storage engine of the spec,
    deleting the id of a stored expense twice gives 200, then 404. *)
Theorem DeleteExpense_responses :
  (forall (S : Type) (St : storage.Storage S) (r : http.Request) (s : api.State S),
     http.Method r = http.MethodDelete ->
     http.wroteHeader (api.w s) = false ->
     let id := http.Query_Get (http.URL_Query r) "id" in
     (id = "" ->
        http.reply (api.w (api.DeleteExpense r s))
          = (400, http.json_type,
             http.body (api.w s) ++ api.error_body "ID parameter is required")
        /\ api.calls (api.DeleteExpense r s) = api.calls s
        /\ api.store (api.DeleteExpense r s) = api.store s)
     /\ (id <> "" ->
         forall res st, storage.DeleteExpense id (api.store s) = (res, st) ->
           api.calls (api.DeleteExpense r s)
             = (api.calls s ++ [api.CallDeleteExpense id])%list
           /\ api.store (api.DeleteExpense r s) = st
           /\ (res = Some storage.ErrExpenseNotFound ->
               http.reply (api.w (api.DeleteExpense r s))
                 = (404, http.json_type,
                    http.body (api.w s) ++ api.error_body "Expense not found"))
           /\ (forall err, res = Some err -> err <> storage.ErrExpenseNotFound ->
               http.reply (api.w (api.DeleteExpense r s))
                 = (500, http.json_type,
                    http.body (api.w s) ++ api.error_body "Failed to delete expense"))
           /\ (res = None ->
               http.reply (api.w (api.DeleteExpense r s))
                 = (200, http.json_type, http.body (api.w s) ++ api.success_body))))
  /\ (forall (r : http.Request) (s : api.State memstore.Store),
        http.Method r = http.MethodDelete ->
        http.Query_Get (http.URL_Query r) "id" <> "" ->
        memstore.broken (api.store s) = None ->
        existsb (memstore.has_id (http.Query_Get (http.URL_Query r) "id"))
          (memstore.records (api.store s)) = true ->
        let first := api.DeleteExpense r (api.set_w (fun _ => http.newResponseWriter) s) in
        let second := api.DeleteExpense r (api.set_w (fun _ => http.newResponseWriter) first) in
        http.reply (api.w first) = (200, http.json_type, api.success_body)
        /\ http.reply (api.w second) = (404, http.json_type, api.error_body "Expense not found")).
Proof.
  split.
  - intros S St r s. apply DeleteExpense_cases.
  - intros r s Hm Hid Hb Hex first second.
    destruct (memstore_delete_present _ _ Hb Hex) as (st' & Hdel & Hb' & Hex').
    destruct (DeleteExpense_cases r (api.set_w (fun _ => http.newResponseWriter) s) Hm eq_refl)
      as [_ Hfirst].
    destruct (Hfirst Hid None st' Hdel) as (_ & Hst & _ & _ & Hok).
    fold first in Hst, Hok. split; [exact (Hok eq_refl)|].
    destruct (DeleteExpense_cases r (api.set_w (fun _ => http.newResponseWriter) first) Hm eq_refl)
      as [_ Hsecond].
    assert (Hdel2 : storage.DeleteExpense (http.Query_Get (http.URL_Query r) "id")
                      (api.store (api.set_w (fun _ => http.newResponseWriter) first))
                    = (Some memstore.ErrExpenseNotFound, st')).
    { state_simpl. rewrite Hst. apply memstore_delete_absent; assumption. }
    destruct (Hsecond Hid _ _ Hdel2) as (_ & _ & Hnf & _).
    exact (Hnf eq_refl).
Qed.

(** Coffee is stored, then deleted twice. *)
Lemma DeleteExpense_responses_witness :
  http.status (api.w (api.DeleteExpense (sample.delete_request "exp-1")
       (sample.start (api.store (api.AddExpense (sample.request "PUT" sample.coffee_body)
                                  (sample.start memstore.empty)))))) = 200
  /\ http.status (api.w (api.DeleteExpense (sample.delete_request "exp-1")
       (sample.start (api.store (api.DeleteExpense (sample.delete_request "exp-1")
          (sample.start (api.store (api.AddExpense (sample.request "PUT" sample.coffee_body)
                                     (sample.start memstore.empty))))))))) = 404.
Proof.
  destruct DeleteExpense_responses as [_ Htwice].
  destruct (Htwice (sample.delete_request "exp-1")
              (sample.start (api.store (api.AddExpense (sample.request "PUT" sample.coffee_body)
                                          (sample.start memstore.empty)))))
    as [H1 H2]; [reflexivity | vm_compute; discriminate | reflexivity | vm_compute; reflexivity |].
  split.
  - exact (f_equal (fun x => fst (fst x)) H1).
  - exact (f_equal (fun x => fst (fst x)) H2).
Defined.

Section Categories.

Context {S : Type} `{!api.Decoder}.


End Categories.


(** ** Failures of the collaborators *)

Section Failures.

Context {S : Type} `{!storage.Storage S} `{!web.Renderer} `{!api.Decoder} `{!api.Validator}.

Lemma save_failure_reply (r : http.Request) (s : api.State S) (req : api.ExpenseRequest)
    (saved : config.Expense) (err : error) (st : S) :
  http.Method r = http.MethodPut ->
  api.Decode_ExpenseRequest (http.Body r) = inl req ->
  api.Validate (api.expense_of req) = None ->
  storage.SaveExpense (api.expense_of req) (api.store s) = ((saved, Some err), st) ->
  api.w (api.AddExpense r s)
  = api.writeJSON 500 (api.PError {| api.Error := "Failed to save expense" |}) (api.w s).
Proof.
  intros Hm Hd Hv Hs. unfold api.AddExpense.
  rewrite (guard_passed r _ Hm), Hd, Hv, Hs. reflexivity.
Qed.

Lemma fetch_failure_reply (rt : api.Route) (r : http.Request) (s : api.State S)
    (l : slice config.Expense) (err : error) (st : S) :
  api.fetches rt = true ->
  http.Method r = http.MethodGet ->
  storage.GetAllExpenses (api.store s) = ((l, Some err), st) ->
  api.w (api.handler rt r s)
  = api.writeJSON 500 (api.PError {| api.Error := "Failed to retrieve expenses" |}) (api.w s).
Proof.
  intros Hrt Hm Hg.
  destruct rt; try discriminate Hrt; cbn [api.handler];
    unfold api.GetExpenses, api.ExportCSV, api.ExportJSON;
    rewrite (guard_passed r _ Hm), Hg; reflexivity.
Qed.

Lemma marshal_failure_reply (r : http.Request) (s : api.State S)
    (l : slice config.Expense) (st : S) :
  http.Method r = http.MethodGet ->
  storage.GetAllExpenses (api.store s) = ((l, None), st) ->
  api.MarshalIndent l = None ->
  api.w (api.ExportJSON r s)
  = http.Error "Failed to marshal JSON data" 500
      (http.Header_Set "Content-Disposition" "attachment; filename=expenses.json"
         (http.Header_Set "Content-Type" "application/json" (api.w s))).
Proof.
  intros Hm Hg Hmi. unfold api.ExportJSON.
  rewrite (guard_passed r _ Hm), Hg, Hmi. reflexivity.
Qed.

Lemma view_failure_reply (rt : api.Route) (name : string) (r : http.Request)
    (s : api.State S) (w2 : http.ResponseWriter) (err : error) :
  api.view_template rt = Some name ->
  http.Method r = http.MethodGet ->
  web.ServeTemplate name (http.Header_Set "Content-Type" "text/html" (api.w s))
    = (w2, Some err) ->
  api.w (api.handler rt r s) = http.Error "Failed to serve template" 500 w2.
Proof.
  intros Hrt Hm Hr.
  destruct rt; try discriminate Hrt; injection Hrt as <-; cbn [api.handler];
    unfold api.ServeTableView, api.ServeSettingsPage, api.ServeAPISetupView, api.serveView;
    rewrite (guard_passed r _ Hm), Hr; reflexivity.
Qed.

Lemma static_failure_reply (r : http.Request) (s : api.State S)
    (w2 : http.ResponseWriter) (err : error) :
  http.Method r = http.MethodGet ->
  web.ServeStatic (http.URL_Path r) (api.w s) = (w2, Some err) ->
  api.w (api.ServeStaticFile r s) = http.Error "Failed to serve static file" 500 w2.
Proof.
  intros Hm Hr. unfold api.ServeStaticFile.
  rewrite (guard_passed r _ Hm), Hr. reflexivity.
Qed.

Lemma Error_body (msg : string) (code : Z) (w : http.ResponseWriter) :
  http.body (http.Error msg code w) = http.body w ++ msg ++ newline.
Proof.
  unfold http.Error, http.Write, http.WriteHeader, http.Header_Set, http.Header_Del.
  cbn [http.wroteHeader]. destruct (http.wroteHeader w); reflexivity.
Qed.

(** C9. Whatever error value a collaborator returns, the response to the
    failure is determined by the response writer alone: a failed save, a
    failed fetch (in the three handlers that fetch) and a failed delete
    other than not-found are answered 500 with a fixed JSON error
    message; a failed serialization in [ExportJSON], a failed template and
    a failed static file are answered by [http.Error] with a fixed text
    after what the renderer had written.  No right-hand side mentions the
    error: two runs that differ only in it send the same body. *)
Theorem internal_error_not_in_response (r : http.Request) (s : api.State S) :
  http.wroteHeader (api.w s) = false ->
  (forall req saved err st,
      http.Method r = http.MethodPut ->
      api.Decode_ExpenseRequest (http.Body r) = inl req ->
      api.Validate (api.expense_of req) = None ->
      storage.SaveExpense (api.expense_of req) (api.store s) = ((saved, Some err), st) ->
      http.reply (api.w (api.AddExpense r s))
      = (500, http.json_type, http.body (api.w s) ++ api.error_body "Failed to save expense"))
  /\ (forall rt l err st,
        api.fetches rt = true ->
        http.Method r = http.MethodGet ->
        storage.GetAllExpenses (api.store s) = ((l, Some err), st) ->
        http.reply (api.w (api.handler rt r s))
        = (500, http.json_type,
           http.body (api.w s) ++ api.error_body "Failed to retrieve expenses"))
  /\ (forall err st,
        http.Method r = http.MethodDelete ->
        http.Query_Get (http.URL_Query r) "id" <> "" ->
        storage.DeleteExpense (http.Query_Get (http.URL_Query r) "id") (api.store s)
          = (Some err, st) ->
        err <> storage.ErrExpenseNotFound ->
        http.reply (api.w (api.DeleteExpense r s))
        = (500, http.json_type,
           http.body (api.w s) ++ api.error_body "Failed to delete expense"))
  /\ (forall l st,
        http.Method r = http.MethodGet ->
        storage.GetAllExpenses (api.store s) = ((l, None), st) ->
        api.MarshalIndent l = None ->
        http.reply (api.w (api.ExportJSON r s))
        = (500, http.plain_text,
           http.body (api.w s) ++ "Failed to marshal JSON data" ++ newline))
  /\ (forall rt name w2 err,
        api.view_template rt = Some name ->
        http.Method r = http.MethodGet ->
        web.ServeTemplate name (http.Header_Set "Content-Type" "text/html" (api.w s))
          = (w2, Some err) ->
        http.body (api.w (api.handler rt r s))
          = http.body w2 ++ "Failed to serve template" ++ newline
        /\ (http.wroteHeader w2 = false ->
            http.reply (api.w (api.handler rt r s))
            = (500, http.plain_text, http.body w2 ++ "Failed to serve template" ++ newline)))
  /\ (forall w2 err,
        http.Method r = http.MethodGet ->
        web.ServeStatic (http.URL_Path r) (api.w s) = (w2, Some err) ->
        http.body (api.w (api.ServeStaticFile r s))
          = http.body w2 ++ "Failed to serve static file" ++ newline
        /\ (http.wroteHeader w2 = false ->
            http.reply (api.w (api.ServeStaticFile r s))
            = (500, http.plain_text,
               http.body w2 ++ "Failed to serve static file" ++ newline))).
Proof.
  intros Hf. split; [|split; [|split; [|split; [|split]]]].
  - intros req saved err st Hm Hd Hv Hs.
    rewrite (save_failure_reply r s req saved err st Hm Hd Hv Hs).
    apply reply_writeJSON, Hf.
  - intros rt l err st Hrt Hm Hg.
    rewrite (fetch_failure_reply rt r s l err st Hrt Hm Hg).
    apply reply_writeJSON, Hf.
  - intros err st Hm Hid Hdel Hne.
    destruct (DeleteExpense_cases r s Hm Hf) as [_ Hc].
    destruct (Hc Hid _ _ Hdel) as (_ & _ & _ & H500 & _).
    exact (H500 err eq_refl Hne).
  - intros l st Hm Hg Hmi.
    rewrite (marshal_failure_reply r s l st Hm Hg Hmi).
    rewrite reply_Error by exact Hf. reflexivity.
  - intros rt name w2 err Hrt Hm Hr.
    rewrite (view_failure_reply rt name r s w2 err Hrt Hm Hr).
    split; [apply Error_body | apply reply_Error].
  - intros w2 err Hm Hr.
    rewrite (static_failure_reply r s w2 err Hm Hr).
    split; [apply Error_body | apply reply_Error].
Qed.

End Failures.

(** Listing on a store that fails. *)
Lemma internal_error_not_in_response_witness :
  http.wroteHeader (api.w (sample.start sample.broken_store)) = false
  /\ http.reply (api.w (api.GetExpenses (sample.request "GET" "")
                          (sample.start sample.broken_store)))
     = (500, http.json_type, api.error_body "Failed to retrieve expenses").
Proof.
  split; [reflexivity|].
  pose proof (internal_error_not_in_response (sample.request "GET" "")
                (sample.start sample.broken_store) eq_refl) as Hthm.
  destruct Hthm as (_ & Hfetch & _).
  exact (Hfetch api.RGetExpenses None sample.disk_full sample.broken_store
           eq_refl eq_refl eq_refl).
Defined.

(** ** Content types of the error responses *)

Lemma Write_committed (b : string) (w : http.ResponseWriter) :
  http.wroteHeader w = true ->
  http.wroteHeader (http.Write b w) = true
  /\ http.status (http.Write b w) = http.status w
  /\ http.sent (http.Write b w) = http.sent w
  /\ http.body (http.Write b w) = http.body w ++ b.
Proof.
  intros Hw. unfold http.Write, http.WriteHeader. rewrite Hw. cbn [http.wroteHeader
    http.status http.sent http.body]. auto.
Qed.

Lemma Write_uncommitted (b : string) (w : http.ResponseWriter) :
  http.wroteHeader w = false ->
  http.wroteHeader (http.Write b w) = true
  /\ http.status (http.Write b w) = 200
  /\ http.sent (http.Write b w) = http.header w
  /\ http.body (http.Write b w) = http.body w ++ b.
Proof.
  intros Hw. unfold http.Write, http.WriteHeader. rewrite Hw. cbn [http.wroteHeader
    http.status http.sent http.body]. auto.
Qed.

Section WriteLines.

Context {S : Type} `{!storage.Storage S}.

Lemma writeLines_committed (l : list config.Expense) (w : http.ResponseWriter) :
  http.wroteHeader w = true ->
  http.wroteHeader (api.writeLines l w) = true
  /\ http.status (api.writeLines l w) = http.status w
  /\ http.sent (api.writeLines l w) = http.sent w
  /\ http.body (api.writeLines l w)
     = http.body w ++ concat_all (map api.csvLine l).
Proof.
  revert w. induction l as [|e l IH]; intros w Hw.
  - cbn [api.writeLines map concat_all]. rewrite append_empty_r. auto.
  - cbn [api.writeLines map concat_all].
    destruct (Write_committed (api.csvLine e) w Hw) as (A & B & C & D).
    destruct (IH _ A) as (A' & B' & C' & D').
    rewrite A', B', C', D', B, C, D, append_assoc. auto.
Qed.

End WriteLines.

Section ContentTypes.

Context {S : Type} `{!storage.Storage S} `{!web.Renderer} `{!api.Decoder} `{!api.Validator}.

Ltac json_error Hf :=
  right; left; eexists _, _; split; cycle 1;
  [ state_simpl; rewrite reply_writeJSON by exact Hf; reflexivity | auto ].

Ltac ok_json Hf :=
  right; right; right; state_simpl;
  match goal with
  | |- http.status (api.writeJSON ?c ?v ?w) = _ =>
      exact (proj1 (writeJSON_uncommitted c v w Hf))
  end.

(** Every response of the config, expense and export handlers is one of
    four kinds. *)
Lemma crud_outcomes (rt : api.Route) (r : http.Request) (s : api.State S) :
  http.wroteHeader (api.w s) = false ->
  api.view_template rt = None ->
  rt <> api.RServeStaticFile ->
  http.reply (api.w (api.handler rt r s))
    = (405, http.plain_text, http.body (api.w s) ++ "Method not allowed" ++ newline)
  \/ (exists code msg,
        (code = 400 \/ code = 404 \/ code = 500)
        /\ http.reply (api.w (api.handler rt r s))
           = (code, http.json_type, http.body (api.w s) ++ api.error_body msg))
  \/ (rt = api.RExportJSON
      /\ http.reply (api.w (api.handler rt r s))
         = (500, http.plain_text,
            http.body (api.w s) ++ "Failed to marshal JSON data" ++ newline))
  \/ http.status (api.w (api.handler rt r s)) = 200.
Proof.
  intros Hf Hview Hstatic.
  destruct (decide (http.Method r = api.allowed rt)) as [Hm|Hm].
  2:{ left. destruct (guard_effect rt r s Hm) as (Hw & _).
      rewrite Hw. apply reply_Error, Hf. }
  destruct rt; try discriminate Hview; try congruence; cbn [api.handler api.allowed] in *.
  - unfold api.GetCategories. rewrite (guard_passed r _ Hm). ok_json Hf.
  - unfold api.EditCategories. rewrite (guard_passed r _ Hm).
    destruct (api.Decode_strings (http.Body r)) as [c|e]; [ok_json Hf | json_error Hf].
  - unfold api.EditCurrency. rewrite (guard_passed r _ Hm).
    destruct (api.Decode_string (http.Body r)) as [c|e]; [ok_json Hf | json_error Hf].
  - unfold api.AddExpense. rewrite (guard_passed r _ Hm).
    destruct (api.Decode_ExpenseRequest (http.Body r)) as [req|e]; [|json_error Hf].
    destruct (api.Validate (api.expense_of req)) as [e|]; [json_error Hf|].
    destruct (storage.SaveExpense _ _) as [[saved [e|]] st]; [json_error Hf | ok_json Hf].
  - unfold api.GetExpenses. rewrite (guard_passed r _ Hm).
    destruct (storage.GetAllExpenses _) as [[l [e|]] st]; [json_error Hf | ok_json Hf].
  - unfold api.DeleteExpense. rewrite (guard_passed r _ Hm).
    destruct (http.Query_Get (http.URL_Query r) "id" =? "")%string; [json_error Hf|].
    destruct (storage.DeleteExpense _ _) as [[e|] st];
      [destruct (decide _); json_error Hf | ok_json Hf].
  - unfold api.ExportCSV. rewrite (guard_passed r _ Hm).
    destruct (storage.GetAllExpenses _) as [[l [e|]] st]; [json_error Hf|].
    right; right; right. state_simpl.
    match goal with
    | |- http.status (api.writeLines _ (http.Write ?b ?w0)) = _ =>
        destruct (Write_uncommitted b w0 Hf) as (A & B & _);
        destruct (writeLines_committed (elems l) _ A) as (_ & B' & _)
    end.
    rewrite B'. exact B.
  - unfold api.ExportJSON. rewrite (guard_passed r _ Hm).
    destruct (storage.GetAllExpenses _) as [[l [e|]] st]; [json_error Hf|].
    destruct (api.MarshalIndent l) as [data|].
    + right; right; right. state_simpl.
      match goal with
      | |- http.status (http.Write ?b ?w0) = _ =>
          exact (proj1 (proj2 (Write_uncommitted b w0 Hf)))
      end.
    + right; right; left. split; [reflexivity|]. state_simpl.
      rewrite reply_Error by exact Hf. reflexivity.
Qed.

(** C10. On a fresh response writer: a request with a method the handler
    does not allow is answered by [http.Error], plain text, whatever the
    route; every response of a config, expense or export handler with
    status 400, 404 or 500 is a [writeJSON] of an [ErrorResponse], with
    content type [application/json] and the JSON object [{"error": ...}]
    as body, but for the one 500 of [ExportJSON] that reports a failed
    serialization through [http.Error]; and when a template or a static
    file fails before anything was sent, the 500 is the plain text of
    [http.Error]. *)
Theorem error_content_types (rt : api.Route) (r : http.Request) (s : api.State S) :
  http.wroteHeader (api.w s) = false ->
  (http.Method r <> api.allowed rt ->
     http.reply (api.w (api.handler rt r s))
     = (405, http.plain_text, http.body (api.w s) ++ "Method not allowed" ++ newline))
  /\ (api.view_template rt = None -> rt <> api.RServeStaticFile ->
      (http.status (api.w (api.handler rt r s)) = 405 ->
         http.reply (api.w (api.handler rt r s))
         = (405, http.plain_text, http.body (api.w s) ++ "Method not allowed" ++ newline))
      /\ (http.status (api.w (api.handler rt r s)) = 400
          \/ http.status (api.w (api.handler rt r s)) = 404 ->
          exists msg,
            http.reply (api.w (api.handler rt r s))
            = (http.status (api.w (api.handler rt r s)), http.json_type,
               http.body (api.w s)
               ++ json.render (json.Obj [("error", json.Str (json.escape msg))])
               ++ newline))
      /\ (http.status (api.w (api.handler rt r s)) = 500 ->
          (exists msg,
             http.reply (api.w (api.handler rt r s))
             = (500, http.json_type,
                http.body (api.w s)
                ++ json.render (json.Obj [("error", json.Str (json.escape msg))])
                ++ newline))
          \/ (rt = api.RExportJSON
              /\ http.reply (api.w (api.handler rt r s))
                 = (500, http.plain_text,
                    http.body (api.w s) ++ "Failed to marshal JSON data" ++ newline))))
  /\ (forall name w2 err,
        api.view_template rt = Some name ->
        http.Method r = http.MethodGet ->
        web.ServeTemplate name (http.Header_Set "Content-Type" "text/html" (api.w s))
          = (w2, Some err) ->
        http.wroteHeader w2 = false ->
        http.reply (api.w (api.handler rt r s))
        = (500, http.plain_text, http.body w2 ++ "Failed to serve template" ++ newline))
  /\ (forall w2 err,
        rt = api.RServeStaticFile ->
        http.Method r = http.MethodGet ->
        web.ServeStatic (http.URL_Path r) (api.w s) = (w2, Some err) ->
        http.wroteHeader w2 = false ->
        http.reply (api.w (api.handler rt r s))
        = (500, http.plain_text, http.body w2 ++ "Failed to serve static file" ++ newline)).
Proof.
  intros Hf. split; [|split; [|split]].
  - intros Hm. destruct (guard_effect rt r s Hm) as (Hw & _).
    rewrite Hw. apply reply_Error, Hf.
  - intros Hview Hstatic.
    destruct (crud_outcomes rt r s Hf Hview Hstatic)
      as [H405 | [(code & msg & Hcode & Herr) | [(Hrt & Hmar) | H200]]].
    + pose proof (f_equal (fun x => fst (fst x)) H405) as Hst. cbn in Hst.
      split; [intros _; exact H405|].
      split; [intros [E|E]; rewrite Hst in E; discriminate|].
      intros E; rewrite Hst in E; discriminate.
    + pose proof (f_equal (fun x => fst (fst x)) Herr) as Hst. cbn in Hst.
      split; [intros E; rewrite Hst in E; destruct Hcode as [->|[->| ->]]; discriminate|].
      split.
      * intros _. exists msg. rewrite Hst. exact Herr.
      * intros E. left. exists msg. rewrite Hst in E. rewrite <- E. exact Herr.
    + pose proof (f_equal (fun x => fst (fst x)) Hmar) as Hst. cbn in Hst.
      split; [intros E; rewrite Hst in E; discriminate|].
      split; [intros [E|E]; rewrite Hst in E; discriminate|].
      intros _. right. split; assumption.
    + split; [intros E; rewrite H200 in E; discriminate|].
      split; [intros [E|E]; rewrite H200 in E; discriminate|].
      intros E; rewrite H200 in E; discriminate.
  - intros name w2 err Hrt Hm Hr Hw2.
    rewrite (view_failure_reply rt name r s w2 err Hrt Hm Hr).
    apply reply_Error, Hw2.
  - intros w2 err -> Hm Hr Hw2. cbn [api.handler].
    rewrite (static_failure_reply r s w2 err Hm Hr).
    apply reply_Error, Hw2.
Qed.

End ContentTypes.

(** A delete without an id, and the settings page whose template is
    missing. *)
Lemma error_content_types_witness :
  http.wroteHeader (api.w (sample.start memstore.empty)) = false
  /\ http.reply (api.w (api.DeleteExpense (sample.delete_request "")
                          (sample.start memstore.empty)))
     = (400, http.json_type, api.error_body "ID parameter is required").
Proof.
  split; [reflexivity|].
  pose proof (error_content_types api.RDeleteExpense (sample.delete_request "")
                (sample.start memstore.empty) eq_refl) as Hthm.
  destruct Hthm as (_ & Hcrud & _).
  destruct (Hcrud eq_refl) as (_ & H4xx & _); [discriminate|].
  destruct H4xx as [msg Hmsg]; [left; vm_compute; reflexivity|].
  vm_compute. reflexivity.
Defined.

(** ** Characters of the rendered fields *)

Lemma forallb_str_app (p : ascii -> bool) (a b : string) :
  forallb_str p (a ++ b) = forallb_str p a && forallb_str p b.
Proof.
  induction a as [|c a IH]; [reflexivity|].
  rewrite append_cons. cbn [forallb_str]. rewrite IH. apply andb_assoc.
Qed.

Lemma forallb_str_impl (p q : ascii -> bool) (s : string) :
  (forall c, p c = true -> q c = true) ->
  forallb_str p s = true -> forallb_str q s = true.
Proof.
  intros Hpq. induction s as [|c s IH]; [reflexivity|].
  cbn [forallb_str]. intros [Hc Hs]%andb_true_iff.
  now rewrite (Hpq c Hc), (IH Hs).
Qed.

Lemma uint_digits (d : Decimal.uint) :
  forallb_str is_digit (NilEmpty.string_of_uint d) = true.
Proof. induction d; cbn [NilEmpty.string_of_uint forallb_str]; try rewrite IHd; reflexivity. Qed.

Lemma dec_digits (n : Z) : forallb_str is_digit (dec n) = true.
Proof.
  unfold dec, NilZero.string_of_uint.
  destruct (N.to_uint (Z.to_N n)) eqn:E; try reflexivity; rewrite <- E at 1;
    rewrite E; apply (uint_digits (_ u)).
Qed.

Lemma dec_not_empty (n : Z) : dec n <> "".
Proof.
  unfold dec, NilZero.string_of_uint.
  destruct (N.to_uint (Z.to_N n)); cbn [NilEmpty.string_of_uint]; discriminate.
Qed.

Lemma zeros_digits (k : nat) : forallb_str is_digit (zeros k) = true.
Proof. induction k as [|k IH]; [reflexivity|]. cbn [zeros forallb_str]. now rewrite IH. Qed.

Lemma pad_left_digits (k : nat) (n : Z) : forallb_str is_digit (pad_left k (dec n)) = true.
Proof. unfold pad_left. now rewrite forallb_str_app, zeros_digits, dec_digits. Qed.

(** Two digits for a number below one hundred. *)
Lemma pad2_two_digits (n : Z) :
  0 <= n < 100 ->
  exists d1 d2, pad_left 2 (dec n) = String d1 (String d2 "")
    /\ is_digit d1 = true /\ is_digit d2 = true.
Proof.
  intros Hn.
  assert (Hall : forallb (fun k =>
            match pad_left 2 (dec (Z.of_nat k)) with
            | String d1 (String d2 EmptyString) => is_digit d1 && is_digit d2
            | _ => false
            end) (seq 0 100) = true) by (vm_compute; reflexivity).
  rewrite forallb_forall in Hall.
  specialize (Hall (Z.to_nat n)). rewrite Z2Nat.id in Hall by lia.
  assert (Hin : In (Z.to_nat n) (seq 0 100)) by (apply in_seq; lia).
  specialize (Hall Hin).
  destruct (pad_left 2 (dec n)) as [|d1 [|d2 [|]]]; try discriminate.
  apply andb_true_iff in Hall as [H1 H2]. eauto.
Qed.

(** [%.2f] of a finite number has exactly two decimals. *)
Lemma Sprintf_2f_two_decimals (f : float64) :
  fmt.is_finite f = true -> fmt.two_decimals (fmt.Sprintf_2f f).
Proof.
  intros Hf.
  assert (Hq : forall (s : bool) (q : Z),
             fmt.two_decimals (fmt.sign_text s ++ fmt.fixed2 q)).
  { intros s q. unfold fmt.fixed2.
    destruct (pad2_two_digits (q mod 100)) as (d1 & d2 & Hp & H1 & H2).
    { apply Z.mod_pos_bound. lia. }
    exists s, (dec (q / 100)), d1, d2. rewrite Hp.
    repeat split; auto using dec_not_empty, dec_digits. }
  destruct f as [s|s| |s m e]; try discriminate Hf; cbn [fmt.Sprintf_2f]; apply Hq.
Qed.

Lemma has_char_app (c : ascii) (a b : string) :
  has_char c (a ++ b) = has_char c a || has_char c b.
Proof. unfold has_char. rewrite forallb_str_app. apply negb_andb. Qed.

Lemma digits_no_lf (s : string) : forallb_str is_digit s = true -> has_char LF s = false.
Proof.
  intros Hs. unfold has_char. apply negb_false_iff.
  revert Hs. apply forallb_str_impl. intros c Hc.
  destruct (Ascii.eqb_spec c LF) as [->|]; [discriminate Hc | reflexivity].
Qed.

Lemma fixed2_no_lf (q : Z) : has_char LF (fmt.fixed2 q) = false.
Proof.
  unfold fmt.fixed2. rewrite !has_char_app.
  rewrite (digits_no_lf _ (dec_digits _)), (digits_no_lf _ (pad_left_digits _ _)).
  reflexivity.
Qed.

Lemma Sprintf_2f_no_lf (f : float64) : has_char LF (fmt.Sprintf_2f f) = false.
Proof.
  destruct f as [s|[|]| |s m e]; cbn [fmt.Sprintf_2f]; try reflexivity;
    rewrite has_char_app, fixed2_no_lf; destruct s; reflexivity.
Qed.

Lemma appendInt_no_lf (x : Z) (k : nat) : has_char LF (time.appendInt x k) = false.
Proof.
  unfold time.appendInt. destruct (x <? 0).
  - rewrite has_char_app, (digits_no_lf _ (pad_left_digits _ _)). reflexivity.
  - apply digits_no_lf, pad_left_digits.
Qed.

Lemma Format_DateTime_no_lf (t : time.Time) : has_char LF (time.Format_DateTime t) = false.
Proof.
  unfold time.Format_DateTime, time.date_text, time.clock_text.
  rewrite !has_char_app, !appendInt_no_lf. reflexivity.
Qed.

Lemma ReplaceAll1_no_old (s : string) (old new : ascii) :
  old <> new -> has_char old (strings.ReplaceAll1 s old new) = false.
Proof.
  intros Hne. unfold has_char. apply negb_false_iff.
  induction s as [|c s IH]; [reflexivity|].
  cbn [strings.ReplaceAll1 map_str forallb_str]. fold (strings.ReplaceAll1 s old new).
  rewrite IH, andb_true_r.
  destruct (Ascii.eqb_spec c old) as [->|Hc].
  - apply negb_true_iff, Ascii.eqb_neq. congruence.
  - apply negb_true_iff, Ascii.eqb_neq, Hc.
Qed.

Lemma ReplaceAll1_no_lf (s : string) :
  has_char LF s = false -> has_char LF (strings.ReplaceAll1 s "," ";") = false.
Proof.
  unfold has_char. rewrite !negb_false_iff.
  induction s as [|c s IH]; [reflexivity|].
  cbn [strings.ReplaceAll1 map_str forallb_str]. fold (strings.ReplaceAll1 s "," ";").
  intros [Hc Hs]%andb_true_iff. rewrite (IH Hs), andb_true_r.
  destruct (Ascii.eqb_spec c ","); [reflexivity | exact Hc].
Qed.

(** ** Lines of a text *)

Lemma lines_from_line (cur : string -> string) (s rest : string) :
  has_char LF s = false ->
  lines_from cur (s ++ newline ++ rest) = cur s :: lines rest.
Proof.
  revert cur. induction s as [|c s IH]; intros cur Hs.
  - reflexivity.
  - rewrite append_cons. cbn [lines_from].
    unfold has_char in Hs. cbn [forallb_str] in Hs.
    apply negb_false_iff, andb_true_iff in Hs as [Hc Hs].
    apply negb_true_iff in Hc. rewrite Hc.
    rewrite IH; [reflexivity|]. unfold has_char. now rewrite Hs.
Qed.

Lemma lines_line (s rest : string) :
  has_char LF s = false -> lines (s ++ newline ++ rest) = s :: lines rest.
Proof. intros Hs. unfold lines at 1. now rewrite lines_from_line. Qed.

Lemma csvLine_row (e : config.Expense) :
  api.csvLine e = api.csvRow (fmt.Sprintf_2f (config.Amount e)) e ++ newline.
Proof. unfold api.csvLine, api.csvRow. now rewrite !append_assoc. Qed.

Lemma csvRow_no_lf (e : config.Expense) :
  api.single_line e = true ->
  has_char LF (api.csvRow (fmt.Sprintf_2f (config.Amount e)) e) = false.
Proof.
  unfold api.single_line. intros [[Hi Hn]%andb_true_iff Hc]%andb_true_iff.
  apply negb_true_iff in Hi, Hn, Hc.
  unfold api.csvRow. rewrite !has_char_app.
  rewrite Hi, (ReplaceAll1_no_lf _ Hn), Hc, Sprintf_2f_no_lf, Format_DateTime_no_lf.
  reflexivity.
Qed.

Lemma lines_records (l : list config.Expense) :
  forallb api.single_line l = true ->
  lines (concat_all (map api.csvLine l))
  = (map (fun e => api.csvRow (fmt.Sprintf_2f (config.Amount e)) e) l ++ [""])%list.
Proof.
  induction l as [|e l IH]; [reflexivity|].
  cbn [forallb map concat_all]. intros [He Hl]%andb_true_iff.
  rewrite csvLine_row, append_assoc, lines_line by (apply csvRow_no_lf, He).
  now rewrite (IH Hl).
Qed.

Section CsvExport.

Context {S : Type} `{!storage.Storage S}.

Lemma ExportCSV_writer (r : http.Request) (s : api.State S)
    (l : slice config.Expense) (st : S) :
  http.Method r = http.MethodGet ->
  storage.GetAllExpenses (api.store s) = ((l, None), st) ->
  api.w (api.ExportCSV r s)
  = api.writeLines (elems l)
      (http.Write api.csvHeader
         (http.Header_Set "Content-Disposition" "attachment; filename=expenses.csv"
            (http.Header_Set "Content-Type" "text/csv" (api.w s)))).
Proof.
  intros Hm Hg. unfold api.ExportCSV. rewrite (guard_passed r _ Hm), Hg. reflexivity.
Qed.

(** C6, as amended. A GET to [ExportCSV] whose fetch succeeds is answered
    200 as [text/csv]; the body is the header line
    [ID,Name,Category,Amount,Date] followed by one record per stored
    expense in storage order, each ended by a line feed: the id, the name
    with every comma turned into a semicolon, the category, the amount
    through [%.2f] and the date in the layout [2006-01-02 15:04:05],
    separated by commas.  The name field holds no comma.  When no id, name
    or category holds a line feed and every amount is finite, that is
    exactly one line per expense, with an amount of exactly two
    decimals. *)
Theorem ExportCSV_records (r : http.Request) (s : api.State S)
    (l : slice config.Expense) (st : S) :
  http.Method r = http.MethodGet ->
  storage.GetAllExpenses (api.store s) = ((l, None), st) ->
  http.wroteHeader (api.w s) = false ->
  http.reply (api.w (api.ExportCSV r s))
  = (200, Some "text/csv",
     http.body (api.w s) ++ api.csvHeader ++ concat_all (map api.csvLine (elems l)))
  /\ (forall e, api.csvLine e
                = config.ID e ++ ","
                  ++ strings.ReplaceAll1 (config.Name e) "," ";" ++ ","
                  ++ config.Category e ++ ","
                  ++ fmt.Sprintf_2f (config.Amount e) ++ ","
                  ++ time.date_text (time.civil (config.Date e)) ++ " "
                  ++ time.clock_text (time.civil (config.Date e)) ++ newline)
  /\ (forall e, has_char "," (strings.ReplaceAll1 (config.Name e) "," ";") = false)
  /\ (forallb api.single_line (elems l) = true ->
      forallb (fun e => fmt.is_finite (config.Amount e)) (elems l) = true ->
      api.csv_as_specified
        (api.csvHeader ++ concat_all (map api.csvLine (elems l))) (elems l)).
Proof.
  intros Hm Hg Hf. split; [|split; [|split]].
  - rewrite (ExportCSV_writer r s l st Hm Hg).
    match goal with
    | |- http.reply (api.writeLines _ (http.Write ?b ?w0)) = _ =>
        destruct (Write_uncommitted b w0 Hf) as (A & B & C & D);
        destruct (writeLines_committed (elems l) _ A) as (_ & B' & C' & D')
    end.
    unfold http.reply. rewrite B', C', D', B, C, D.
    cbn [http.header http.Header_Set http.body].
    rewrite lookup_insert_ne by discriminate. rewrite lookup_insert_eq.
    now rewrite append_assoc.
  - intros e. unfold api.csvLine, time.Format_DateTime. now rewrite !append_assoc.
  - intros e. apply ReplaceAll1_no_old. discriminate.
  - intros Hlines Hfin.
    exists (map (fun e => api.csvRow (fmt.Sprintf_2f (config.Amount e)) e) (elems l)).
    split.
    + unfold api.csvHeader. rewrite append_assoc, lines_line by reflexivity.
      now rewrite lines_records.
    + clear Hlines Hg. induction (elems l) as [|e l' IH]; [constructor|].
      cbn [forallb] in Hfin. apply andb_true_iff in Hfin as [He Hl'].
      cbn [map]. constructor; [|exact (IH Hl')].
      exists (fmt.Sprintf_2f (config.Amount e)).
      split; [reflexivity | apply Sprintf_2f_two_decimals, He].
Qed.

End CsvExport.

(** The stored Coffee, exported. *)
Lemma ExportCSV_records_witness :
  http.Method (sample.request "GET" "") = http.MethodGet
  /\ api.csv_as_specified
       (api.csvHeader
        ++ concat_all (map api.csvLine
                         [memstore.with_id "exp-1" (api.expense_of sample.coffee)]))
       [memstore.with_id "exp-1" (api.expense_of sample.coffee)].
Proof.
  split; [reflexivity|].
  pose proof (ExportCSV_records (sample.request "GET" "")
                (sample.start
                   {| memstore.records := [memstore.with_id "exp-1" (api.expense_of sample.coffee)];
                      memstore.next := 2; memstore.broken := None |})
                (Some [memstore.with_id "exp-1" (api.expense_of sample.coffee)])
                {| memstore.records := [memstore.with_id "exp-1" (api.expense_of sample.coffee)];
                   memstore.next := 2; memstore.broken := None |}
                eq_refl eq_refl eq_refl) as Hthm.
  destruct Hthm as (_ & _ & _ & Hspec).
  apply Hspec; reflexivity.
Defined.

Lemma NaN_not_two_decimals (rest : string) (neg : bool) (ip : string) (d1 d2 : ascii) (tail : string) :
  ip <> "" -> forallb_str is_digit ip = true ->
  "NaN" ++ rest <> fmt.sign_text neg ++ ip ++ "." ++ String d1 (String d2 "") ++ tail.
Proof.
  intros Hne Hdig Heq.
  destruct ip as [|c ip]; [congruence|].
  cbn [forallb_str] in Hdig. apply andb_true_iff in Hdig as [Hc _].
  destruct neg; unfold fmt.sign_text in Heq; rewrite !append_cons in Heq.
  - discriminate Heq.
  - rewrite ?append_empty_l, ?append_cons in Heq. injection Heq as Hc' _.
    subst c. discriminate Hc.
Qed.

(** C6, the counterexample. Two stores on which the fetch succeeds: one
    holds a single expense whose name has a line feed in it, and the
    export has two lines for it; the other holds a single expense whose
    amount is NaN, and the export writes [NaN], which has no decimals.
    Neither body is the header followed by one line per expense with a
    two-decimal amount. *)
Lemma ExportCSV_one_line_counterexample :
  storage.GetAllExpenses sample.broken_line_store
    = ((Some (memstore.records sample.broken_line_store), None), sample.broken_line_store)
  /\ lines (http.body (api.w (api.ExportCSV (sample.request "GET" "")
                                (sample.start sample.broken_line_store))))
     = ["ID,Name,Category,Amount,Date"; "exp-1,rent";
        "due,Home,3.50,2025-01-01 12:00:00"; ""]
  /\ ~ api.csv_as_specified
         (http.body (api.w (api.ExportCSV (sample.request "GET" "")
                              (sample.start sample.broken_line_store))))
         (memstore.records sample.broken_line_store)
  /\ lines (http.body (api.w (api.ExportCSV (sample.request "GET" "")
                                (sample.start sample.nan_store))))
     = ["ID,Name,Category,Amount,Date"; "exp-1,Cable,Home,NaN,2025-01-01 12:00:00"; ""]
  /\ ~ api.csv_as_specified
         (http.body (api.w (api.ExportCSV (sample.request "GET" "")
                              (sample.start sample.nan_store))))
         (memstore.records sample.nan_store).
Proof.
  split; [reflexivity|]. split; [vm_compute; reflexivity|].
  split; [|split; [vm_compute; reflexivity|]].
  - intros (rows & Hlines & Hrows).
    inversion Hrows as [|row e rows' l' Hrow Hrest]; subst.
    inversion Hrest; subst.
    vm_compute in Hlines. discriminate Hlines.
  - intros (rows & Hlines & Hrows).
    inversion Hrows as [|row e rows' l' Hrow Hrest]; subst.
    inversion Hrest; subst.
    destruct Hrow as (amount & Hrow & neg & ip & d1 & d2 & Hamount & Hne & Hdig & _).
    assert (Hl : lines (http.body (api.w (api.ExportCSV (sample.request "GET" "")
                                            (sample.start sample.nan_store))))
                 = ["ID,Name,Category,Amount,Date";
                    "exp-1,Cable,Home," ++ "NaN" ++ ",2025-01-01 12:00:00"; ""])
      by (vm_compute; reflexivity).
    rewrite Hl in Hlines. injection Hlines as Hrow'.
    rewrite Hrow in Hrow'. unfold api.csvRow in Hrow'.
    change (config.ID _) with "exp-1" in Hrow'.
    change (strings.ReplaceAll1 _ _ _) with "Cable" in Hrow'.
    change (config.Category _) with "Home" in Hrow'.
    repeat (progress (rewrite ?append_cons, ?append_empty_l in Hrow')).
    injection Hrow' as Hrow'.
    rewrite Hamount in Hrow'. rewrite !append_assoc in Hrow'.
    change "NaN,2025-01-01 12:00:00" with ("NaN" ++ ",2025-01-01 12:00:00") in Hrow'.
    exact (NaN_not_two_decimals _ neg ip d1 d2 _ Hne Hdig Hrow').
Qed.

(** ** Reading back what the encoder writes *)

Section Scanner.

Import json jsonread.

Lemma fmap_cons_app {A : Type} (x : A) (l : list A) (o : option (list A)) :
  cons x <$> (app l <$> o) = app (x :: l) <$> o.
Proof. destruct o; reflexivity. Qed.

Lemma fmap_app_app {A : Type} (l1 l2 : list A) (o : option (list A)) :
  app l1 <$> (app l2 <$> o) = app (l1 ++ l2)%list <$> o.
Proof. destruct o; cbn; [now rewrite app_assoc | reflexivity]. Qed.

Lemma fmap_app_cons {A : Type} (l1 : list A) (x : A) (o : option (list A)) :
  app l1 <$> (cons x <$> o) = app (l1 ++ [x])%list <$> o.
Proof. destruct o; cbn; [now rewrite <- app_assoc | reflexivity]. Qed.

Lemma fmap_nil_app {A : Type} (o : option (list A)) : o = app [] <$> o.
Proof. destruct o; reflexivity. Qed.

Lemma lex_skip (ws s : string) :
  all_space ws = true -> lex Idle (ws ++ s) = lex Idle s.
Proof.
  induction ws as [|c ws IH]; [reflexivity|].
  unfold all_space. cbn [forallb_str]. intros [Hc Hws]%andb_true_iff.
  rewrite append_cons. cbn [lex]. rewrite Hc. apply IH, Hws.
Qed.

Lemma lex_structural (c : ascii) (t : token) (s : string) :
  structural c = Some t -> is_space c = false ->
  lex Idle (String c s) = cons t <$> lex Idle s.
Proof. intros Ht Hs. cbn [lex]. now rewrite Hs, Ht. Qed.

(** A string body up to its closing quote. *)
Lemma lex_string_body (b : string) :
  forall (acc : string) (esc : bool) (rest : string),
    body_ok esc b = true ->
    lex (InStr acc esc) (b ++ String QUOTE rest) = cons (TStr (acc ++ b)) <$> lex Idle rest.
Proof.
  induction b as [|c b IH]; intros acc esc rest Hok.
  - destruct esc; [discriminate Hok|].
    rewrite append_empty_l, append_empty_r. reflexivity.
  - rewrite append_cons. cbn [body_ok] in Hok. cbn [lex]. destruct esc.
    + rewrite (IH _ _ _ Hok). unfold snoc, chr. now rewrite append_assoc.
    + destruct (Ascii.eqb c QUOTE); [discriminate Hok|].
      rewrite (IH _ _ _ Hok). unfold snoc, chr. now rewrite append_assoc.
Qed.

Lemma lex_quoted (b rest : string) :
  body_ok false b = true ->
  lex Idle (quoted b ++ rest) = cons (TStr b) <$> lex Idle rest.
Proof.
  intros Hok. unfold quoted, chr. rewrite !append_cons, append_assoc, append_cons.
  rewrite append_empty_l.
  change (lex Idle (String QUOTE ?x)) with (lex (InStr "" false) x).
  now rewrite (lex_string_body b "" false rest Hok).
Qed.

Lemma lit_char_plain (c : ascii) :
  lit_char c = true ->
  is_space c = false /\ structural c = None /\ Ascii.eqb c QUOTE = false.
Proof.
  destruct c as [[|] [|] [|] [|] [|] [|] [|] [|]]; intros Hc;
    try discriminate Hc; repeat split; reflexivity.
Qed.

(** A literal up to the character that ends it. *)
Lemma lex_lit_body (t : string) :
  forall (acc rest : string),
    forallb_str lit_char t = true -> delimited rest = true ->
    lex (InLit acc) (t ++ rest) = cons (TLit (acc ++ t)) <$> lex Idle rest.
Proof.
  induction t as [|c t IH]; intros acc rest Ht Hrest.
  - rewrite append_empty_l, append_empty_r.
    destruct rest as [|c r]; [reflexivity|].
    cbn [delimited] in Hrest. cbn [lex].
    destruct (is_space c) eqn:Hs; [reflexivity|].
    cbn [orb] in Hrest. apply bool_decide_eq_true in Hrest as [tok Htok].
    rewrite Htok. destruct (lex Idle r); reflexivity.
  - cbn [forallb_str] in Ht. apply andb_true_iff in Ht as [Hc Ht].
    destruct (lit_char_plain c Hc) as (Hs & Hst & _).
    rewrite append_cons. cbn [lex]. rewrite Hs, Hst, Hc.
    rewrite (IH _ _ Ht Hrest). unfold snoc, chr. now rewrite append_assoc.
Qed.

Lemma lex_literal (t rest : string) :
  lit_ok t = true -> delimited rest = true ->
  lex Idle (t ++ rest) = cons (TLit t) <$> lex Idle rest.
Proof.
  unfold lit_ok. intros [Hne Ht]%andb_true_iff Hrest.
  destruct t as [|c t]; [discriminate Hne|].
  cbn [forallb_str] in Ht. apply andb_true_iff in Ht as [Hc Ht].
  destruct (lit_char_plain c Hc) as (Hs & Hst & Hq).
  rewrite append_cons. cbn [lex]. rewrite Hs, Hst, Hq, Hc.
  now rewrite (lex_lit_body t (chr c) rest Ht Hrest).
Qed.

Lemma delimited_space (ws : string) (c : ascii) (r : string) :
  all_space ws = true -> is_Some (structural c) ->
  delimited (ws ++ String c r) = true.
Proof.
  intros Hws Hc. destruct ws as [|x ws].
  - rewrite append_empty_l. cbn [delimited]. apply orb_true_iff. right.
    apply bool_decide_eq_true, Hc.
  - unfold all_space in Hws. cbn [forallb_str] in Hws.
    apply andb_true_iff in Hws as [Hx _].
    rewrite append_cons. cbn [delimited]. now rewrite Hx.
Qed.

End Scanner.

Section Trees.

Import json jsonread.

(** Induction over trees, with the elements of arrays and objects. *)
Lemma value_ind_nested (P : value -> Prop) :
  (forall t, P (Lit t)) ->
  (forall b, P (Str b)) ->
  (forall l, Forall P l -> P (Arr l)) ->
  (forall l, Forall (fun kv => P (snd kv)) l -> P (Obj l)) ->
  forall v, P v.
Proof.
  intros HLit HStr HArr HObj. fix IH 1. intros [t|b|l|l].
  - apply HLit.
  - apply HStr.
  - apply HArr. induction l as [|x l IHl]; constructor; [apply IH | exact IHl].
  - apply HObj. induction l as [|[k x] l IHl]; constructor; [apply IH | exact IHl].
Qed.

Lemma join_cons2 (sep x y : string) (l : list string) :
  join sep (x :: y :: l) = x ++ sep ++ join sep (y :: l).
Proof. reflexivity. Qed.

Lemma sep_tokens_cons2 (x y : list token) (l : list (list token)) :
  sep_tokens (x :: y :: l) = (x ++ TComma :: sep_tokens (y :: l))%list.
Proof. reflexivity. Qed.

Section Layout.

Variables (ws : nat -> string) (cws : string).
Hypothesis ws_space : forall d, all_space (ws d) = true.
Hypothesis cws_space : all_space cws = true.

(** The elements of a non-empty array or object, up to the closing
    bracket [c]. *)
Lemma lex_elements (A : Type) (text : A -> string) (toks : A -> list token)
    (c : ascii) (close : token) (d : nat) (l : list A) (rest : string) :
  structural c = Some close -> is_space c = false ->
  l <> [] ->
  Forall (fun x => forall rest', delimited rest' = true ->
                   lex Idle (text x ++ rest') = app (toks x) <$> lex Idle rest') l ->
  lex Idle (join ("," ++ ws (S d)) (map text l) ++ ws d ++ String c rest)
  = app (sep_tokens (map toks l) ++ [close])%list <$> lex Idle rest.
Proof.
  intros Hc Hs Hne Hall. induction Hall as [|x l Hx Hall IH]; [congruence|].
  destruct l as [|y l].
  - cbn [map join sep_tokens].
    rewrite Hx by (apply delimited_space; [apply ws_space | rewrite Hc; eauto]).
    rewrite lex_skip by apply ws_space.
    rewrite (lex_structural c close rest Hc Hs). apply fmap_app_cons.
  - cbn [map]. rewrite join_cons2, sep_tokens_cons2, !append_assoc.
    rewrite Hx by reflexivity.
    change ("," ++ ?s) with (String "," s).
    rewrite (lex_structural "," TComma _ eq_refl eq_refl).
    rewrite lex_skip by apply ws_space.
    cbn [map] in IH. rewrite IH by discriminate.
    rewrite fmap_cons_app, fmap_app_app. f_equal. f_equal.
    now rewrite <- app_assoc.
Qed.

(** The scanner reads the tokens of a tree off its text, whatever the
    layout. *)
Lemma lex_render_with (v : value) :
  wf v = true ->
  forall (d : nat) (rest : string),
    delimited rest = true ->
    lex Idle (render_with ws (":" ++ cws) d v ++ rest) = app (tokens_of v) <$> lex Idle rest.
Proof.
  induction v as [t|b|l IH|l IH] using value_ind_nested; intros Hwf d rest Hrest.
  - cbn [render_with tokens_of]. cbn [wf] in Hwf. now rewrite lex_literal.
  - cbn [render_with tokens_of]. cbn [wf] in Hwf. now rewrite lex_quoted.
  - destruct l as [|x l].
    + cbn [render_with tokens_of map sep_tokens].
      change ("[]" ++ rest) with (String "[" (String "]" rest)).
      rewrite (lex_structural "[" TLBracket _ eq_refl eq_refl).
      rewrite (lex_structural "]" TRBracket _ eq_refl eq_refl).
      destruct (lex Idle rest); reflexivity.
    + cbn [render_with tokens_of]. rewrite !append_assoc.
      change ("[" ++ ?s) with (String "[" s).
      rewrite (lex_structural "[" TLBracket _ eq_refl eq_refl).
      rewrite lex_skip by apply ws_space.
      change ("]" ++ rest) with (String "]" rest).
      rewrite (lex_elements value (render_with ws (":" ++ cws) (S d)) tokens_of
                 "]" TRBracket d (x :: l) rest eq_refl eq_refl); [|discriminate|].
      * now rewrite fmap_cons_app.
      * cbn [wf] in Hwf. rewrite forallb_forall in Hwf. rewrite Forall_forall in IH |- *.
        intros y Hy rest' Hrest'. apply IH; auto.
        apply Hwf. apply list_elem_of_In, Hy.
  - destruct l as [|x l].
    + cbn [render_with tokens_of map sep_tokens].
      change ("{}" ++ rest) with (String "{" (String "}" rest)).
      rewrite (lex_structural "{" TLBrace _ eq_refl eq_refl).
      rewrite (lex_structural "}" TRBrace _ eq_refl eq_refl).
      destruct (lex Idle rest); reflexivity.
    + cbn [render_with tokens_of]. rewrite !append_assoc.
      change ("{" ++ ?s) with (String "{" s).
      rewrite (lex_structural "{" TLBrace _ eq_refl eq_refl).
      rewrite lex_skip by apply ws_space.
      change ("}" ++ rest) with (String "}" rest).
      rewrite (lex_elements (string * value)
                 (fun kv => quoted (fst kv) ++ (":" ++ cws)
                            ++ render_with ws (":" ++ cws) (S d) (snd kv))
                 (fun kv => TStr (fst kv) :: TColon :: tokens_of (snd kv))
                 "}" TRBrace d (x :: l) rest eq_refl eq_refl); [|discriminate|].
      * now rewrite fmap_cons_app.
      * cbn [wf] in Hwf. rewrite forallb_forall in Hwf. rewrite Forall_forall in IH |- *.
        intros kv Hkv rest' Hrest'.
        specialize (Hwf kv (proj1 (list_elem_of_In _ _) Hkv)).
        apply andb_true_iff in Hwf as [Hk Hv].
        rewrite !append_assoc, lex_quoted by exact Hk.
        change (":" ++ ?s) with (String ":" s).
        rewrite (lex_structural ":" TColon _ eq_refl eq_refl).
        rewrite lex_skip by exact cws_space.
        rewrite (IH kv Hkv Hv (S d) rest' Hrest').
        destruct (lex Idle rest'); reflexivity.
Qed.

End Layout.

Lemma lex_render (v : value) (rest : string) :
  wf v = true -> delimited rest = true ->
  lex Idle (render v ++ rest) = app (tokens_of v) <$> lex Idle rest.
Proof.
  intros Hwf Hrest. unfold render.
  exact (lex_render_with (fun _ => "") "" (fun _ => eq_refl) eq_refl v Hwf 0%nat rest Hrest).
Qed.

Lemma all_space_app (a b : string) :
  all_space (a ++ b) = all_space a && all_space b.
Proof. apply forallb_str_app. Qed.

Lemma spaces_space (indent : string) (d : nat) :
  all_space indent = true -> all_space (spaces indent d) = true.
Proof.
  intros Hi. induction d as [|d IH]; [reflexivity|].
  cbn [spaces]. now rewrite all_space_app, Hi, IH.
Qed.

Lemma lex_render_indent (prefix indent : string) (v : value) (d : nat) (rest : string) :
  all_space prefix = true -> all_space indent = true ->
  wf v = true -> delimited rest = true ->
  lex Idle (render_indent prefix indent d v ++ rest) = app (tokens_of v) <$> lex Idle rest.
Proof.
  intros Hp Hi Hwf Hrest. unfold render_indent.
  apply (lex_render_with (fun d => newline ++ prefix ++ spaces indent d) " "); auto.
  intros k. now rewrite !all_space_app, Hp, spaces_space.
Qed.

End Trees.

Section Parser.

Import json jsonread.

Lemma tokens_head (v : value) :
  exists t ts, tokens_of v = t :: ts /\ t <> TRBracket /\ t <> TRBrace.
Proof. destruct v; cbn [tokens_of]; eexists _, _; repeat split; discriminate. Qed.

Lemma parse_array_open (f : nat) (t : token) (ts : list token) :
  t <> TRBracket ->
  parse_value (S f) (TLBracket :: t :: ts)
  = '(l, ts'') ← parse_items f (t :: ts); Some (Arr l, ts'').
Proof. intros Ht. destruct t; try reflexivity. congruence. Qed.

Lemma parse_object_open (f : nat) (t : token) (ts : list token) :
  t <> TRBrace ->
  parse_value (S f) (TLBrace :: t :: ts)
  = '(l, ts'') ← parse_fields f (t :: ts); Some (Obj l, ts'').
Proof. intros Ht. destruct t; try reflexivity. congruence. Qed.

Lemma parse_items_tokens (l : list value) :
  l <> [] -> Forall parses l ->
  forall (fuel : nat) (rest : list token),
    (list_sum (map (fun x => S (need x)) l) <= fuel)%nat ->
    parse_items fuel (sep_tokens (map tokens_of l) ++ TRBracket :: rest)%list = Some (l, rest).
Proof.
  intros Hne Hall. induction Hall as [|x l Hx Hall IH]; [congruence|].
  intros fuel rest Hfuel. cbn [map list_sum fold_right] in Hfuel.
  destruct fuel as [|f]; [lia|]. cbn [parse_items].
  destruct l as [|y l].
  - cbn [map sep_tokens]. rewrite Hx by (cbn [map list_sum fold_right] in Hfuel; lia). reflexivity.
  - cbn [map]. rewrite sep_tokens_cons2, <- app_assoc.
    rewrite Hx by lia. cbn [mbind option_bind]. cbn [app].
    cbn [map] in IH. rewrite IH by (discriminate || (unfold list_sum in *; cbn [map fold_right] in *; lia)). reflexivity.
Qed.

Lemma parse_fields_tokens (l : list (string * value)) :
  l <> [] -> Forall (fun kv => parses (snd kv)) l ->
  forall (fuel : nat) (rest : list token),
    (list_sum (map (fun kv => S (need (snd kv))) l) <= fuel)%nat ->
    parse_fields fuel
      (sep_tokens (map (fun kv => TStr (fst kv) :: TColon :: tokens_of (snd kv)) l)
       ++ TRBrace :: rest)%list
    = Some (l, rest).
Proof.
  intros Hne Hall. induction Hall as [|[k x] l Hx Hall IH]; [congruence|].
  intros fuel rest Hfuel. cbn [map list_sum fold_right snd fst] in Hfuel.
  destruct fuel as [|f]; [lia|]. cbn [parse_fields].
  destruct l as [|y l].
  - cbn [map sep_tokens fst snd app]. cbn [snd] in Hx.
    rewrite Hx by (cbn [map list_sum fold_right] in Hfuel; lia). reflexivity.
  - cbn [map]. rewrite sep_tokens_cons2, <- app_assoc. cbn [fst snd app]. cbn [snd] in Hx.
    rewrite Hx by lia. cbn [mbind option_bind]. cbn [app].
    cbn [map] in IH. rewrite IH by (discriminate || (unfold list_sum in *; cbn [map fold_right] in *; lia)). reflexivity.
Qed.

(** The parser rebuilds a tree from its tokens. *)
Lemma parse_tokens (v : value) : parses v.
Proof.
  induction v as [t|b|l IH|l IH] using value_ind_nested; intros fuel rest Hfuel;
    cbn [need map list_sum fold_right] in Hfuel; (destruct fuel as [|f]; [lia|]).
  - reflexivity.
  - reflexivity.
  - destruct l as [|x l]; [reflexivity|].
    cbn [tokens_of]. cbn [app]. rewrite <- app_assoc. cbn [app].
    destruct (tokens_head x) as (t & ts & Hx & Ht & _).
    assert (Hhead : exists ts', (sep_tokens (map tokens_of (x :: l)) ++ TRBracket :: rest)%list
                                = t :: ts').
    { destruct l; cbn [map]; [cbn [sep_tokens] | rewrite sep_tokens_cons2];
        rewrite Hx; cbn [app]; eauto. }
    destruct Hhead as [ts' Hts']. rewrite Hts', (parse_array_open f t ts' Ht), <- Hts'.
    rewrite (parse_items_tokens (x :: l)) by (discriminate || assumption || (unfold list_sum in *; cbn [map fold_right] in *; lia)).
    reflexivity.
  - destruct l as [|[k x] l]; [reflexivity|].
    cbn [tokens_of]. cbn [app]. rewrite <- app_assoc. cbn [app].
    assert (Hhead : exists ts',
               (sep_tokens (map (fun kv => TStr (fst kv) :: TColon :: tokens_of (snd kv))
                              ((k, x) :: l)) ++ TRBrace :: rest)%list
               = TStr k :: ts').
    { destruct l; cbn [map]; [cbn [sep_tokens] | rewrite sep_tokens_cons2];
        cbn [fst app]; eauto. }
    destruct Hhead as [ts' Hts'].
    rewrite Hts', (parse_object_open f (TStr k) ts') by discriminate. rewrite <- Hts'.
    rewrite (parse_fields_tokens ((k, x) :: l)) by (discriminate || assumption || (unfold list_sum in *; cbn [map fold_right] in *; lia)).
    reflexivity.
Qed.

Lemma sep_tokens_length {A : Type} (toks : A -> list token) (m : A -> nat) (l : list A) :
  Forall (fun x => (m x <= 2 * length (toks x))%nat) l ->
  (list_sum (map m l) <= 2 * length (sep_tokens (map toks l)))%nat.
Proof.
  induction 1 as [|x l Hx Hall IH]; [reflexivity|].
  destruct l as [|y l].
  - cbn [map list_sum fold_right sep_tokens]. lia.
  - cbn [map] in *. rewrite sep_tokens_cons2. cbn [list_sum fold_right] in *.
    rewrite length_app. cbn [length]. lia.
Qed.

Lemma need_tokens (v : value) : (need v < 2 * length (tokens_of v))%nat.
Proof.
  induction v as [t|b|l IH|l IH] using value_ind_nested; cbn [need tokens_of length list_sum];
    try lia.
  - rewrite length_app. cbn [length].
    assert (Hs := sep_tokens_length tokens_of (fun x => S (need x)) l).
    cbn beta in Hs. rewrite Forall_forall in IH. 
    specialize (Hs ltac:(apply Forall_forall; intros x Hx; specialize (IH x Hx); lia)).
    lia.
  - rewrite length_app. cbn [length].
    assert (Hs := sep_tokens_length
                    (fun kv : string * value => TStr (fst kv) :: TColon :: tokens_of (snd kv))
                    (fun kv => S (need (snd kv))) l).
    cbn beta in Hs. rewrite Forall_forall in IH.
    specialize (Hs ltac:(apply Forall_forall; intros x Hx; specialize (IH x Hx);
                         cbn [length]; lia)).
    lia.
Qed.

(** Decoding what was rendered, compact or indented, gives the tree
    back. *)
Lemma decode_of_tokens (text : string) (v : value) :
  lex Idle text = Some (tokens_of v) -> decode text = Some v.
Proof.
  intros Hlex. unfold decode. rewrite Hlex. cbn [mbind option_bind].
  rewrite <- (app_nil_r (tokens_of v)) at 2.
  rewrite parse_tokens; [reflexivity|].
  pose proof (need_tokens v). lia.
Qed.

Lemma decode_render (v : value) :
  wf v = true -> decode (render v ++ newline) = Some v.
Proof.
  intros Hwf. apply decode_of_tokens.
  rewrite (lex_render v newline Hwf eq_refl).
  change (lex Idle newline) with (Some (@nil token)). cbn. now rewrite app_nil_r.
Qed.

Lemma decode_render_indent (prefix indent : string) (v : value) :
  all_space prefix = true -> all_space indent = true -> wf v = true ->
  decode (render_indent prefix indent 0 v) = Some v.
Proof.
  intros Hp Hi Hwf. apply decode_of_tokens.
  rewrite <- (append_empty_r (render_indent prefix indent 0 v)).
  rewrite (lex_render_indent prefix indent v 0 "" Hp Hi Hwf eq_refl).
  cbn. now rewrite app_nil_r.
Qed.

End Parser.

(** ** What the encoder writes is read back whole *)

Section Scalars.

Import json jsonread.

Lemma body_ok_app (a b : string) :
  body_ok false a = true -> body_ok false (a ++ b) = body_ok false b.
Proof.
  assert (H : forall esc, body_ok esc a = true -> body_ok esc (a ++ b) = body_ok false b).
  { induction a as [|c a IH]; intros esc Ha.
    - destruct esc; [discriminate Ha | reflexivity].
    - rewrite append_cons. cbn [body_ok] in *.
      destruct esc; [apply IH, Ha|].
      destruct (Ascii.eqb c QUOTE); [discriminate Ha | apply IH, Ha]. }
  apply H.
Qed.

Lemma escape_ascii_ok (c : ascii) : body_ok false (escape_ascii c) = true.
Proof. destruct c as [[|] [|] [|] [|] [|] [|] [|] [|]]; vm_compute; reflexivity. Qed.

Lemma high_byte_plain (c : ascii) :
  (byte_of c <? 128) = false ->
  Ascii.eqb c QUOTE = false /\ Ascii.eqb c BACKSLASH = false.
Proof.
  destruct c as [[|] [|] [|] [|] [|] [|] [|] [|]]; intros Hc;
    try (vm_compute in Hc; discriminate Hc); split; reflexivity.
Qed.

Lemma cont_byte_plain (c : ascii) :
  is_cont (byte_of c) = true ->
  Ascii.eqb c QUOTE = false /\ Ascii.eqb c BACKSLASH = false.
Proof.
  destruct c as [[|] [|] [|] [|] [|] [|] [|] [|]]; intros Hc;
    try (vm_compute in Hc; discriminate Hc); split; reflexivity.
Qed.

Lemma is_cont_range (b lo hi : Z) :
  128 <= lo -> hi <= 191 -> (lo <=? b) && (b <=? hi) = true -> is_cont b = true.
Proof.
  intros Hlo Hhi [H1 H2]%andb_true_iff. apply Z.leb_le in H1, H2.
  unfold is_cont. apply andb_true_iff. split; apply Z.leb_le; lia.
Qed.

Lemma byte_at_S (n : nat) (c : ascii) (s : string) :
  byte_at (S n) (String c s) = byte_at n s.
Proof. reflexivity. Qed.

Lemma is_cont_at (s : string) (k : nat) :
  is_cont (byte_at 0 s) = true ->
  exists c r, s = String c r /\ is_cont (byte_of c) = true.
Proof. destruct s as [|c r]; [discriminate | eauto]. Qed.

(** The bytes after the head of a well-formed sequence are continuation
    bytes. *)
Lemma rune_len_conts (c : ascii) (rest : string) (k : nat) :
  rune_len (String c rest) = S k -> conts k rest = true.
Proof.
  unfold rune_len. rewrite !byte_at_S.
  set (b0 := byte_at 0 (String c rest)).
  destruct ((194 <=? b0) && (b0 <=? 223)).
  - destruct (is_cont (byte_at 0 rest)) eqn:H1; [|discriminate].
    intros [= <-]. destruct (is_cont_at rest 0 H1) as (c1 & r1 & -> & Hc1).
    cbn [conts]. now rewrite Hc1.
  - destruct ((224 <=? b0) && (b0 <=? 239)).
    + match goal with |- (if ?cond then _ else _) = _ -> _ => destruct cond eqn:Hcond end;
        [|discriminate].
      intros [= <-].
      apply andb_true_iff in Hcond as [H1 H2].
      apply is_cont_range in H1;
        [|destruct (b0 =? 224); lia | destruct (b0 =? 237); lia].
      destruct (is_cont_at rest 0 H1) as (c1 & r1 & -> & Hc1).
      rewrite byte_at_S in H2.
      destruct (is_cont_at r1 0 H2) as (c2 & r2 & -> & Hc2).
      cbn [conts]. now rewrite Hc1, Hc2.
    + destruct ((240 <=? b0) && (b0 <=? 244)); [|discriminate].
      match goal with |- (if ?cond then _ else _) = _ -> _ => destruct cond eqn:Hcond end;
        [|discriminate].
      intros [= <-].
      apply andb_true_iff in Hcond as [[H1 H2]%andb_true_iff H3].
      apply is_cont_range in H1;
        [|destruct (b0 =? 240); lia | destruct (b0 =? 244); lia].
      destruct (is_cont_at rest 0 H1) as (c1 & r1 & -> & Hc1).
      rewrite byte_at_S in H2, H3.
      destruct (is_cont_at r1 0 H2) as (c2 & r2 & -> & Hc2).
      rewrite byte_at_S in H3.
      destruct (is_cont_at r2 0 H3) as (c3 & r3 & -> & Hc3).
      cbn [conts]. now rewrite Hc1, Hc2, Hc3.
Qed.

Lemma is_line_sep_digit (s : string) (d : ascii) :
  is_line_sep s = Some d -> body_ok false (u_202 d) = true.
Proof.
  unfold is_line_sep. destruct (_ && _); [|discriminate].
  destruct (_ =? 168); [intros [= <-]; reflexivity|].
  destruct (_ =? 169); [intros [= <-]; reflexivity | discriminate].
Qed.

Lemma escape_go_ok (s : string) :
  forall (k : nat) (keep : bool),
    conts k s = true -> body_ok false (escape_go k keep s) = true.
Proof.
  induction s as [|c rest IH]; intros k keep Hk.
  - reflexivity.
  - cbn [escape_go]. destruct k as [|k].
    + destruct (byte_of c <? 128) eqn:Hc.
      * rewrite body_ok_app by apply escape_ascii_ok. now apply IH.
      * destruct (rune_len (String c rest)) as [|k'] eqn:Hr.
        -- rewrite body_ok_app by reflexivity. now apply IH.
        -- pose proof (rune_len_conts c rest k' Hr) as Hconts.
           destruct (is_line_sep (String c rest)) as [d|] eqn:Hd.
           ++ rewrite body_ok_app by exact (is_line_sep_digit _ _ Hd). now apply IH.
           ++ destruct (high_byte_plain c Hc) as [Hq Hb].
              cbn [body_ok]. rewrite Hq, Hb. now apply IH.
    + cbn [conts] in Hk. apply andb_true_iff in Hk as [Hc Hk].
      destruct keep; [|now apply IH].
      destruct (cont_byte_plain c Hc) as [Hq Hb].
      cbn [body_ok]. rewrite Hq, Hb. now apply IH.
Qed.

(** An encoded string is a string body the scanner reads back. *)
Lemma escape_ok (s : string) : body_ok false (escape s) = true.
Proof. apply escape_go_ok. reflexivity. Qed.

End Scalars.

Section Literals.

Import json jsonread.

Lemma digit_lit_char (c : ascii) : is_digit c = true -> lit_char c = true.
Proof.
  destruct c as [[|] [|] [|] [|] [|] [|] [|] [|]]; intros Hc;
    try (vm_compute in Hc; discriminate Hc); reflexivity.
Qed.

Lemma digits_lit (s : string) :
  forallb_str is_digit s = true -> forallb_str lit_char s = true.
Proof. apply forallb_str_impl, digit_lit_char. Qed.

Lemma forallb_str_take (p : ascii -> bool) (n : nat) (s : string) :
  forallb_str p s = true -> forallb_str p (strconv.take_str n s) = true.
Proof.
  revert s. induction n as [|n IH]; intros [|c s] Hs; try reflexivity.
  cbn [strconv.take_str forallb_str] in *. apply andb_true_iff in Hs as [Hc Hs].
  now rewrite Hc, IH.
Qed.

Lemma forallb_str_drop (p : ascii -> bool) (n : nat) (s : string) :
  forallb_str p s = true -> forallb_str p (strconv.drop_str n s) = true.
Proof.
  revert s. induction n as [|n IH]; intros [|c s] Hs; try assumption; try reflexivity.
  cbn [strconv.drop_str forallb_str] in *. apply andb_true_iff in Hs as [_ Hs].
  now apply IH.
Qed.

Lemma forallb_str_head (p : ascii -> bool) (s : string) :
  forallb_str p s = true -> forallb_str p (strconv.head_str s) = true.
Proof.
  destruct s as [|c s]; [reflexivity|]. cbn [strconv.head_str chr forallb_str].
  intros [Hc _]%andb_true_iff. now rewrite Hc.
Qed.

Lemma forallb_str_tail (p : ascii -> bool) (s : string) :
  forallb_str p s = true -> forallb_str p (strconv.tail_str s) = true.
Proof.
  destruct s as [|c s]; [reflexivity|]. cbn [strconv.tail_str forallb_str].
  now intros [_ Hs]%andb_true_iff.
Qed.

Lemma zeros_lit (k : nat) : forallb_str lit_char (zeros k) = true.
Proof. apply digits_lit, zeros_digits. Qed.

Lemma sign_lit (s : bool) : forallb_str lit_char (fmt.sign_text s) = true.
Proof. destruct s; reflexivity. Qed.

Lemma shortest_digits (m e : Z) : exists a, fst (strconv.shortest m e) = dec a.
Proof.
  unfold strconv.shortest.
  destruct (strconv.canon m e) as [m' e'].
  destruct (strconv.search _ _ _ _ _ _ _ _) as [a q].
  destruct (strconv.strip _ _ _) as [a' q']. cbn [fst]. eauto.
Qed.

Lemma not_empty_app_l (a b : string) : a <> "" -> a ++ b <> "".
Proof. destruct a as [|c a]; [congruence|]. rewrite append_cons. discriminate. Qed.

Lemma not_empty_app_r (a b : string) : b <> "" -> a ++ b <> "".
Proof.
  destruct a as [|c a]; [now rewrite append_empty_l|]. rewrite append_cons. discriminate.
Qed.

Lemma lit_ok_intro (t : string) :
  t <> "" -> forallb_str lit_char t = true -> lit_ok t = true.
Proof.
  intros Hne Ht. unfold lit_ok. rewrite Ht, andb_true_r.
  apply negb_true_iff, String.eqb_neq, Hne.
Qed.

(** The number the encoder writes for a float is a literal the scanner
    reads back. *)
Lemma float_text_lit (f : float64) (a : string) :
  float_text f = Some a -> lit_ok a = true.
Proof.
  destruct f as [s|s| |s m e]; cbn [float_text]; try discriminate.
  - intros [= <-]. destruct s; reflexivity.
  - destruct (shortest_digits (Z.pos m) e) as [n Hn].
    destruct (strconv.shortest (Z.pos m) e) as [ds dp]. cbn [fst] in Hn. subst ds.
    intros [= <-].
    pose proof (digits_lit _ (dec_digits n)) as Hd.
    pose proof (dec_not_empty n) as Hne.
    apply lit_ok_intro.
    + apply not_empty_app_r.
      destruct ((dp <? -5) || (21 <? dp)).
      * apply not_empty_app_l. destruct (dec n); [congruence | discriminate].
      * unfold strconv.fmt_f. apply not_empty_app_l.
        destruct (0 <? dp) eqn:Hdp; [|discriminate].
        apply not_empty_app_l. apply Z.ltb_lt in Hdp.
        destruct (Z.to_nat dp) as [|k] eqn:Hk; [lia|].
        destruct (dec n); [congruence | discriminate].
    + rewrite forallb_str_app, sign_lit. cbn [andb].
      destruct ((dp <? -5) || (21 <? dp)).
      * rewrite !forallb_str_app, forallb_str_head by exact Hd.
        assert (Hfrac : forallb_str lit_char
                          (if (strconv.tail_str (dec n) =? "")%string then ""
                           else "." ++ strconv.tail_str (dec n)) = true).
        { destruct (_ =? _)%string; [reflexivity|].
          rewrite forallb_str_app, forallb_str_tail by exact Hd. reflexivity. }
        rewrite Hfrac, (digits_lit _ (dec_digits _)).
        destruct (dp - 1 <? 0); reflexivity.
      * unfold strconv.fmt_f. rewrite forallb_str_app.
        assert (Hint : forallb_str lit_char
                         (if 0 <? dp
                          then strconv.take_str (Z.to_nat dp) (dec n)
                               ++ zeros (Z.to_nat (dp - Z.of_nat (String.length (dec n))))
                          else "0") = true).
        { destruct (0 <? dp); [|reflexivity].
          now rewrite forallb_str_app, forallb_str_take, zeros_lit. }
        rewrite Hint. cbn [andb].
        destruct (dp <? _); [|reflexivity].
        now rewrite !forallb_str_app, zeros_lit, forallb_str_drop.
Qed.

Lemma plain_body_ok (s : string) : forallb_str plain s = true -> body_ok false s = true.
Proof.
  induction s as [|c s IH]; [reflexivity|].
  cbn [forallb_str body_ok]. unfold plain at 1.
  intros [[Hq Hb]%andb_true_iff Hs]%andb_true_iff.
  apply negb_true_iff in Hq, Hb. rewrite Hq, Hb. apply IH, Hs.
Qed.

Lemma digit_plain (c : ascii) : is_digit c = true -> plain c = true.
Proof.
  destruct c as [[|] [|] [|] [|] [|] [|] [|] [|]]; intros Hc;
    try (vm_compute in Hc; discriminate Hc); reflexivity.
Qed.

Lemma digits_plain (s : string) :
  forallb_str is_digit s = true -> forallb_str plain s = true.
Proof. apply forallb_str_impl, digit_plain. Qed.

Lemma appendInt_plain (x : Z) (k : nat) : forallb_str plain (time.appendInt x k) = true.
Proof.
  unfold time.appendInt. destruct (x <? 0).
  - rewrite forallb_str_app, (digits_plain _ (pad_left_digits _ _)). reflexivity.
  - apply digits_plain, pad_left_digits.
Qed.

Lemma trim_zeros_plain (fuel : nat) (n : Z) (k : nat) :
  forallb_str plain (time.trim_zeros fuel n k) = true.
Proof.
  revert n k. induction fuel as [|fuel IH]; intros n k; cbn [time.trim_zeros].
  - apply digits_plain, pad_left_digits.
  - destruct (_ && _); [apply IH | apply digits_plain, pad_left_digits].
Qed.

(** An RFC 3339 timestamp needs no escaping. *)
Lemma Format_RFC3339Nano_ok (t : time.Time) :
  body_ok false (time.Format_RFC3339Nano t) = true.
Proof.
  apply plain_body_ok.
  unfold time.Format_RFC3339Nano, time.date_text, time.clock_text, time.fraction_text,
    time.zone_text.
  rewrite !forallb_str_app, !appendInt_plain. cbn [andb].
  destruct (time.nsec t =? 0); destruct (time.offset t =? 0);
    rewrite ?forallb_str_app, ?appendInt_plain, ?trim_zeros_plain;
    try reflexivity; destruct (_ <? 0); reflexivity.
Qed.

Lemma marshal_expense_wf (e : config.Expense) (v : value) :
  api.marshal_expense e = Some v -> wf v = true.
Proof.
  unfold api.marshal_expense, api.marshal_time.
  destruct (float_text (config.Amount e)) as [a|] eqn:Ha; [|discriminate].
  destruct (time.rfc3339_ok (config.Date e)); [|discriminate].
  intros [= <-]. cbn [wf forallb fst snd api.marshal_string].
  rewrite !escape_ok, (float_text_lit _ _ Ha), Format_RFC3339Nano_ok. reflexivity.
Qed.

Lemma marshal_all_wf (l : list config.Expense) (vs : list value) :
  api.marshal_all l = Some vs ->
  forallb wf vs = true /\ Forall2 (fun v e => api.marshal_expense e = Some v) vs l.
Proof.
  revert vs. induction l as [|e l IH]; intros vs; cbn [api.marshal_all].
  - intros [= <-]. split; [reflexivity | constructor].
  - destruct (api.marshal_expense e) as [v|] eqn:He; [|discriminate].
    destruct (api.marshal_all l) as [vs'|]; [|discriminate].
    intros [= <-]. destruct (IH vs' eq_refl) as [Hwf Hall].
    cbn [forallb]. rewrite (marshal_expense_wf e v He), Hwf.
    split; [reflexivity | now constructor].
Qed.

Lemma marshal_expenses_wf (l : slice config.Expense) (t : value) :
  api.marshal_expenses l = Some t -> wf t = true.
Proof.
  destruct l as [l|]; cbn [api.marshal_expenses].
  - destruct (api.marshal_all l) as [vs|] eqn:Hvs; [|discriminate].
    intros [= <-]. cbn [wf]. exact (proj1 (marshal_all_wf l vs Hvs)).
  - intros [= <-]. reflexivity.
Qed.

End Literals.

(** ** The JSON export *)

Lemma marshal_all_objects (l : list config.Expense) (vs : list json.value) :
  api.marshal_all l = Some vs ->
  length vs = length l
  /\ Forall2 (fun item e =>
                exists amount, json.float_text (config.Amount e) = Some amount
                               /\ item = api.expense_object e amount) vs l.
Proof.
  revert vs. induction l as [|e l IH]; intros vs; cbn [api.marshal_all].
  - intros [= <-]. split; [reflexivity | constructor].
  - unfold api.marshal_expense at 1, api.marshal_time.
    destruct (json.float_text (config.Amount e)) as [a|] eqn:Ha; [|discriminate].
    destruct (time.rfc3339_ok (config.Date e)); [|discriminate].
    destruct (api.marshal_all l) as [vs'|]; [|discriminate].
    intros [= <-]. destruct (IH vs' eq_refl) as [Hlen Hall].
    split; [cbn [length]; now rewrite Hlen|].
    constructor; [|exact Hall]. exists a. split; [exact Ha | reflexivity].
Qed.

Section ExportJSON.

Context {S : Type} `{!storage.Storage S}.

Lemma ExportJSON_writer (r : http.Request) (s : api.State S)
    (l : slice config.Expense) (st : S) (data : string) :
  http.Method r = http.MethodGet ->
  storage.GetAllExpenses (api.store s) = ((l, None), st) ->
  api.MarshalIndent l = Some data ->
  api.w (api.ExportJSON r s)
  = http.Write data
      (http.Header_Set "Content-Disposition" "attachment; filename=expenses.json"
         (http.Header_Set "Content-Type" "application/json" (api.w s))).
Proof.
  intros Hm Hg Hd. unfold api.ExportJSON. rewrite (guard_passed r _ Hm), Hg, Hd. reflexivity.
Qed.

Lemma GetExpenses_writer (r : http.Request) (s : api.State S)
    (l : slice config.Expense) (st : S) :
  http.Method r = http.MethodGet ->
  storage.GetAllExpenses (api.store s) = ((l, None), st) ->
  api.w (api.GetExpenses r s) = api.writeJSON http.StatusOK (api.PExpenses l) (api.w s).
Proof.
  intros Hm Hg. unfold api.GetExpenses. rewrite (guard_passed r _ Hm), Hg. reflexivity.
Qed.

(** C7, as amended. When the fetch succeeds and the list can be
    serialized (tree [t]), [ExportJSON] answers 200 as [application/json]
    with the attachment disposition, and its body is the list serialized
    with four spaces per level; [GetExpenses] on the same state answers
    with the compact text of the same tree.  Decoding either body gives
    that tree: for a list of expenses an array of the same length whose
    elements are, in order, the objects of id, name, category, amount and
    date of the expenses. *)
Theorem ExportJSON_indented (r : http.Request) (s : api.State S)
    (l : slice config.Expense) (st : S) (t : json.value) :
  http.Method r = http.MethodGet ->
  storage.GetAllExpenses (api.store s) = ((l, None), st) ->
  api.marshal_expenses l = Some t ->
  http.wroteHeader (api.w s) = false ->
  http.reply (api.w (api.ExportJSON r s))
  = (200, http.json_type, http.body (api.w s) ++ json.render_indent "" "    " 0 t)
  /\ http.sent (api.w (api.ExportJSON r s)) !! "Content-Disposition"
     = Some "attachment; filename=expenses.json"
  /\ http.reply (api.w (api.GetExpenses r s))
     = (200, http.json_type, http.body (api.w s) ++ json.render t ++ newline)
  /\ jsonread.decode (json.render_indent "" "    " 0 t) = Some t
  /\ jsonread.decode (json.render t ++ newline) = Some t
  /\ (forall es, l = Some es ->
        api.decodes_to (json.render_indent "" "    " 0 t) es
        /\ api.decodes_to (json.render t ++ newline) es).
Proof.
  intros Hm Hg Ht Hf.
  pose proof (marshal_expenses_wf l t Ht) as Hwf.
  assert (Hdata : api.MarshalIndent l = Some (json.render_indent "" "    " 0 t))
    by (unfold api.MarshalIndent; now rewrite Ht).
  pose proof (decode_render_indent "" "    " t eq_refl eq_refl Hwf) as Hdi.
  pose proof (decode_render t Hwf) as Hdc.
  split; [|split; [|split; [|split; [|split]]]].
  - rewrite (ExportJSON_writer r s l st _ Hm Hg Hdata).
    match goal with
    | |- http.reply (http.Write ?b ?w0) = _ =>
        destruct (Write_uncommitted b w0 Hf) as (_ & B & C & D)
    end.
    unfold http.reply. rewrite B, C, D. cbn [http.header http.Header_Set http.body].
    rewrite lookup_insert_ne by discriminate. now rewrite lookup_insert_eq.
  - rewrite (ExportJSON_writer r s l st _ Hm Hg Hdata).
    match goal with
    | |- http.sent (http.Write ?b ?w0) !! _ = _ =>
        destruct (Write_uncommitted b w0 Hf) as (_ & _ & C & _)
    end.
    rewrite C. cbn [http.header http.Header_Set]. apply lookup_insert_eq.
  - rewrite (GetExpenses_writer r s l st Hm Hg), reply_writeJSON by exact Hf.
    unfold api.encoded. cbn [api.marshal]. now rewrite Ht.
  - exact Hdi.
  - exact Hdc.
  - intros es ->. cbn [api.marshal_expenses] in Ht.
    destruct (api.marshal_all es) as [vs|] eqn:Hvs; [|discriminate].
    injection Ht as <-.
    destruct (marshal_all_objects es vs Hvs) as [Hlen Hall].
    split; exists vs; auto.
Qed.

End ExportJSON.

(** The stored Coffee, exported and listed. *)
Lemma ExportJSON_indented_witness :
  http.Method (sample.request "GET" "") = http.MethodGet
  /\ api.decodes_to
       (http.body (api.w (api.ExportJSON (sample.request "GET" "")
          (sample.start
             {| memstore.records := [memstore.with_id "exp-1" (api.expense_of sample.coffee)];
                memstore.next := 2; memstore.broken := None |}))))
       [memstore.with_id "exp-1" (api.expense_of sample.coffee)].
Proof.
  split; [reflexivity|].
  pose proof (ExportJSON_indented (sample.request "GET" "")
                (sample.start
                   {| memstore.records := [memstore.with_id "exp-1" (api.expense_of sample.coffee)];
                      memstore.next := 2; memstore.broken := None |})
                (Some [memstore.with_id "exp-1" (api.expense_of sample.coffee)])
                {| memstore.records := [memstore.with_id "exp-1" (api.expense_of sample.coffee)];
                   memstore.next := 2; memstore.broken := None |}
                (json.Arr [api.expense_object
                             (memstore.with_id "exp-1" (api.expense_of sample.coffee)) "3.5"])
                eq_refl eq_refl) as Hthm.
  destruct Hthm as (Hreply & _ & _ & _ & _ & Hdec);
    [vm_compute; reflexivity | reflexivity |].
  destruct (Hdec _ eq_refl) as [Hindent _].
  replace (http.body _) with
    (json.render_indent "" "    " 0
       (json.Arr [api.expense_object
                    (memstore.with_id "exp-1" (api.expense_of sample.coffee)) "3.5"])).
  - exact Hindent.
  - symmetry. exact (f_equal snd Hreply).
Defined.

(** C7, the counterexample. The store holds one expense whose amount is
    NaN and the fetch succeeds, yet the response is the 500 of
    [http.Error] with the text [Failed to marshal JSON data]: no JSON, and
    nothing that decodes to an array of one element. *)
Lemma ExportJSON_serialization_counterexample :
  storage.GetAllExpenses sample.nan_store
    = ((Some (memstore.records sample.nan_store), None), sample.nan_store)
  /\ http.reply (api.w (api.ExportJSON (sample.request "GET" "")
                          (sample.start sample.nan_store)))
     = (500, http.plain_text, "Failed to marshal JSON data" ++ newline)
  /\ jsonread.decode (http.body (api.w (api.ExportJSON (sample.request "GET" "")
                                          (sample.start sample.nan_store)))) = None
  /\ ~ api.decodes_to
         (http.body (api.w (api.ExportJSON (sample.request "GET" "")
                              (sample.start sample.nan_store))))
         (memstore.records sample.nan_store).
Proof.
  assert (Hdec : jsonread.decode
                   (http.body (api.w (api.ExportJSON (sample.request "GET" "")
                                        (sample.start sample.nan_store)))) = None)
    by (vm_compute; reflexivity).
  split; [reflexivity|]. split; [vm_compute; reflexivity|]. split; [exact Hdec|].
  intros (items & Hitems & _). rewrite Hdec in Hitems. discriminate Hitems.
Qed.

(** * Further properties of the handlers *)

(** ** What a handler leaves untouched *)

Section Frames.

Context {S : Type} `{!storage.Storage S} `{!web.Renderer} `{!api.Decoder} `{!api.Validator}.

Ltac no_call := left; state_simpl; repeat split; reflexivity.

Ltac one_call :=
  right; eexists; state_simpl;
  split; [reflexivity|];
  cbn [api.route_call]; rewrite ?String.eqb_refl;
  repeat split; reflexivity.

(** X1. A handler makes at most one call to its collaborators, and that
    call is the one of its route: [SaveExpense] for [AddExpense],
    [GetAllExpenses] for the listing and the two exports,
    [DeleteExpense] with the id of the query, the config update of the edit
    handlers, the template of a view, the static file at the request's
    path.  The configuration changes only by the update an edit handler
    calls; the storage is the one before the request unless a storage
    method was called; and without a call neither changes. *)
Theorem collaborator_frame (rt : api.Route) (r : http.Request) (s : api.State S) :
  (api.calls (api.handler rt r s) = api.calls s
   /\ api.store (api.handler rt r s) = api.store s
   /\ api.conf (api.handler rt r s) = api.conf s)
  \/ (exists c,
        api.calls (api.handler rt r s) = (api.calls s ++ [c])%list
        /\ api.route_call rt r c = true
        /\ api.conf (api.handler rt r s)
           = match c with
             | api.CallUpdateCategories categories =>
                 config.UpdateCategories categories (api.conf s)
             | api.CallUpdateCurrency currency =>
                 config.UpdateCurrency currency (api.conf s)
             | _ => api.conf s
             end
        /\ match c with
           | api.CallSaveExpense _ | api.CallGetAllExpenses | api.CallDeleteExpense _ => True
           | _ => api.store (api.handler rt r s) = api.store s
           end).
Proof.
  destruct (decide (http.Method r = api.allowed rt)) as [Hm|Hm].
  2:{ left. destruct (guard_effect rt r s Hm) as (_ & Hs & Hc & Hk & _). auto. }
  destruct rt; cbn [api.handler api.allowed] in *.
  - unfold api.GetCategories. rewrite (guard_passed r _ Hm). no_call.
  - unfold api.EditCategories. rewrite (guard_passed r _ Hm).
    destruct (api.Decode_strings (http.Body r)) as [c|e]; [one_call | no_call].
  - unfold api.EditCurrency. rewrite (guard_passed r _ Hm).
    destruct (api.Decode_string (http.Body r)) as [c|e]; [one_call | no_call].
  - unfold api.AddExpense. rewrite (guard_passed r _ Hm).
    destruct (api.Decode_ExpenseRequest (http.Body r)) as [req|e]; [|no_call].
    destruct (api.Validate (api.expense_of req)) as [e|]; [no_call|].
    destruct (storage.SaveExpense _ _) as [[saved [e|]] st]; one_call.
  - unfold api.GetExpenses. rewrite (guard_passed r _ Hm).
    destruct (storage.GetAllExpenses _) as [[l [e|]] st]; one_call.
  - unfold api.DeleteExpense. rewrite (guard_passed r _ Hm).
    destruct (http.Query_Get (http.URL_Query r) "id" =? "")%string; [no_call|].
    destruct (storage.DeleteExpense _ _) as [[e|] st];
      [destruct (decide _); one_call | one_call].
  - unfold api.ServeTableView, api.serveView. rewrite (guard_passed r _ Hm).
    destruct (web.ServeTemplate _ _) as [w2 [e|]]; one_call.
  - unfold api.ServeSettingsPage, api.serveView. rewrite (guard_passed r _ Hm).
    destruct (web.ServeTemplate _ _) as [w2 [e|]]; one_call.
  - unfold api.ServeAPISetupView, api.serveView. rewrite (guard_passed r _ Hm).
    destruct (web.ServeTemplate _ _) as [w2 [e|]]; one_call.
  - unfold api.ServeStaticFile. rewrite (guard_passed r _ Hm).
    destruct (web.ServeStatic _ _) as [w2 [e|]]; one_call.
  - unfold api.ExportCSV. rewrite (guard_passed r _ Hm).
    destruct (storage.GetAllExpenses _) as [[l [e|]] st]; one_call.
  - unfold api.ExportJSON. rewrite (guard_passed r _ Hm).
    destruct (storage.GetAllExpenses _) as [[l [e|]] st]; [one_call|].
    destruct (api.MarshalIndent l); one_call.
Qed.

Ltac no_line := left; state_simpl; reflexivity.
Ltac one_line := right; eexists; state_simpl; reflexivity.

(** X2. A handler never rewrites the server log: it leaves it as it is or
    adds one line at its end.  [ServeAPISetupView] never logs, whatever
    the request and whatever the renderer does, and a served
    [GetCategories] does not log either. *)
Theorem log_growth (rt : api.Route) (r : http.Request) (s : api.State S) :
  (api.logs (api.handler rt r s) = api.logs s
   \/ exists line, api.logs (api.handler rt r s) = (api.logs s ++ [line])%list)
  /\ api.logs (api.ServeAPISetupView r s) = api.logs s
  /\ (http.Method r = http.MethodGet ->
      api.logs (api.GetCategories r s) = api.logs s).
Proof.
  split; [|split].
  - destruct (decide (http.Method r = api.allowed rt)) as [Hm|Hm].
    2:{ destruct (guard_effect rt r s Hm) as (_ & _ & _ & _ & [Hl|Hl]); eauto. }
    destruct rt; cbn [api.handler api.allowed] in *.
    + unfold api.GetCategories. rewrite (guard_passed r _ Hm). no_line.
    + unfold api.EditCategories. rewrite (guard_passed r _ Hm).
      destruct (api.Decode_strings (http.Body r)) as [c|e]; one_line.
    + unfold api.EditCurrency. rewrite (guard_passed r _ Hm).
      destruct (api.Decode_string (http.Body r)) as [c|e]; one_line.
    + unfold api.AddExpense. rewrite (guard_passed r _ Hm).
      destruct (api.Decode_ExpenseRequest (http.Body r)) as [req|e]; [|one_line].
      destruct (api.Validate (api.expense_of req)) as [e|]; [one_line|].
      destruct (storage.SaveExpense _ _) as [[saved [e|]] st]; [one_line | no_line].
    + unfold api.GetExpenses. rewrite (guard_passed r _ Hm).
      destruct (storage.GetAllExpenses _) as [[l [e|]] st]; [one_line | no_line].
    + unfold api.DeleteExpense. rewrite (guard_passed r _ Hm).
      destruct (http.Query_Get (http.URL_Query r) "id" =? "")%string; [one_line|].
      destruct (storage.DeleteExpense _ _) as [[e|] st];
        [destruct (decide _); one_line | one_line].
    + unfold api.ServeTableView, api.serveView. rewrite (guard_passed r _ Hm).
      destruct (web.ServeTemplate _ _) as [w2 [e|]]; [one_line | no_line].
    + unfold api.ServeSettingsPage, api.serveView. rewrite (guard_passed r _ Hm).
      destruct (web.ServeTemplate _ _) as [w2 [e|]]; [one_line | no_line].
    + unfold api.ServeAPISetupView, api.serveView. rewrite (guard_passed r _ Hm).
      destruct (web.ServeTemplate _ _) as [w2 [e|]]; no_line.
    + unfold api.ServeStaticFile. rewrite (guard_passed r _ Hm).
      destruct (web.ServeStatic _ _) as [w2 [e|]]; [one_line | no_line].
    + unfold api.ExportCSV. rewrite (guard_passed r _ Hm).
      destruct (storage.GetAllExpenses _) as [[l [e|]] st]; one_line.
    + unfold api.ExportJSON. rewrite (guard_passed r _ Hm).
      destruct (storage.GetAllExpenses _) as [[l [e|]] st]; [one_line|].
      destruct (api.MarshalIndent l); one_line.
  - unfold api.ServeAPISetupView, api.serveView.
    destruct (negb _); [reflexivity|].
    destruct (web.ServeTemplate _ _) as [w2 [e|]]; reflexivity.
  - intros Hg. unfold api.GetCategories. rewrite (guard_passed r _ Hg). reflexivity.
Qed.

(** X3. A PUT whose body the decoder refuses is answered 400 with the
    fixed JSON error [Invalid request body] by [EditCategories],
    [EditCurrency] and [AddExpense] alike; nothing is updated or saved, no
    collaborator is called, and the decoder's message goes to the log. *)
Theorem undecodable_body_rejected
    (rt : api.Route) (r : http.Request) (s : api.State S) (err : error) :
  api.decode_error rt r = Some err ->
  http.Method r = http.MethodPut ->
  http.wroteHeader (api.w s) = false ->
  http.reply (api.w (api.handler rt r s))
  = (400, http.json_type, http.body (api.w s) ++ api.error_body "Invalid request body")
  /\ api.conf (api.handler rt r s) = api.conf s
  /\ api.store (api.handler rt r s) = api.store s
  /\ api.calls (api.handler rt r s) = api.calls s
  /\ api.logs (api.handler rt r s)
     = (api.logs s
        ++ [("HTTP ERROR: Failed to decode request body: " ++ errors.Error err)%string])%list.
Proof.
  intros Hd Hm Hf.
  destruct rt; try discriminate Hd; cbn [api.handler api.decode_error] in *.
  - unfold api.EditCategories. rewrite (guard_passed r _ Hm).
    destruct (api.Decode_strings (http.Body r)) as [c|e]; [discriminate|].
    injection Hd as ->. state_simpl. split; [apply reply_writeJSON, Hf | auto].
  - unfold api.EditCurrency. rewrite (guard_passed r _ Hm).
    destruct (api.Decode_string (http.Body r)) as [c|e]; [discriminate|].
    injection Hd as ->. state_simpl. split; [apply reply_writeJSON, Hf | auto].
  - unfold api.AddExpense. rewrite (guard_passed r _ Hm).
    destruct (api.Decode_ExpenseRequest (http.Body r)) as [c|e]; [discriminate|].
    injection Hd as ->. state_simpl. split; [apply reply_writeJSON, Hf | auto].
Qed.

End Frames.

(** A body that is no JSON, sent to [EditCurrency]. *)
Lemma undecodable_body_rejected_witness :
  api.decode_error api.REditCurrency (sample.request "PUT" "EUR") = Some sample.syntax_error
  /\ http.reply (api.w (api.EditCurrency (sample.request "PUT" "EUR")
                          (sample.start memstore.empty)))
     = (400, http.json_type, api.error_body "Invalid request body").
Proof.
  split; [vm_compute; reflexivity|].
  pose proof (undecodable_body_rejected api.REditCurrency (sample.request "PUT" "EUR")
                (sample.start memstore.empty) sample.syntax_error) as Hthm.
  destruct Hthm as (Hreply & _); [vm_compute; reflexivity | reflexivity | reflexivity |].
  exact Hreply.
Defined.

(** ** The response is always sent *)

Lemma WriteHeader_commits (code : Z) (w : http.ResponseWriter) :
  http.wroteHeader (http.WriteHeader code w) = true.
Proof. unfold http.WriteHeader. destruct (http.wroteHeader w) eqn:Hw; [exact Hw | reflexivity]. Qed.

Lemma Write_commits (b : string) (w : http.ResponseWriter) :
  http.wroteHeader (http.Write b w) = true.
Proof. unfold http.Write. cbn [http.wroteHeader]. apply WriteHeader_commits. Qed.

Lemma writeJSON_commits (code : Z) (v : api.payload) (w : http.ResponseWriter) :
  http.wroteHeader (api.writeJSON code v w) = true.
Proof.
  unfold api.writeJSON, api.Encode.
  destruct (api.marshal v); [apply Write_commits | apply WriteHeader_commits].
Qed.

Lemma Error_commits (msg : string) (code : Z) (w : http.ResponseWriter) :
  http.wroteHeader (http.Error msg code w) = true.
Proof. unfold http.Error. apply Write_commits. Qed.

Lemma writeLines_commits (l : list config.Expense) (w : http.ResponseWriter) :
  http.wroteHeader w = true -> http.wroteHeader (api.writeLines l w) = true.
Proof.
  revert w. induction l as [|e l IH]; intros w Hw; [exact Hw|].
  cbn [api.writeLines]. apply IH, Write_commits.
Qed.

(** Once the header is sent, neither [writeJSON] nor [http.Error] can
    change the status or the headers any more: they only add to the
    body. *)
Lemma WriteHeader_committed (code : Z) (w : http.ResponseWriter) :
  http.wroteHeader w = true -> http.WriteHeader code w = w.
Proof. intros Hw. unfold http.WriteHeader. now rewrite Hw. Qed.

Section Answers.

Context {S : Type} `{!storage.Storage S} `{!web.Renderer} `{!api.Decoder} `{!api.Validator}.

Ltac answered_json Hf :=
  state_simpl;
  match goal with
  | |- _ /\ In (http.status (api.writeJSON ?c ?v ?w)) _ =>
      split; [apply writeJSON_commits|];
      rewrite (proj1 (writeJSON_uncommitted c v w Hf)); cbn; auto 10
  end.

(** X4. On a fresh response writer a config, expense or export handler
    always sends a response, and its status is one of the few of its
    route: 404 comes from [DeleteExpense] only, 400 only from the handlers
    that read input, 500 only from those that call the storage. *)
Theorem status_of_route (rt : api.Route) (r : http.Request) (s : api.State S) :
  http.wroteHeader (api.w s) = false ->
  api.view_template rt = None ->
  rt <> api.RServeStaticFile ->
  http.wroteHeader (api.w (api.handler rt r s)) = true
  /\ In (http.status (api.w (api.handler rt r s))) (api.statuses rt).
Proof.
  intros Hf Hview Hstatic.
  destruct (decide (http.Method r = api.allowed rt)) as [Hm|Hm].
  2:{ destruct (guard_effect rt r s Hm) as (Hw & _). rewrite Hw.
      split; [apply Error_commits|].
      rewrite (proj1 (Error_uncommitted _ _ _ Hf)).
      destruct rt; cbn; auto 10. }
  destruct rt; try discriminate Hview; try congruence; cbn [api.handler api.allowed] in *.
  - unfold api.GetCategories. rewrite (guard_passed r _ Hm). answered_json Hf.
  - unfold api.EditCategories. rewrite (guard_passed r _ Hm).
    destruct (api.Decode_strings (http.Body r)) as [c|e]; answered_json Hf.
  - unfold api.EditCurrency. rewrite (guard_passed r _ Hm).
    destruct (api.Decode_string (http.Body r)) as [c|e]; answered_json Hf.
  - unfold api.AddExpense. rewrite (guard_passed r _ Hm).
    destruct (api.Decode_ExpenseRequest (http.Body r)) as [req|e]; [|answered_json Hf].
    destruct (api.Validate (api.expense_of req)) as [e|]; [answered_json Hf|].
    destruct (storage.SaveExpense _ _) as [[saved [e|]] st]; answered_json Hf.
  - unfold api.GetExpenses. rewrite (guard_passed r _ Hm).
    destruct (storage.GetAllExpenses _) as [[l [e|]] st]; answered_json Hf.
  - unfold api.DeleteExpense. rewrite (guard_passed r _ Hm).
    destruct (http.Query_Get (http.URL_Query r) "id" =? "")%string; [answered_json Hf|].
    destruct (storage.DeleteExpense _ _) as [[e|] st];
      [destruct (decide _); answered_json Hf | answered_json Hf].
  - unfold api.ExportCSV. rewrite (guard_passed r _ Hm).
    destruct (storage.GetAllExpenses _) as [[l [e|]] st]; [answered_json Hf|].
    state_simpl.
    match goal with
    | |- _ /\ In (http.status (api.writeLines _ (http.Write ?b ?w0))) _ =>
        destruct (Write_uncommitted b w0 Hf) as (A & B & _);
        destruct (writeLines_committed (elems l) _ A) as (A' & B' & _)
    end.
    rewrite A', B', B. cbn; auto.
  - unfold api.ExportJSON. rewrite (guard_passed r _ Hm).
    destruct (storage.GetAllExpenses _) as [[l [e|]] st]; [answered_json Hf|].
    destruct (api.MarshalIndent l) as [data|]; state_simpl.
    + match goal with
      | |- _ /\ In (http.status (http.Write ?b ?w0)) _ =>
          destruct (Write_uncommitted b w0 Hf) as (A & B & _)
      end.
      rewrite A, B. cbn; auto.
    + split; [apply Error_commits|].
      match goal with
      | |- In (http.status (http.Error ?m ?c ?w0)) _ =>
          rewrite (proj1 (Error_uncommitted m c w0 Hf))
      end.
      cbn; auto.
Qed.

(** X5. A 200 is never sent for an operation that did not happen: on a
    fresh response writer, [AddExpense] answers 200 only to a PUT whose
    body decoded, whose expense passed validation and whose save returned
    no error, and [DeleteExpense] only to a DELETE with a non-empty id
    whose delete returned no error. *)
Theorem ok_means_done (r : http.Request) (s : api.State S) :
  http.wroteHeader (api.w s) = false ->
  (http.status (api.w (api.AddExpense r s)) = 200 ->
     http.Method r = http.MethodPut
     /\ exists req saved st,
          api.Decode_ExpenseRequest (http.Body r) = inl req
          /\ api.Validate (api.expense_of req) = None
          /\ storage.SaveExpense (api.expense_of req) (api.store s) = ((saved, None), st)
          /\ api.store (api.AddExpense r s) = st)
  /\ (http.status (api.w (api.DeleteExpense r s)) = 200 ->
      http.Method r = http.MethodDelete
      /\ http.Query_Get (http.URL_Query r) "id" <> ""
      /\ exists st,
           storage.DeleteExpense (http.Query_Get (http.URL_Query r) "id") (api.store s)
             = (None, st)
           /\ api.store (api.DeleteExpense r s) = st).
Proof.
  intros Hf. split.
  - destruct (decide (http.Method r = http.MethodPut)) as [Hm|Hm].
    2:{ destruct (guard_effect api.RAddExpense r s Hm) as (Hw & _).
        cbn [api.handler] in Hw. rewrite Hw, (proj1 (Error_uncommitted _ _ _ Hf)).
        discriminate. }
    unfold api.AddExpense. rewrite (guard_passed r _ Hm).
    destruct (api.Decode_ExpenseRequest (http.Body r)) as [req|e] eqn:Hd.
    2:{ state_simpl. rewrite (proj1 (writeJSON_uncommitted _ _ _ Hf)). discriminate. }
    destruct (api.Validate (api.expense_of req)) as [e|] eqn:Hv.
    { state_simpl. rewrite (proj1 (writeJSON_uncommitted _ _ _ Hf)). discriminate. }
    destruct (storage.SaveExpense _ _) as [[saved [e|]] st] eqn:Hs.
    { state_simpl. rewrite (proj1 (writeJSON_uncommitted _ _ _ Hf)). discriminate. }
    intros _. split; [exact Hm|]. exists req, saved, st. state_simpl. auto.
  - destruct (decide (http.Method r = http.MethodDelete)) as [Hm|Hm].
    2:{ destruct (guard_effect api.RDeleteExpense r s Hm) as (Hw & _).
        cbn [api.handler] in Hw. rewrite Hw, (proj1 (Error_uncommitted _ _ _ Hf)).
        discriminate. }
    unfold api.DeleteExpense. rewrite (guard_passed r _ Hm).
    destruct (http.Query_Get (http.URL_Query r) "id" =? "")%string eqn:Hid.
    { state_simpl. rewrite (proj1 (writeJSON_uncommitted _ _ _ Hf)). discriminate. }
    destruct (storage.DeleteExpense _ _) as [[e|] st] eqn:Hd.
    { destruct (decide _); state_simpl;
        rewrite (proj1 (writeJSON_uncommitted _ _ _ Hf)); discriminate. }
    intros _. split; [exact Hm|]. split; [now apply String.eqb_neq|].
    exists st. state_simpl. auto.
Qed.

End Answers.

(** The Coffee request, answered 200. *)
Lemma ok_means_done_witness :
  http.wroteHeader (api.w (sample.start memstore.empty)) = false
  /\ http.status (api.w (api.AddExpense (sample.request "PUT" sample.coffee_body)
                           (sample.start memstore.empty))) = 200
  /\ http.Method (sample.request "PUT" sample.coffee_body) = http.MethodPut.
Proof.
  split; [reflexivity|]. split; [vm_compute; reflexivity|].
  pose proof (ok_means_done (sample.request "PUT" sample.coffee_body)
                (sample.start memstore.empty) eq_refl) as [Hadd _].
  exact (proj1 (Hadd ltac:(vm_compute; reflexivity))).
Defined.

Lemma status_of_route_witness :
  http.wroteHeader (api.w (sample.start memstore.empty)) = false
  /\ In (http.status (api.w (api.handler api.RDeleteExpense (sample.delete_request "exp-9")
                               (sample.start memstore.empty))))
       [200; 400; 404; 405; 500].
Proof.
  split; [reflexivity|].
  exact (proj2 (status_of_route api.RDeleteExpense (sample.delete_request "exp-9")
                  (sample.start memstore.empty) eq_refl eq_refl ltac:(discriminate))).
Defined.

(** ** Edges of the response writer *)

Lemma Error_committed (msg : string) (code : Z) (w : http.ResponseWriter) :
  http.wroteHeader w = true ->
  http.reply (http.Error msg code w)
  = (http.status w, http.sent w !! "Content-Type", http.body w ++ msg ++ newline).
Proof.
  intros Hw. unfold http.Error.
  match goal with
  | |- http.reply (http.Write ?b (http.WriteHeader ?c ?w0)) = _ =>
      assert (Hw0 : http.wroteHeader w0 = true) by exact Hw;
      rewrite (WriteHeader_committed c w0 Hw0);
      destruct (Write_committed b w0 Hw0) as (_ & B & C & D)
  end.
  unfold http.reply. rewrite B, C, D. reflexivity.
Qed.

Lemma writeJSON_committed (code : Z) (v : api.payload) (w : http.ResponseWriter) :
  http.wroteHeader w = true ->
  http.reply (api.writeJSON code v w)
  = (http.status w, http.sent w !! "Content-Type", http.body w ++ api.encoded v).
Proof.
  intros Hw. unfold api.writeJSON, api.Encode, api.encoded.
  match goal with
  | |- context [http.WriteHeader ?c ?w0] =>
      assert (Hw0 : http.wroteHeader w0 = true) by exact Hw;
      rewrite (WriteHeader_committed c w0 Hw0)
  end.
  destruct (api.marshal v) as [t|].
  - match goal with
    | |- http.reply (http.Write ?b ?w0) = _ =>
        destruct (Write_committed b w0 Hw0) as (_ & B & C & D)
    end.
    unfold http.reply. rewrite B, C, D. reflexivity.
  - unfold http.reply. cbn [http.status http.sent http.body http.Header_Set].
    now rewrite append_empty_r.
Qed.

Lemma Error_sent (msg : string) (code : Z) (w : http.ResponseWriter) :
  http.wroteHeader w = false ->
  http.sent (http.Error msg code w)
  = <["X-Content-Type-Options" := "nosniff"]>
      (<["Content-Type" := "text/plain; charset=utf-8"]>
         (delete "Content-Length" (http.header w))).
Proof.
  intros Hw. unfold http.Error, http.Write, http.WriteHeader, http.Header_Set, http.Header_Del.
  cbn [http.wroteHeader]. rewrite Hw. reflexivity.
Qed.

Section Edges.

Context {S : Type} `{!storage.Storage S} `{!web.Renderer} `{!api.Decoder} `{!api.Validator}.

(** X6. [writeJSON] sends the status before it encodes and drops the
    encoder's error: for a value that cannot be marshalled the response is
    the given status, [application/json] and not one byte of body.  So a
    [GetExpenses] whose fetched list cannot be marshalled is answered 200
    with an empty body, where [ExportJSON] answers 500. *)
Theorem writeJSON_unmarshalable (r : http.Request) (s : api.State S) :
  http.wroteHeader (api.w s) = false ->
  (forall code v,
      api.marshal v = None ->
      http.reply (api.writeJSON code v (api.w s))
      = (code, http.json_type, http.body (api.w s)))
  /\ (forall l st,
        http.Method r = http.MethodGet ->
        storage.GetAllExpenses (api.store s) = ((l, None), st) ->
        api.marshal_expenses l = None ->
        http.reply (api.w (api.GetExpenses r s))
          = (200, http.json_type, http.body (api.w s))
        /\ http.status (api.w (api.ExportJSON r s)) = 500).
Proof.
  intros Hf.
  assert (Hgen : forall code v,
             api.marshal v = None ->
             http.reply (api.writeJSON code v (api.w s))
             = (code, http.json_type, http.body (api.w s))).
  { intros code v Hv. rewrite reply_writeJSON by exact Hf.
    unfold api.encoded. rewrite Hv. now rewrite append_empty_r. }
  split; [exact Hgen|].
  intros l st Hm Hg Hmar. split.
  - rewrite (GetExpenses_writer r s l st Hm Hg). apply Hgen. exact Hmar.
  - rewrite (marshal_failure_reply r s l st Hm Hg).
    + match goal with
      | |- http.status (http.Error ?m ?c ?w0) = _ =>
          exact (proj1 (Error_uncommitted m c w0 Hf))
      end.
    + unfold api.MarshalIndent. now rewrite Hmar.
Qed.

(** X7. When a template or a static file fails after the renderer has
    already started the response, the 500 never reaches the client: the
    status and the content type stay the ones the renderer sent, and the
    error text is added after the partial output. *)
Theorem render_failure_after_output
    (rt : api.Route) (r : http.Request) (s : api.State S)
    (w2 : http.ResponseWriter) (err : error) :
  http.Method r = http.MethodGet ->
  http.wroteHeader w2 = true ->
  (forall name,
      api.view_template rt = Some name ->
      web.ServeTemplate name (http.Header_Set "Content-Type" "text/html" (api.w s))
        = (w2, Some err) ->
      http.reply (api.w (api.handler rt r s))
      = (http.status w2, http.sent w2 !! "Content-Type",
         http.body w2 ++ "Failed to serve template" ++ newline))
  /\ (rt = api.RServeStaticFile ->
      web.ServeStatic (http.URL_Path r) (api.w s) = (w2, Some err) ->
      http.reply (api.w (api.handler rt r s))
      = (http.status w2, http.sent w2 !! "Content-Type",
         http.body w2 ++ "Failed to serve static file" ++ newline)).
Proof.
  intros Hm Hw2. split.
  - intros name Hrt Hr. rewrite (view_failure_reply rt name r s w2 err Hrt Hm Hr).
    apply Error_committed, Hw2.
  - intros -> Hr. cbn [api.handler].
    rewrite (static_failure_reply r s w2 err Hm Hr).
    apply Error_committed, Hw2.
Qed.

(** X8. A view handler hands the renderer a response writer whose
    Content-Type is already [text/html] and names its own template;
    [ServeStaticFile] hands over the writer as it is, with the request's
    path unchanged.  When the renderer returns no error the response is
    exactly what the renderer left: the handler adds nothing, logs nothing
    and touches neither storage nor configuration. *)
Theorem render_success (rt : api.Route) (r : http.Request) (s : api.State S)
    (w2 : http.ResponseWriter) :
  http.Method r = http.MethodGet ->
  (forall name,
      api.view_template rt = Some name ->
      web.ServeTemplate name (http.Header_Set "Content-Type" "text/html" (api.w s))
        = (w2, None) ->
      api.handler rt r s
      = {| api.w := w2; api.store := api.store s; api.conf := api.conf s;
           api.logs := api.logs s;
           api.calls := (api.calls s ++ [api.CallServeTemplate name])%list |})
  /\ (rt = api.RServeStaticFile ->
      web.ServeStatic (http.URL_Path r) (api.w s) = (w2, None) ->
      api.handler rt r s
      = {| api.w := w2; api.store := api.store s; api.conf := api.conf s;
           api.logs := api.logs s;
           api.calls := (api.calls s ++ [api.CallServeStatic (http.URL_Path r)])%list |}).
Proof.
  intros Hm. split.
  - intros name Hrt Hr.
    destruct rt; try discriminate Hrt; injection Hrt as <-; cbn [api.handler];
      unfold api.ServeTableView, api.ServeSettingsPage, api.ServeAPISetupView, api.serveView;
      rewrite (guard_passed r _ Hm), Hr; reflexivity.
  - intros -> Hr. cbn [api.handler]. unfold api.ServeStaticFile.
    rewrite (guard_passed r _ Hm), Hr. reflexivity.
Qed.

(** X9. The 500 of a failed serialization in [ExportJSON] still carries
    the download headers set before the serialization: the plain-text
    error is sent with [Content-Disposition: attachment;
    filename=expenses.json], next to [X-Content-Type-Options: nosniff]. *)
Theorem ExportJSON_failure_headers (r : http.Request) (s : api.State S)
    (l : slice config.Expense) (st : S) :
  http.Method r = http.MethodGet ->
  storage.GetAllExpenses (api.store s) = ((l, None), st) ->
  api.MarshalIndent l = None ->
  http.wroteHeader (api.w s) = false ->
  http.status (api.w (api.ExportJSON r s)) = 500
  /\ http.sent (api.w (api.ExportJSON r s)) !! "Content-Type"
     = Some "text/plain; charset=utf-8"
  /\ http.sent (api.w (api.ExportJSON r s)) !! "Content-Disposition"
     = Some "attachment; filename=expenses.json"
  /\ http.sent (api.w (api.ExportJSON r s)) !! "X-Content-Type-Options" = Some "nosniff".
Proof.
  intros Hm Hg Hmar Hf. rewrite (marshal_failure_reply r s l st Hm Hg Hmar).
  match goal with
  | |- http.status (http.Error ?m ?c ?w0) = _ /\ _ =>
      destruct (Error_uncommitted m c w0 Hf) as (A & B & _);
      pose proof (Error_sent m c w0 Hf) as C
  end.
  split; [exact A|]. split; [exact B|]. rewrite C.
  cbn [http.header http.Header_Set]. split.
  - rewrite !lookup_insert_ne by discriminate. rewrite lookup_delete_ne by discriminate.
    apply lookup_insert_eq.
  - apply lookup_insert_eq.
Qed.

End Edges.

(** The store whose one amount is NaN. *)
Lemma writeJSON_unmarshalable_witness :
  http.wroteHeader (api.w (sample.start sample.nan_store)) = false
  /\ http.reply (api.w (api.GetExpenses (sample.request "GET" "")
                          (sample.start sample.nan_store)))
     = (200, http.json_type, "").
Proof.
  split; [reflexivity|].
  pose proof (writeJSON_unmarshalable (sample.request "GET" "")
                (sample.start sample.nan_store) eq_refl) as [_ Hget].
  exact (proj1 (Hget (Some (memstore.records sample.nan_store)) sample.nan_store
                  eq_refl eq_refl eq_refl)).
Defined.

Lemma ExportJSON_failure_headers_witness :
  api.MarshalIndent (Some (memstore.records sample.nan_store)) = None
  /\ http.sent (api.w (api.ExportJSON (sample.request "GET" "")
                         (sample.start sample.nan_store))) !! "Content-Disposition"
     = Some "attachment; filename=expenses.json".
Proof.
  split; [reflexivity|].
  pose proof (ExportJSON_failure_headers (sample.request "GET" "")
                (sample.start sample.nan_store)
                (Some (memstore.records sample.nan_store)) sample.nan_store
                eq_refl eq_refl eq_refl eq_refl) as (_ & _ & Hdisp & _).
  exact Hdisp.
Defined.

(** The settings page on a renderer that fails half-way. *)
Lemma render_failure_after_output_witness :
  http.wroteHeader
    (http.Write "<html><body>"
       (http.Header_Set "Content-Type" "text/html" http.newResponseWriter)) = true
  /\ http.reply (api.w (api.ServeSettingsPage (H0 := sample.half_page)
                          (sample.request "GET" "") (sample.start memstore.empty)))
     = (200, Some "text/html", "<html><body>Failed to serve template" ++ newline).
Proof.
  split; [reflexivity|].
  pose proof (render_failure_after_output (H0 := sample.half_page)
                api.RServeSettingsPage (sample.request "GET" "")
                (sample.start memstore.empty)
                (http.Write "<html><body>"
                   (http.Header_Set "Content-Type" "text/html" http.newResponseWriter))
                sample.not_found eq_refl eq_refl) as [Hview _].
  exact (Hview "settings.html" eq_refl eq_refl).
Defined.

(** The table view on the renderer that knows it. *)
Lemma render_success_witness :
  http.Method (sample.request "GET" "") = http.MethodGet
  /\ api.w (api.ServeTableView (sample.request "GET" "") (sample.start memstore.empty))
     = http.Write "<html></html>"
         (http.Header_Set "Content-Type" "text/html" http.newResponseWriter).
Proof.
  split; [reflexivity|].
  pose proof (render_success api.RServeTableView (sample.request "GET" "")
                (sample.start memstore.empty)
                (http.Write "<html></html>"
                   (http.Header_Set "Content-Type" "text/html" http.newResponseWriter))
                eq_refl) as [Hview _].
  exact (f_equal api.w (Hview "table.html" eq_refl eq_refl)).
Defined.

(** ** Nothing to export *)

Section Nothing.

Context {S : Type} `{!storage.Storage S}.

Lemma ExportCSV_reply (r : http.Request) (s : api.State S)
    (l : slice config.Expense) (st : S) :
  http.Method r = http.MethodGet ->
  storage.GetAllExpenses (api.store s) = ((l, None), st) ->
  http.wroteHeader (api.w s) = false ->
  http.reply (api.w (api.ExportCSV r s))
  = (200, Some "text/csv",
     http.body (api.w s) ++ api.csvHeader ++ concat_all (map api.csvLine (elems l))).
Proof.
  intros Hm Hg Hf. rewrite (ExportCSV_writer r s l st Hm Hg).
  match goal with
  | |- http.reply (api.writeLines _ (http.Write ?b ?w0)) = _ =>
      destruct (Write_uncommitted b w0 Hf) as (A & B & C & D);
      destruct (writeLines_committed (elems l) _ A) as (_ & B' & C' & D')
  end.
  unfold http.reply. rewrite B', C', D', B, C, D.
  cbn [http.header http.Header_Set http.body].
  rewrite lookup_insert_ne by discriminate. rewrite lookup_insert_eq.
  now rewrite append_assoc.
Qed.

Lemma ExportJSON_reply (r : http.Request) (s : api.State S)
    (l : slice config.Expense) (st : S) (data : string) :
  http.Method r = http.MethodGet ->
  storage.GetAllExpenses (api.store s) = ((l, None), st) ->
  api.MarshalIndent l = Some data ->
  http.wroteHeader (api.w s) = false ->
  http.reply (api.w (api.ExportJSON r s)) = (200, http.json_type, http.body (api.w s) ++ data).
Proof.
  intros Hm Hg Hd Hf. rewrite (ExportJSON_writer r s l st data Hm Hg Hd).
  match goal with
  | |- http.reply (http.Write ?b ?w0) = _ =>
      destruct (Write_uncommitted b w0 Hf) as (_ & B & C & D)
  end.
  unfold http.reply. rewrite B, C, D. cbn [http.header http.Header_Set http.body].
  rewrite lookup_insert_ne by discriminate. now rewrite lookup_insert_eq.
Qed.

(** X10. With nothing stored the CSV export is the header line alone,
    whether the storage returns a nil slice or an empty one; the JSON
    export and the listing tell the two apart: [null] for nil, [[]] for
    empty (the listing with a line feed after it, the export without). *)
Theorem exports_of_nothing (r : http.Request) (s : api.State S)
    (l : slice config.Expense) (st : S) :
  http.Method r = http.MethodGet ->
  storage.GetAllExpenses (api.store s) = ((l, None), st) ->
  http.wroteHeader (api.w s) = false ->
  (elems l = [] ->
     http.reply (api.w (api.ExportCSV r s))
     = (200, Some "text/csv",
        http.body (api.w s) ++ "ID,Name,Category,Amount,Date" ++ newline))
  /\ (l = None ->
      http.reply (api.w (api.ExportJSON r s))
        = (200, http.json_type, http.body (api.w s) ++ "null")
      /\ http.reply (api.w (api.GetExpenses r s))
         = (200, http.json_type, http.body (api.w s) ++ "null" ++ newline))
  /\ (l = Some [] ->
      http.reply (api.w (api.ExportJSON r s))
        = (200, http.json_type, http.body (api.w s) ++ "[]")
      /\ http.reply (api.w (api.GetExpenses r s))
         = (200, http.json_type, http.body (api.w s) ++ "[]" ++ newline)).
Proof.
  intros Hm Hg Hf. split; [|split].
  - intros Hl. rewrite (ExportCSV_reply r s l st Hm Hg Hf), Hl.
    cbn [map concat_all]. now rewrite append_empty_r.
  - intros ->. split.
    + apply (ExportJSON_reply r s None st "null" Hm Hg eq_refl Hf).
    + rewrite (GetExpenses_writer r s None st Hm Hg), reply_writeJSON by exact Hf.
      reflexivity.
  - intros ->. split.
    + apply (ExportJSON_reply r s (Some []) st "[]" Hm Hg eq_refl Hf).
    + rewrite (GetExpenses_writer r s (Some []) st Hm Hg), reply_writeJSON by exact Hf.
      reflexivity.
Qed.

End Nothing.

(** The empty store. *)
Lemma exports_of_nothing_witness :
  http.Method (sample.request "GET" "") = http.MethodGet
  /\ http.reply (api.w (api.ExportJSON (sample.request "GET" "")
                          (sample.start memstore.empty)))
     = (200, http.json_type, "[]").
Proof.
  split; [reflexivity|].
  pose proof (exports_of_nothing (sample.request "GET" "") (sample.start memstore.empty)
                (Some []) memstore.empty eq_refl eq_refl eq_refl) as (_ & _ & Hempty).
  exact (proj1 (Hempty eq_refl)).
Defined.

(** ** The columns of a CSV record *)

Lemma split_from_length (sep : ascii) (s : string) :
  forall cur, length (split_from sep cur s) = S (count_char sep s).
Proof.
  induction s as [|c s IH]; intros cur; [reflexivity|].
  cbn [split_from count_char]. destruct (Ascii.eqb c sep).
  - cbn [length]. now rewrite IH.
  - now rewrite IH.
Qed.

Lemma count_char_app (c : ascii) (a b : string) :
  count_char c (a ++ b) = (count_char c a + count_char c b)%nat.
Proof.
  induction a as [|x a IH]; [reflexivity|].
  rewrite append_cons. cbn [count_char]. rewrite IH. lia.
Qed.

Lemma count_char_none (c : ascii) (s : string) :
  has_char c s = false -> count_char c s = O.
Proof.
  unfold has_char. rewrite negb_false_iff.
  induction s as [|x s IH]; [reflexivity|].
  cbn [forallb_str count_char]. intros [Hx Hs]%andb_true_iff.
  apply negb_true_iff in Hx. rewrite Hx, (IH Hs). reflexivity.
Qed.

Lemma split_from_piece (sep : ascii) (s rest : string) :
  forall cur,
    has_char sep s = false ->
    split_from sep cur (s ++ String sep rest) = cur s :: split sep rest.
Proof.
  induction s as [|c s IH]; intros cur Hs.
  - rewrite append_empty_l. cbn [split_from]. now rewrite Ascii.eqb_refl.
  - rewrite append_cons. cbn [split_from].
    unfold has_char in Hs. cbn [forallb_str] in Hs.
    apply negb_false_iff, andb_true_iff in Hs as [Hc Hs].
    apply negb_true_iff in Hc. rewrite Hc.
    rewrite IH; [reflexivity|]. unfold has_char. now rewrite Hs.
Qed.

Lemma split_from_last (sep : ascii) (s : string) :
  forall cur, has_char sep s = false -> split_from sep cur s = [cur s].
Proof.
  induction s as [|c s IH]; intros cur Hs; [reflexivity|].
  cbn [split_from]. unfold has_char in Hs. cbn [forallb_str] in Hs.
  apply negb_false_iff, andb_true_iff in Hs as [Hc Hs].
  apply negb_true_iff in Hc. rewrite Hc.
  rewrite IH; [reflexivity|]. unfold has_char. now rewrite Hs.
Qed.

Lemma digits_no_comma (s : string) : forallb_str is_digit s = true -> has_char "," s = false.
Proof.
  intros Hs. unfold has_char. apply negb_false_iff.
  revert Hs. apply forallb_str_impl. intros c Hc.
  destruct (Ascii.eqb_spec c ",") as [->|]; [discriminate Hc | reflexivity].
Qed.

Lemma Sprintf_2f_no_comma (f : float64) : has_char "," (fmt.Sprintf_2f f) = false.
Proof.
  assert (Hq : forall q, has_char "," (fmt.fixed2 q) = false).
  { intros q. unfold fmt.fixed2. rewrite !has_char_app.
    now rewrite (digits_no_comma _ (dec_digits _)), (digits_no_comma _ (pad_left_digits _ _)). }
  destruct f as [s|[|]| |s m e]; cbn [fmt.Sprintf_2f]; try reflexivity;
    rewrite has_char_app, Hq; destruct s; reflexivity.
Qed.

Lemma appendInt_no_comma (x : Z) (k : nat) : has_char "," (time.appendInt x k) = false.
Proof.
  unfold time.appendInt. destruct (x <? 0).
  - rewrite has_char_app, (digits_no_comma _ (pad_left_digits _ _)). reflexivity.
  - apply digits_no_comma, pad_left_digits.
Qed.

Lemma Format_DateTime_no_comma (t : time.Time) :
  has_char "," (time.Format_DateTime t) = false.
Proof.
  unfold time.Format_DateTime, time.date_text, time.clock_text.
  rewrite !has_char_app, !appendInt_no_comma. reflexivity.
Qed.

Lemma ReplaceAll1_length (s : string) (old new : ascii) :
  String.length (strings.ReplaceAll1 s old new) = String.length s.
Proof.
  induction s as [|c s IH]; [reflexivity|].
  cbn [strings.ReplaceAll1 map_str String.length]. fold (strings.ReplaceAll1 s old new).
  now rewrite IH.
Qed.

Lemma ReplaceAll1_absent (s : string) (old new : ascii) :
  has_char old s = false -> strings.ReplaceAll1 s old new = s.
Proof.
  unfold has_char. rewrite negb_false_iff.
  induction s as [|c s IH]; [reflexivity|].
  cbn [strings.ReplaceAll1 map_str forallb_str]. fold (strings.ReplaceAll1 s old new).
  intros [Hc Hs]%andb_true_iff. apply negb_true_iff in Hc. now rewrite Hc, (IH Hs).
Qed.

(** X11. A CSV record is the five fields joined by commas and a line
    feed, and splitting it at the commas gives five columns plus one for
    every comma in the id and in the category, which are written as they
    are: exactly the five fields when those two hold no comma.  The name
    column has the length of the name and is the name itself when the name
    holds no comma. *)
Theorem csv_columns (e : config.Expense) :
  api.csvLine e = api.csvRow (fmt.Sprintf_2f (config.Amount e)) e ++ newline
  /\ length (split "," (api.csvRow (fmt.Sprintf_2f (config.Amount e)) e))
     = (5 + count_char "," (config.ID e) + count_char "," (config.Category e))%nat
  /\ (has_char "," (config.ID e) = false ->
      has_char "," (config.Category e) = false ->
      split "," (api.csvRow (fmt.Sprintf_2f (config.Amount e)) e)
      = [config.ID e; strings.ReplaceAll1 (config.Name e) "," ";"; config.Category e;
         fmt.Sprintf_2f (config.Amount e); time.Format_DateTime (config.Date e)])
  /\ String.length (strings.ReplaceAll1 (config.Name e) "," ";")
     = String.length (config.Name e)
  /\ (has_char "," (config.Name e) = false ->
      strings.ReplaceAll1 (config.Name e) "," ";" = config.Name e).
Proof.
  split; [apply csvLine_row|]. split; [|split; [|split]].
  - unfold split. rewrite split_from_length. unfold api.csvRow.
    rewrite !count_char_app.
    rewrite (count_char_none _ _ (ReplaceAll1_no_old (config.Name e) "," ";" ltac:(discriminate))).
    rewrite (count_char_none _ _ (Sprintf_2f_no_comma _)).
    rewrite (count_char_none _ _ (Format_DateTime_no_comma _)).
    change (count_char "," ",") with 1%nat. lia.
  - intros Hid Hcat. unfold split, api.csvRow.
    rewrite !(append_cons "," "" _), !append_empty_l.
    rewrite (split_from_piece "," _ _ _ Hid). unfold split.
    rewrite (split_from_piece "," _ _ _
               (ReplaceAll1_no_old (config.Name e) "," ";" ltac:(discriminate))).
    unfold split. rewrite (split_from_piece "," _ _ _ Hcat). unfold split.
    rewrite (split_from_piece "," _ _ _ (Sprintf_2f_no_comma _)). unfold split.
    rewrite (split_from_last "," _ _ (Format_DateTime_no_comma _)). reflexivity.
  - apply ReplaceAll1_length.
  - apply ReplaceAll1_absent.
Qed.

(** ** The date of a new expense *)

(** X12. Normalizing the date of a request never moves the instant and
    changes nothing when done twice.  The result is in UTC exactly when
    the date is not the zero instant or was in UTC already: a zero instant
    written with an offset keeps its offset.  Two dates that are not the
    zero instant and denote the same instant give the same expense date,
    whatever their zones, and so the same text in both exports. *)
Theorem normalize_date_instant (d : time.Time) :
  time.Equal (api.normalize_date d) d
  /\ api.normalize_date (api.normalize_date d) = api.normalize_date d
  /\ (time.loc (api.normalize_date d) = None <-> time.IsZero d = false \/ time.loc d = None)
  /\ (forall d',
        time.IsZero d = false -> time.Equal d d' ->
        api.normalize_date d = api.normalize_date d'
        /\ time.Format_DateTime (api.normalize_date d)
           = time.Format_DateTime (api.normalize_date d')
        /\ time.Format_RFC3339Nano (api.normalize_date d)
           = time.Format_RFC3339Nano (api.normalize_date d')).
Proof.
  unfold api.normalize_date. split; [|split; [|split]].
  - destruct (time.IsZero d); split; reflexivity.
  - destruct (time.IsZero d) eqn:Hz; cbn [negb].
    + now rewrite Hz.
    + unfold time.IsZero, time.UTC in *. cbn [time.sec time.nsec]. now rewrite Hz.
  - destruct (time.IsZero d) eqn:Hz; cbn [negb]; split.
    + intros Hl. now right.
    + intros [Hc|Hl]; [discriminate | exact Hl].
    + intros _. now left.
    + intros _. reflexivity.
  - intros d' Hz [Hs Hn].
    assert (Hz' : time.IsZero d' = false).
    { unfold time.IsZero in *. now rewrite <- Hs, <- Hn. }
    rewrite Hz, Hz'. cbn [negb].
    assert (Heq : time.UTC d = time.UTC d') by (unfold time.UTC; now rewrite Hs, Hn).
    rewrite Heq. repeat split.
Qed.

(** ** Error bodies *)

(** X13. Every JSON error body a handler writes is well-formed JSON,
    whatever the message (a validator's message may hold quotes,
    backslashes or line breaks): it decodes to one object with the single
    key [error], and so does the success body with its key [status]. *)
Theorem error_body_decodes (msg : string) :
  jsonread.decode (api.error_body msg)
    = Some (json.Obj [("error", json.Str (json.escape msg))])
  /\ jsonread.decode api.success_body = Some (json.Obj [("status", json.Str "success")])
  /\ api.encoded (api.PError {| api.Error := msg |}) = api.error_body msg.
Proof.
  split; [|split].
  - unfold api.error_body. apply decode_render.
    cbn [jsonread.wf forallb fst snd]. now rewrite escape_ok.
  - unfold api.success_body. apply decode_render. reflexivity.
  - reflexivity.
Qed.

(** ** What reaches the log *)

Section Logged.

Context {S : Type} `{!storage.Storage S} `{!web.Renderer} `{!api.Decoder} `{!api.Validator}.

(** X14. The error a collaborator returns is written to the server log,
    in one line that ends with its message: after a refused validation, a
    failed save, a failed fetch in each of the three handlers that fetch, a
    failed delete (not found or not), a failed template in the table and
    settings views, and a failed static file, whose line also names the
    path. *)
Theorem failure_logged (r : http.Request) (s : api.State S) (err : error) :
  (forall req,
      http.Method r = http.MethodPut ->
      api.Decode_ExpenseRequest (http.Body r) = inl req ->
      (api.Validate (api.expense_of req) = Some err ->
       api.logs (api.AddExpense r s)
       = (api.logs s
          ++ [("HTTP ERROR: Failed to validate expense: " ++ errors.Error err)%string])%list)
      /\ (forall saved st,
            api.Validate (api.expense_of req) = None ->
            storage.SaveExpense (api.expense_of req) (api.store s)
              = ((saved, Some err), st) ->
            api.logs (api.AddExpense r s)
            = (api.logs s
               ++ [("HTTP ERROR: Failed to save expense: " ++ errors.Error err)%string])%list))
  /\ (forall rt l st,
        api.fetches rt = true ->
        http.Method r = http.MethodGet ->
        storage.GetAllExpenses (api.store s) = ((l, Some err), st) ->
        api.logs (api.handler rt r s)
        = (api.logs s
           ++ [("HTTP ERROR: Failed to retrieve expenses: " ++ errors.Error err)%string])%list)
  /\ (forall st,
        http.Method r = http.MethodDelete ->
        http.Query_Get (http.URL_Query r) "id" <> "" ->
        storage.DeleteExpense (http.Query_Get (http.URL_Query r) "id") (api.store s)
          = (Some err, st) ->
        api.logs (api.DeleteExpense r s)
        = (api.logs s
           ++ [((if decide (err = storage.ErrExpenseNotFound)
                 then "HTTP ERROR: Expense not found: "
                 else "HTTP ERROR: Failed to delete expense: ")
                ++ errors.Error err)%string])%list)
  /\ (forall rt name w2,
        rt = api.RServeTableView \/ rt = api.RServeSettingsPage ->
        api.view_template rt = Some name ->
        http.Method r = http.MethodGet ->
        web.ServeTemplate name (http.Header_Set "Content-Type" "text/html" (api.w s))
          = (w2, Some err) ->
        api.logs (api.handler rt r s)
        = (api.logs s
           ++ [("HTTP ERROR: Failed to serve template: " ++ errors.Error err)%string])%list)
  /\ (forall w2,
        http.Method r = http.MethodGet ->
        web.ServeStatic (http.URL_Path r) (api.w s) = (w2, Some err) ->
        api.logs (api.ServeStaticFile r s)
        = (api.logs s
           ++ [("HTTP ERROR: Failed to serve static file " ++ http.URL_Path r ++ ": "
                ++ errors.Error err)%string])%list).
Proof.
  split; [|split; [|split; [|split]]].
  - intros req Hm Hd. split.
    + intros Hv. unfold api.AddExpense. rewrite (guard_passed r _ Hm), Hd, Hv. reflexivity.
    + intros saved st Hv Hs. unfold api.AddExpense.
      rewrite (guard_passed r _ Hm), Hd, Hv, Hs. reflexivity.
  - intros rt l st Hrt Hm Hg.
    destruct rt; try discriminate Hrt; cbn [api.handler];
      unfold api.GetExpenses, api.ExportCSV, api.ExportJSON;
      rewrite (guard_passed r _ Hm), Hg; reflexivity.
  - intros st Hm Hid Hdel. unfold api.DeleteExpense. rewrite (guard_passed r _ Hm).
    apply String.eqb_neq in Hid. rewrite Hid, Hdel.
    destruct (decide _); reflexivity.
  - intros rt name w2 Hrt Hname Hm Hr.
    destruct Hrt as [-> | ->]; injection Hname as <-; cbn [api.handler];
      unfold api.ServeTableView, api.ServeSettingsPage, api.serveView;
      rewrite (guard_passed r _ Hm), Hr; reflexivity.
  - intros w2 Hm Hr. unfold api.ServeStaticFile.
    rewrite (guard_passed r _ Hm), Hr. reflexivity.
Qed.

End Logged.

(** ** The configuration handlers *)

Lemma marshal_strings_wf (l : slice string) : jsonread.wf (api.marshal_strings l) = true.
Proof.
  destruct l as [l|]; [|reflexivity]. cbn [api.marshal_strings jsonread.wf].
  induction l as [|x l IH]; [reflexivity|].
  cbn [map forallb jsonread.wf api.marshal_string]. now rewrite escape_ok, IH.
Qed.

Section Configuration.

Context {S : Type} `{!storage.Storage S} `{!web.Renderer} `{!api.Decoder} `{!api.Validator}.

(** X15. A GET of the configuration reads and changes nothing: store,
    configuration, log and call record stay as they are.  Its body is
    well-formed JSON whatever the category names and the currency hold:
    it decodes to one object with the keys [categories] and [currency],
    the categories in their order, and a nil category list is sent as
    [null], not as an empty array. *)
Theorem GetCategories_body (r : http.Request) (s : api.State S) :
  http.Method r = http.MethodGet ->
  http.wroteHeader (api.w s) = false ->
  let s' := api.GetCategories r s in
  let t := json.Obj [("categories", api.marshal_strings (config.Categories (api.conf s)));
                     ("currency", json.Str (json.escape (config.Currency (api.conf s))))] in
  http.reply (api.w s') = (200, http.json_type, http.body (api.w s) ++ json.render t ++ newline)
  /\ jsonread.decode (json.render t ++ newline) = Some t
  /\ (forall l, config.Categories (api.conf s) = Some l ->
        api.marshal_strings (config.Categories (api.conf s))
        = json.Arr (map (fun c => json.Str (json.escape c)) l))
  /\ (config.Categories (api.conf s) = None ->
        api.marshal_strings (config.Categories (api.conf s)) = json.Lit "null")
  /\ api.store s' = api.store s /\ api.conf s' = api.conf s
  /\ api.logs s' = api.logs s /\ api.calls s' = api.calls s.
Proof.
  intros Hm Hf s' t.
  assert (Hs' : s' = api.set_w (api.writeJSON http.StatusOK
                       (api.PConfig {| api.Categories := config.Categories (api.conf s);
                                       api.Currency := config.Currency (api.conf s) |})) s).
  { unfold s', api.GetCategories. now rewrite (guard_passed r _ Hm). }
  rewrite Hs'. state_simpl.
  split; [rewrite (reply_writeJSON _ _ _ Hf); reflexivity|].
  split.
  { apply decode_render. unfold t. cbn [jsonread.wf forallb fst snd].
    now rewrite marshal_strings_wf, escape_ok. }
  split; [intros l ->; reflexivity|].
  split; [intros ->; reflexivity|].
  repeat split.
Qed.

(** X16. A PUT of the currency whose body decodes to a string hands that
    string to [UpdateCurrency] as it is, the empty string too: the handler
    checks nothing about it.  It answers 200 with the success body, logs
    one line, and does not call the storage. *)
Theorem EditCurrency_updates (r : http.Request) (s : api.State S) (currency : string) :
  http.Method r = http.MethodPut ->
  api.Decode_string (http.Body r) = inl currency ->
  http.wroteHeader (api.w s) = false ->
  let s' := api.EditCurrency r s in
  http.reply (api.w s') = (200, http.json_type, http.body (api.w s) ++ api.success_body)
  /\ api.calls s' = (api.calls s ++ [api.CallUpdateCurrency currency])%list
  /\ api.conf s' = config.UpdateCurrency currency (api.conf s)
  /\ api.store s' = api.store s
  /\ api.logs s' = (api.logs s ++ ["HTTP: Updated currency"])%list.
Proof.
  intros Hm Hd Hf s'.
  assert (Hs' : s' = api.log "HTTP: Updated currency"
                  (api.set_w (api.writeJSON http.StatusOK (api.PMap [("status", "success")]))
                     (api.called (api.CallUpdateCurrency currency)
                        (api.set_conf (config.UpdateCurrency currency (api.conf s)) s)))).
  { unfold s', api.EditCurrency. now rewrite (guard_passed r _ Hm), Hd. }
  rewrite Hs'. state_simpl.
  split; [apply reply_writeJSON, Hf|]. repeat split.
Qed.

End Configuration.

(** The configuration of the sample state, read back from the body. *)
Lemma GetCategories_body_witness :
  jsonread.decode
    (json.render (json.Obj [("categories", json.Arr [json.Str "Misc"]);
                            ("currency", json.Str "usd")]) ++ newline)
  = Some (json.Obj [("categories", json.Arr [json.Str "Misc"]); ("currency", json.Str "usd")]).
Proof.
  pose proof (GetCategories_body (sample.request "GET" "") (sample.start memstore.empty)
                eq_refl eq_refl) as Hthm.
  exact (proj1 (proj2 Hthm)).
Defined.

(** EUR replaces the currency of the sample state. *)
Lemma EditCurrency_updates_witness :
  api.calls (api.EditCurrency (sample.request "PUT" (json.quoted "EUR"))
               (sample.start memstore.empty))
  = [api.CallUpdateCurrency "EUR"].
Proof.
  pose proof (EditCurrency_updates (sample.request "PUT" (json.quoted "EUR"))
                (sample.start memstore.empty) "EUR" eq_refl eq_refl eq_refl) as Hthm.
  exact (proj1 (proj2 Hthm)).
Defined.

(** ** Instances of the properties above *)

(** A record whose name holds a comma still has five columns. *)
Lemma csv_columns_witness :
  split ","
    (api.csvRow "3.50"
       {| config.ID := "exp-1"; config.Name := "Rent, May"; config.Category := "Home";
          config.Amount := sample.amount_3_5; config.Date := time.UTC sample.noon |})
  = ["exp-1"; "Rent; May"; "Home"; "3.50"; "2025-01-01 12:00:00"].
Proof.
  destruct (csv_columns
              {| config.ID := "exp-1"; config.Name := "Rent, May"; config.Category := "Home";
                 config.Amount := sample.amount_3_5; config.Date := time.UTC sample.noon |})
    as (_ & _ & Hsplit & _).
  exact (Hsplit eq_refl eq_refl).
Defined.

(** 14:00 at +02:00 and 12:00 UTC become the same expense date. *)
Lemma normalize_date_instant_witness :
  api.normalize_date sample.noon = api.normalize_date (time.UTC sample.noon)
  /\ time.loc (api.normalize_date sample.noon) = None.
Proof.
  destruct (normalize_date_instant sample.noon) as (_ & _ & Hloc & Hsame).
  destruct (Hsame (time.UTC sample.noon) eq_refl (conj eq_refl eq_refl)) as (Heq & _).
  split; [exact Heq | apply Hloc; left; reflexivity].
Defined.

(** The message of a failing disk reaches the log. *)
Lemma failure_logged_witness :
  api.logs (api.GetExpenses (sample.request "GET" "") (sample.start sample.broken_store))
  = ["HTTP ERROR: Failed to retrieve expenses: write expenses.json: no space left on device"].
Proof.
  destruct (failure_logged (sample.request "GET" "") (sample.start sample.broken_store)
              sample.disk_full) as (_ & Hfetch & _).
  exact (Hfetch api.RGetExpenses None sample.broken_store eq_refl eq_refl eq_refl).
Defined.
